(** * Sentiment trading: signal fusion, budget gateway and backtest simulator

    A shallow embedding of the Python sources

      - [src/strategy/trading_strategy.py]   (module [TradingStrategy])
      - [src/sentiment/rate_limiter.py]      (module [RateLimiter])
      - [src/sentiment/gpt_analyzer.py]      (module [GPTSentimentAnalyzer])
      - [src/strategy/backtesting_engine.py] (module [BacktestingEngine])

    followed by the theorems that relate the embedding to the written
    specification.

    Conventions of the embedding.

    - Python [float] values are modelled by rationals [Q]; equality of
      results is stated with [==].  Arithmetic is exact, except where the
      code's result depends on the rounding itself: the normalisation of the
      weights in [SentimentTradingStrategy.__init__] and the truncation
      [int(estimated_tokens * 0.7)] in [record_request] use the binary64
      operations of module [Binary64].  Infinities and NaN are outside the
      model.
    - A Python [dict] is a [gmap]; [d.get(k)] is a lookup, and a key bound to
      [None] reads like a missing key.
    - Mutation of [self] or of a local list becomes explicit state passing.
    - A raised exception is the left injection of a sum type. *)

From Stdlib Require Import ZArith QArith Qpower Qabs Qminmax Qround Lqa Lia List
  String Ascii SpecFloat.
From stdpp Require Import gmap strings.
Import ListNotations.

Open Scope Q_scope.
Open Scope string_scope.
Open Scope list_scope.

(** ** Numbers and Python built-ins *)

Module Py.

(** Comparison operators on floats. *)
Definition ltb (a b : Q) : bool := negb (Qle_bool b a).
Definition gtb (a b : Q) : bool := ltb b a.
Definition leb (a b : Q) : bool := Qle_bool a b.
Definition geb (a b : Q) : bool := Qle_bool b a.

(** Truth value of a number: only zero is false. *)
Definition nonzero (v : Q) : bool := negb (Qeq_bool v 0).

(** [min(a, b)] and [max(a, b)]: the first argument wins ties. *)
Definition min (a b : Q) : Q := if ltb b a then b else a.
Definition max (a b : Q) : Q := if gtb b a then b else a.

(** [sum(l)]: starts from 0 and adds from the left. *)
Definition sum (l : list Q) : Q := fold_left Qplus l 0.

(** [len(l)] as a float operand. *)
Definition len {A} (l : list A) : Q := inject_Z (Z.of_nat (length l)).

(** [int(x)] on a float: truncation toward zero. *)
Definition int (x : Q) : Z := Z.quot (Qnum x) (Zpos (Qden x)).

(** The key that a failed dictionary or column access names. *)
Inductive key : Type :=
| StrKey (name : string)
| DateKey (day : Z).

(** Exceptions that the modelled code can raise. *)
Inductive exn : Type :=
| KeyError (k : key)
| ValueError (msg : string)
| IndexError
| OverflowError
| ZeroDivisionError.

(** A computation that returns or raises. *)
Definition result (A : Type) : Type := exn + A.

Definition ret {A} (a : A) : result A := inr a.
Definition raise {A} (e : exn) : result A := inl e.
Definition bind {A B} (m : result A) (k : A -> result B) : result B :=
  match m with
  | inl e => inl e
  | inr a => k a
  end.

End Py.

(** ** Binary64 arithmetic

    A Python [float] operation returns the binary64 number nearest to the
    exact result, ties going to the even significand.  [round] is that
    rounding on the rationals; it covers the normal and the subnormal range
    and has no upper end, so it stands for the Python operation as long as
    the result stays below 2^1024. *)

Module Binary64.

Definition pow2 (e : Z) : Q := 2 ^ e.

(** The exponent [e] with [2^(e-1) <= |x| < 2^e], for [x] other than 0. *)
Definition mag (x : Q) : Z :=
  let k := (Z.log2 (Z.abs (Qnum x)) - Z.log2 (Zpos (Qden x)))%Z in
  if Qle_bool (pow2 k) (Qabs x) then (k + 1)%Z else k.

(** The exponent of the last place: 53 significant bits, and the fixed
    spacing 2^-1074 of the subnormal numbers. *)
Definition fexp (e : Z) : Z := Z.max (e - 53) (-1074).

(** The nearest integer, ties to even. *)
Definition rne (y : Q) : Z :=
  let f := Qfloor y in
  match Qcompare (y - inject_Z f) (1 # 2) with
  | Lt => f
  | Gt => (f + 1)%Z
  | Eq => if Z.even f then f else (f + 1)%Z
  end.

(** The binary64 number nearest to [x]; [round 0.7] is the float that the
    literal [0.7] denotes. *)
Definition round (x : Q) : Q :=
  let e := fexp (mag x) in inject_Z (rne (x / pow2 e)) * pow2 e.

(** [a + b], [a * b] and [a / b] on floats. *)
Definition add (a b : Q) : Q := round (a + b).
Definition mul (a b : Q) : Q := round (a * b).
Definition div (a b : Q) : Q := round (a / b).

(** The conversion of an [int] operand to [float]. *)
Definition of_int (n : Z) : Q := round (inject_Z n).

(** The unit roundoff 2^-53 and half the smallest subnormal number. *)
Definition u : Q := pow2 (-53).
Definition eta : Q := pow2 (-1075).

(** [eta] in lowest terms. *)
Definition tiny : Q := Eval vm_compute in Qred eta.

(** The same operations as the Standard Library's [SpecFloat] computes
    them on significand and exponent, for comparison: the value of a
    finite float, the float of an integer, and the quotient, product and
    sum of two integer ratios. *)
Definition spec_value (f : spec_float) : Q :=
  match f with
  | S754_finite s m e => (if s then -1 else 1) * inject_Z (Zpos m) * pow2 e
  | _ => 0
  end.

Definition spec_of_int (n : Z) : spec_float := binary_normalize 53 1024 n 0 false.

Definition spec_ratio (nd : Z * Z) : spec_float :=
  SFdiv 53 1024 (spec_of_int nd.1) (spec_of_int nd.2).

Definition ratio (nd : Z * Z) : Q := round (inject_Z nd.1 / inject_Z nd.2).

(** Ratios of integers, among them integers halfway between two
    floats. *)
Definition samples : list (Z * Z) :=
  [(7, 10); (3, 10); (1, 10); (15, 100); (6, 10); (1, 3); (-2, 3); (1, 1);
   (0, 1); (123456789, 1000); (700, 1); (3 * 2 ^ 300, 7); (1, 5 * 2 ^ 350);
   (9007199254740993, 1); (9007199254740995, 1); (2 ^ 60 + 2 ^ 7, 1);
   (2 ^ 60 + 3 * 2 ^ 7, 1)]%Z.

(** Quotients [m * 2^e / d] in and next to the subnormal range. *)
Definition small_samples : list (Z * Z * Z) :=
  [(3, -1070, 7); (1, -1074, 2); (3, -1074, 2); (5, -1074, 2); (1, -1074, 3);
   (1, -1060, 3); (7, -1030, 3); (1, -1022, 3); (1, -1021, 3);
   (2 ^ 53 - 1, -1127, 1); (2 ^ 53 + 1, -1127, 1)]%Z.

End Binary64.

Notation "x <- m ;;; k" := (Py.bind m (fun x => k))
  (at level 100, m at next level, right associativity, only parsing).

(** A dictionary from indicator names to optional floats. *)
Abbreviation indicator_dict := (gmap string (option Q)).

(** ** [trading_strategy.py] *)

Module TradingStrategy.

(** [indicators.get(k)]: a missing key and a key bound to [None] both
    give [None]. *)
Definition get (indicators : indicator_dict) (k : string) : option Q :=
  match indicators !! k with
  | Some (Some v) => Some v
  | _ => None
  end.

(** The attributes set by [__init__]. *)
Record strategy : Type := Strategy {
  sentiment_weight : Q;
  technical_weight : Q;
  buy_threshold : Q;
  sell_threshold : Q
}.

(** [SentimentTradingStrategy.__init__]: the weights are divided by their
    total when the total is positive, and stored as given otherwise.  The
    sum and the two quotients are binary64 operations. *)
Definition __init__ (sentiment_weight technical_weight
                     buy_threshold sell_threshold : Q) : strategy :=
  let total_weight := Binary64.add sentiment_weight technical_weight in
  if Py.gtb total_weight 0 then
    Strategy (Binary64.div sentiment_weight total_weight)
             (Binary64.div technical_weight total_weight)
             buy_threshold sell_threshold
  else
    Strategy sentiment_weight technical_weight buy_threshold sell_threshold.

(** The strategy built from the constructor's default arguments: their
    total is 1.0, and the division by 1.0 stores them as given. *)
Definition default_strategy : strategy := Strategy 0.6 0.4 0.6 (-0.6).

(** *** [_calculate_technical_score]

    Each block of the function appends at most one vote to the local list
    [scores]; a block is a function from the list before to the list
    after. *)

Definition rsi_block (indicators : indicator_dict) (scores : list Q) : list Q :=
  match get indicators "RSI" with
  | Some rsi =>
      if Py.ltb rsi 30 then scores ++ [0.7]
      else if Py.gtb rsi 70 then scores ++ [-0.7]
      else if Py.ltb rsi 50 then scores ++ [0.2]
      else scores ++ [-0.2]
  | None => scores
  end.

Definition macd_block (indicators : indicator_dict) (scores : list Q) : list Q :=
  match get indicators "MACD", get indicators "MACD_signal" with
  | Some macd, Some macd_signal =>
      if Py.gtb macd macd_signal then scores ++ [0.5]
      else scores ++ [-0.3]
  | _, _ => scores
  end.

Definition macd_diff_block (indicators : indicator_dict) (scores : list Q) : list Q :=
  match get indicators "MACD_diff" with
  | Some macd_diff =>
      if Py.gtb macd_diff 0 then scores ++ [0.3]
      else scores ++ [-0.3]
  | None => scores
  end.

(** [if all([ma_20, ma_50, current_price])]: a truthiness test. *)
Definition ma_block (indicators : indicator_dict) (scores : list Q) : list Q :=
  match get indicators "MA_20", get indicators "MA_50",
        get indicators "current_price" with
  | Some ma_20, Some ma_50, Some current_price =>
      if Py.nonzero ma_20 && Py.nonzero ma_50 && Py.nonzero current_price then
        if Py.gtb current_price ma_20 && Py.gtb ma_20 ma_50 then scores ++ [0.6]
        else if Py.ltb current_price ma_20 && Py.ltb ma_20 ma_50 then scores ++ [-0.6]
        else scores ++ [0.0]
      else scores
  | _, _, _ => scores
  end.

(** [if ma_200 and current_price]: a truthiness test. *)
Definition ma_200_block (indicators : indicator_dict) (scores : list Q) : list Q :=
  match get indicators "MA_200", get indicators "current_price" with
  | Some ma_200, Some current_price =>
      if Py.nonzero ma_200 && Py.nonzero current_price then
        if Py.gtb current_price ma_200 then scores ++ [0.2]
        else scores ++ [-0.2]
      else scores
  | _, _ => scores
  end.

(** [if all([bb_high, bb_low, bb_mid, current_price])]. *)
Definition bb_block (indicators : indicator_dict) (scores : list Q) : list Q :=
  match get indicators "BB_high", get indicators "BB_low",
        get indicators "BB_mid", get indicators "current_price" with
  | Some bb_high, Some bb_low, Some bb_mid, Some current_price =>
      if Py.nonzero bb_high && Py.nonzero bb_low && Py.nonzero bb_mid
         && Py.nonzero current_price then
        if Py.leb current_price bb_low then scores ++ [0.5]
        else if Py.geb current_price bb_high then scores ++ [-0.5]
        else scores ++ [0.0]
      else scores
  | _, _, _, _ => scores
  end.

(** [if volume and volume_sma]. *)
Definition volume_block (indicators : indicator_dict) (scores : list Q) : list Q :=
  match get indicators "volume", get indicators "volume_sma" with
  | Some volume, Some volume_sma =>
      if Py.nonzero volume && Py.nonzero volume_sma then
        if Py.gtb volume (volume_sma * 1.5) then scores ++ [0.2]
        else if Py.ltb volume (volume_sma * 0.5) then scores ++ [-0.1]
        else scores
      else scores
  | _, _ => scores
  end.

(** The list [scores] when the averaging step is reached. *)
Definition collected_scores (indicators : indicator_dict) : list Q :=
  let scores := [] in
  let scores := rsi_block indicators scores in
  let scores := macd_block indicators scores in
  let scores := macd_diff_block indicators scores in
  let scores := ma_block indicators scores in
  let scores := ma_200_block indicators scores in
  let scores := bb_block indicators scores in
  let scores := volume_block indicators scores in
  scores.

Definition _calculate_technical_score (indicators : indicator_dict) : Q :=
  if bool_decide (indicators = ∅) then 0.0
  else
    let scores := collected_scores indicators in
    match scores with
    | _ :: _ =>
        let avg_score := Py.sum scores / Py.len scores in
        Py.max (-1.0) (Py.min 1.0 avg_score)
    | [] => 0.0
    end.

(** *** [_calculate_technical_confidence] *)

Definition available (indicators : indicator_dict) (k : string) : Z :=
  match get indicators k with
  | Some _ => 1
  | None => 0
  end.

Definition _calculate_technical_confidence (indicators : indicator_dict) : Q :=
  if bool_decide (indicators = ∅) then 0.3
  else
    let available_indicators :=
      (available indicators "RSI" + available indicators "MACD"
       + available indicators "MA_20" + available indicators "MA_50"
       + available indicators "MA_200" + available indicators "BB_high")%Z in
    Py.min 1.0 (0.4 + inject_Z available_indicators / 10.0).

(** *** [generate_signal] *)

Inductive signal_type : Type := buy | sell | hold.

(** The entries of [sentiment_data] that the signal depends on; [None] is
    a missing key, replaced by the default of the [.get] call. *)
Record sentiment_data : Type := SentimentData {
  sd_weighted_score : option Q;
  sd_confidence : option Q
}.

(** The numeric entries of the returned dictionary.  The [reasoning]
    string is a formatted rendering of the same values and is left out. *)
Record signal : Type := Signal {
  sig_type : signal_type;
  sig_confidence : Q;
  sig_sentiment_score : Q;
  sig_technical_score : Q;
  sig_final_score : Q
}.

Definition generate_signal (self : strategy) (sentiment : sentiment_data)
                           (indicators : indicator_dict) : signal :=
  let sentiment_score := default 0.0 (sd_weighted_score sentiment) in
  let sentiment_confidence := default 0.5 (sd_confidence sentiment) in
  let technical_score := _calculate_technical_score indicators in
  let technical_confidence := _calculate_technical_confidence indicators in
  let final_score := sentiment_weight self * sentiment_score
                     + technical_weight self * technical_score in
  let overall_confidence := sentiment_weight self * sentiment_confidence
                            + technical_weight self * technical_confidence in
  let signal_type :=
    if Py.gtb final_score (buy_threshold self) then buy
    else if Py.ltb final_score (sell_threshold self) then sell
    else hold in
  Signal signal_type overall_confidence sentiment_score technical_score
         final_score.

(** *** [calculate_position_size] *)

(** The position size, for a volatility other than -1: at -1 the code
    divides by zero and raises [ZeroDivisionError].  The simulator passes
    no volatility. *)
Definition calculate_position_size (capital signal_confidence : Q)
                                   (volatility : option Q)
                                   (risk_per_trade : Q) : Q :=
  let base_position := capital * risk_per_trade in
  let position_multiplier := 0.5 + signal_confidence * 1.5 in
  let position_multiplier := Py.min 2.0 (Py.max 0.5 position_multiplier) in
  let position_size := base_position * position_multiplier in
  match volatility with
  | Some v =>
      if Py.nonzero v then position_size * (1.0 / (1.0 + v))
      else position_size
  | None => position_size
  end.

(** *** [_generate_reasoning]

    The technical observations that the reasoning text lists.  The text
    itself renders numbers with two decimals and is not modelled. *)

Inductive tech_reason : Type :=
| rsi_oversold
| rsi_overbought
| macd_bullish
| macd_bearish
| price_above_ma_20
| price_below_ma_20.

(** The list [tech_reasons] before it is sliced; every test is a truth
    test ([if rsi:], [if macd_diff:], [if current_price and ma_20:]). *)
Definition tech_reasons (indicators : indicator_dict) : list tech_reason :=
  let tech_reasons := [] in
  let tech_reasons :=
    match get indicators "RSI" with
    | Some rsi =>
        if Py.nonzero rsi then
          if Py.ltb rsi 30 then tech_reasons ++ [rsi_oversold]
          else if Py.gtb rsi 70 then tech_reasons ++ [rsi_overbought]
          else tech_reasons
        else tech_reasons
    | None => tech_reasons
    end in
  let tech_reasons :=
    match get indicators "MACD_diff" with
    | Some macd_diff =>
        if Py.nonzero macd_diff then
          if Py.gtb macd_diff 0 then tech_reasons ++ [macd_bullish]
          else tech_reasons ++ [macd_bearish]
        else tech_reasons
    | None => tech_reasons
    end in
  let tech_reasons :=
    match get indicators "current_price", get indicators "MA_20" with
    | Some current_price, Some ma_20 =>
        if Py.nonzero current_price && Py.nonzero ma_20 then
          if Py.gtb current_price ma_20 then tech_reasons ++ [price_above_ma_20]
          else tech_reasons ++ [price_below_ma_20]
        else tech_reasons
    | _, _ => tech_reasons
    end in
  tech_reasons.

(** [tech_reasons[:3]], the observations that are printed. *)
Definition printed_reasons (indicators : indicator_dict) : list tech_reason :=
  take 3 (tech_reasons indicators).

(** *** The vote table as the specification words it

    A group votes when all the fields it needs are present; presence is
    "the field holds a number". *)

Definition table_rsi (indicators : indicator_dict) : list Q :=
  match get indicators "RSI" with
  | Some r =>
      if Py.ltb r 30 then [0.7]
      else if Py.gtb r 70 then [-0.7]
      else if Py.ltb r 50 then [0.2]
      else [-0.2]
  | None => []
  end.

Definition table_macd (indicators : indicator_dict) : list Q :=
  match get indicators "MACD", get indicators "MACD_signal" with
  | Some m, Some s => if Py.gtb m s then [0.5] else [-0.3]
  | _, _ => []
  end.

Definition table_macd_diff (indicators : indicator_dict) : list Q :=
  match get indicators "MACD_diff" with
  | Some d => if Py.gtb d 0 then [0.3] else [-0.3]
  | None => []
  end.

Definition table_ma (indicators : indicator_dict) : list Q :=
  match get indicators "current_price", get indicators "MA_20",
        get indicators "MA_50" with
  | Some p, Some m20, Some m50 =>
      if Py.gtb p m20 && Py.gtb m20 m50 then [0.6]
      else if Py.ltb p m20 && Py.ltb m20 m50 then [-0.6]
      else [0.0]
  | _, _, _ => []
  end.

Definition table_ma_200 (indicators : indicator_dict) : list Q :=
  match get indicators "current_price", get indicators "MA_200" with
  | Some p, Some m200 => if Py.gtb p m200 then [0.2] else [-0.2]
  | _, _ => []
  end.

Definition table_bb (indicators : indicator_dict) : list Q :=
  match get indicators "current_price", get indicators "BB_low",
        get indicators "BB_high", get indicators "BB_mid" with
  | Some p, Some lo, Some hi, Some _ =>
      if Py.leb p lo then [0.5]
      else if Py.geb p hi then [-0.5]
      else [0.0]
  | _, _, _, _ => []
  end.

Definition table_volume (indicators : indicator_dict) : list Q :=
  match get indicators "volume", get indicators "volume_sma" with
  | Some v, Some sma =>
      if Py.gtb v (1.5 * sma) then [0.2]
      else if Py.ltb v (0.5 * sma) then [-0.1]
      else []
  | _, _ => []
  end.

Definition table_votes (indicators : indicator_dict) : list Q :=
  table_rsi indicators ++ table_macd indicators ++ table_macd_diff indicators
  ++ table_ma indicators ++ table_ma_200 indicators ++ table_bb indicators
  ++ table_volume indicators.

Definition mean (votes : list Q) : Q := Py.sum votes / Py.len votes.

Definition clamp (lo hi x : Q) : Q :=
  if Py.ltb x lo then lo else if Py.gtb x hi then hi else x.

(** Mean of the table's votes, clamped; 0 when there is no vote. *)
Definition table_score (indicators : indicator_dict) : Q :=
  match table_votes indicators with
  | [] => 0
  | votes => clamp (-1) 1 (mean votes)
  end.

(** The fields that the scorer tests by truth value. *)
Definition truth_tested : list string :=
  ["current_price"; "MA_20"; "MA_50"; "MA_200";
   "BB_high"; "BB_low"; "BB_mid"; "volume"; "volume_sma"].

Definition is_truth_tested (k : string) : bool :=
  bool_decide (k ∈ truth_tested).

(** The indicator set in which a truth-tested field that equals zero is
    regarded as absent. *)
Definition zero_as_absent (indicators : indicator_dict) : indicator_dict :=
  map_imap (fun k v =>
              match v with
              | Some x => if is_truth_tested k && Qeq_bool x 0 then None
                          else Some v
              | None => Some v
              end) indicators.

(** Field [k] is supplied and equals zero. *)
Definition zero_at (indicators : indicator_dict) (k : string) : Prop :=
  exists v, get indicators k = Some v /\ v == 0.

End TradingStrategy.

(** ** [rate_limiter.py] *)

Module RateLimiter.

(** A calendar date is its day number: the ISO strings that the code uses
    as dictionary keys are ordered like the day numbers. *)
Abbreviation date := Z.

(** A table of per-day values.  The constructor creates a [defaultdict];
    [_load_state] and [_reset_if_new_day] replace it by a plain [dict]
    built by a comprehension. *)
Record table (V : Type) : Type := Table {
  is_defaultdict : bool;
  entries : gmap Z V
}.
Arguments Table {V}.
Arguments is_defaultdict {V}.
Arguments entries {V}.

(** [d[k]]: a [defaultdict] stores and returns the default for a missing
    key; a plain [dict] raises [KeyError].  The table is returned as it is
    after the access. *)
Definition getitem {V} (dflt : V) (d : table V) (k : date)
  : Py.result V * table V :=
  match entries d !! k with
  | Some v => (Py.ret v, d)
  | None =>
      if is_defaultdict d
      then (Py.ret dflt, Table true (<[k := dflt]> (entries d)))
      else (Py.raise (Py.KeyError (Py.DateKey k)), d)
  end.

(** [d[k] = v]. *)
Definition setitem {V} (d : table V) (k : date) (v : V) : table V :=
  Table (is_defaultdict d) (<[k := v]> (entries d)).

(** [d.get(k, dflt)]. *)
Definition get_default {V} (dflt : V) (d : table V) (k : date) : V :=
  default dflt (entries d !! k).

(** [{k: v for k, v in d.items() if k >= cutoff}]: always a plain dict. *)
Definition keep_from {V} (cutoff : date) (d : table V) : table V :=
  Table false (filter (fun kv => (cutoff <= kv.1)%Z) (entries d)).

Record state : Type := State {
  max_requests_per_minute : Z;
  max_requests_per_day : Z;
  max_daily_cost : Q;
  cost_per_1k_tokens : Q;
  requests_timestamps : list Q;
  daily_requests : table Z;
  daily_costs : table Q;
  last_reset_date : date
}.

Definition with_timestamps (ts : list Q) (self : state) : state :=
  State (max_requests_per_minute self) (max_requests_per_day self)
        (max_daily_cost self) (cost_per_1k_tokens self)
        ts (daily_requests self) (daily_costs self) (last_reset_date self).

Definition with_daily_requests (d : table Z) (self : state) : state :=
  State (max_requests_per_minute self) (max_requests_per_day self)
        (max_daily_cost self) (cost_per_1k_tokens self)
        (requests_timestamps self) d (daily_costs self) (last_reset_date self).

Definition with_daily_costs (d : table Q) (self : state) : state :=
  State (max_requests_per_minute self) (max_requests_per_day self)
        (max_daily_cost self) (cost_per_1k_tokens self)
        (requests_timestamps self) (daily_requests self) d (last_reset_date self).

(** The content of [rate_limit_state.json], when the file exists. *)
Record saved_state : Type := SavedState {
  saved_requests : gmap Z Z;
  saved_costs : gmap Z Q
}.

(** [__init__] followed by [_load_state]; [today] is the date at
    construction. *)
Definition __init__ (max_requests_per_minute max_requests_per_day : Z)
                    (max_daily_cost cost_per_1k_tokens : Q)
                    (today : date) (file : option saved_state) : state :=
  let self := State max_requests_per_minute max_requests_per_day
                    max_daily_cost (cost_per_1k_tokens / 1000)
                    [] (Table true ∅) (Table true ∅) today in
  match file with
  | Some f =>
      with_daily_costs (Table false (saved_costs f))
        (with_daily_requests (Table false (saved_requests f)) self)
  | None => self
  end.

Definition _reset_if_new_day (today : date) (self : state) : state :=
  if bool_decide (today <> last_reset_date self) then
    let cutoff_date := (today - 7)%Z in
    State (max_requests_per_minute self) (max_requests_per_day self)
          (max_daily_cost self) (cost_per_1k_tokens self)
          (requests_timestamps self)
          (keep_from cutoff_date (daily_requests self))
          (keep_from cutoff_date (daily_costs self))
          today
  else self.

Definition _clean_old_timestamps (now : Q) (self : state) : state :=
  let one_minute_ago := now - 60 in
  with_timestamps
    (List.filter (fun ts => Py.gtb ts one_minute_ago) (requests_timestamps self))
    self.

(** The three refusal messages, with the number each one prints. *)
Inductive refusal : Type :=
| RateLimitExceeded (per_minute : Z)
| DailyLimitExceeded (per_day : Z)
| DailyCostLimitExceeded (usd : Q).

(** [check_rate_limit], at clock reading [now] on calendar day [today]. *)
Definition check_rate_limit (now : Q) (today : date) (self : state)
  : Py.result (bool * option refusal) * state :=
  let self := _reset_if_new_day today self in
  let self := _clean_old_timestamps now self in
  if (max_requests_per_minute self <=? Z.of_nat (length (requests_timestamps self)))%Z
  then (Py.ret (false, Some (RateLimitExceeded (max_requests_per_minute self))), self)
  else
    let '(r, d) := getitem 0%Z (daily_requests self) today in
    let self := with_daily_requests d self in
    match r with
    | inl e => (inl e, self)
    | inr requests_today =>
        if (max_requests_per_day self <=? requests_today)%Z
        then (Py.ret (false, Some (DailyLimitExceeded (max_requests_per_day self))), self)
        else
          let '(r, d) := getitem 0 (daily_costs self) today in
          let self := with_daily_costs d self in
          match r with
          | inl e => (inl e, self)
          | inr cost_today =>
              if Py.geb cost_today (max_daily_cost self)
              then (Py.ret (false, Some (DailyCostLimitExceeded (max_daily_cost self))), self)
              else (Py.ret (true, None), self)
          end
    end.

(** [int(estimated_tokens * share)] for a literal [share]: the integer
    operand is converted to a float, the product is rounded to binary64 and
    then truncated.  A token count beyond the float range, for which the
    conversion raises [OverflowError], is outside the model. *)
Definition token_share (estimated_tokens : Z) (share : Q) : Z :=
  Py.int (Binary64.mul (Binary64.of_int estimated_tokens) (Binary64.round share)).

(** The cost estimate of [record_request]. *)
Definition estimated_cost (estimated_tokens : Z) : Q :=
  let input_tokens := token_share estimated_tokens 0.7 in
  let output_tokens := token_share estimated_tokens 0.3 in
  let input_cost := (inject_Z input_tokens / 1000000) * 0.15 in
  let output_cost := (inject_Z output_tokens / 1000000) * 0.60 in
  input_cost + output_cost.

(** [record_request].  The state is returned also when the call raises:
    the assignments made before the exception stay.  Writing the state
    file has no effect on the object and is not modelled. *)
Definition record_request (estimated_tokens : Z) (now : Q) (today : date)
                          (self : state) : Py.result unit * state :=
  let self := _reset_if_new_day today self in
  let self := with_timestamps (requests_timestamps self ++ [now]) self in
  let '(r, d) := getitem 0%Z (daily_requests self) today in
  let self := with_daily_requests d self in
  match r with
  | inl e => (inl e, self)
  | inr n =>
      let self := with_daily_requests (setitem (daily_requests self) today (n + 1)%Z) self in
      let '(r, d) := getitem 0 (daily_costs self) today in
      let self := with_daily_costs d self in
      match r with
      | inl e => (inl e, self)
      | inr c =>
          let self := with_daily_costs
                        (setitem (daily_costs self) today
                                 (c + estimated_cost estimated_tokens)) self in
          (Py.ret tt, self)
      end
  end.

(** [min] of a non-empty list of floats. *)
Definition oldest (ts : list Q) : Q :=
  match ts with
  | [] => 0
  | t :: rest => fold_left Py.min rest t
  end.

(** [wait_if_needed]: returns the time slept, if any. *)
Definition wait_if_needed (now : Q) (self : state) : option Q * state :=
  let self := _clean_old_timestamps now self in
  if (max_requests_per_minute self <=? Z.of_nat (length (requests_timestamps self)))%Z
  then
    match requests_timestamps self with
    | _ :: _ =>
        let wait_time := 60 - (now - oldest (requests_timestamps self)) + 1 in
        if Py.gtb wait_time 0 then (Some wait_time, self) else (None, self)
    | [] => (None, self)
    end
  else (None, self).

(** [_save_state]: the two dictionaries written to
    [rate_limit_state.json]. *)
Definition _save_state (self : state) : saved_state :=
  SavedState (entries (daily_requests self)) (entries (daily_costs self)).

(** The value that [d[k]] would read, when the access does not raise. *)
Definition readable {V} (dflt : V) (d : table V) (k : date) : option V :=
  match entries d !! k with
  | Some v => Some v
  | None => if is_defaultdict d then Some dflt else None
  end.

(** The number of recorded calls that are still inside the 60 second
    window at time [now]. *)
Definition in_window (now : Q) (self : state) : nat :=
  length (List.filter (fun ts => Py.gtb ts (now - 60)) (requests_timestamps self)).

End RateLimiter.

(** [CostTracker] of [rate_limiter.py]. *)

Module CostTracker.

Record state : Type := State {
  daily_costs : RateLimiter.table Q
}.

(** [__init__] followed by [_load_costs]. *)
Definition __init__ (file : option (gmap Z Q)) : state :=
  match file with
  | Some costs => State (RateLimiter.Table false costs)
  | None => State (RateLimiter.Table true ∅)
  end.

(** [add_cost]: [self.daily_costs[today] += amount]. *)
Definition add_cost (amount : Q) (today : RateLimiter.date) (self : state)
  : Py.result unit * state :=
  let '(r, d) := RateLimiter.getitem 0 (daily_costs self) today in
  match r with
  | inl e => (inl e, State d)
  | inr c => (Py.ret tt, State (RateLimiter.setitem d today (c + amount)))
  end.

(** [get_daily_cost(date)]. *)
Definition get_daily_cost (d : RateLimiter.date) (self : state) : Q :=
  RateLimiter.get_default 0.0 (daily_costs self) d.

(** The calendar of [datetime.date], by proleptic ordinal: the first day
    is 0001-01-01 and the last 9999-12-31; a [timedelta] holds at most
    999999999 days either way. *)
Definition min_ordinal : Z := 1.
Definition max_ordinal : Z := 3652059.
Definition max_timedelta_days : Z := 999999999.

(** [date - timedelta(days=days)], for a date given by its ordinal: both
    the construction of the [timedelta] and a result off the calendar
    raise [OverflowError]. *)
Definition date_minus_days (d : RateLimiter.date) (days : Z)
  : Py.result RateLimiter.date :=
  if (Z.abs days <=? max_timedelta_days)%Z
     && (min_ordinal <=? d - days)%Z && (d - days <=? max_ordinal)%Z
  then Py.ret (d - days)%Z
  else Py.raise Py.OverflowError.

(** [get_total_cost(days)] on calendar day [today], given by its ordinal:
    the sum of the entries dated from [today - days] on.  The entries are
    added in key order here and in insertion order in the code. *)
Definition get_total_cost (days : Z) (today : RateLimiter.date) (self : state)
  : Py.result Q :=
  cutoff_date <- date_minus_days today days ;;;
  Py.ret (Py.sum (List.map snd
                    (List.filter (fun kv : Z * Q => (cutoff_date <=? kv.1)%Z)
                       (map_to_list (RateLimiter.entries (daily_costs self)))))).

End CostTracker.

(** ** [gpt_analyzer.py] *)

Module GPTSentimentAnalyzer.

(** The [reasoning] entry of a result: the scorer's own text, or one of
    the three messages that the analyzer composes. *)
Inductive explanation : Type :=
| Explained (text : string)
| RateLimit (msg : RateLimiter.refusal)
| RateLimitReached
| Error.

(** A sentiment result dictionary; [None] is a missing key. *)
Record sentiment_result : Type := Result {
  sentiment : option string;
  score : option Q;
  reasoning : explanation;
  confidence : option Q
}.

(** The neutral result returned on refusal or failure. *)
Definition neutral (why : explanation) : sentiment_result :=
  Result (Some "neutral") (Some 0.0) why (Some 0.0).

(** What one call of the external scorer amounts to: the request raises,
    or it returns token counts and a reply whose parsing either raises
    ([None]) or yields the dictionary [sentiment_data]. *)
Inductive api_outcome : Type :=
| ApiRaises
| ApiReplies (prompt_tokens completion_tokens : Z)
             (sentiment_data : option sentiment_result).

Record state : Type := State {
  cache : gmap string sentiment_result;
  max_texts_per_request : Z;
  rate_limiter : RateLimiter.state;
  cost_tracker : CostTracker.state;
  ticks : nat;
  calls : nat
}.

Definition with_cache (c : gmap string sentiment_result) (self : state) : state :=
  State c (max_texts_per_request self) (rate_limiter self) (cost_tracker self)
        (ticks self) (calls self).

Definition with_rate_limiter (l : RateLimiter.state) (self : state) : state :=
  State (cache self) (max_texts_per_request self) l (cost_tracker self)
        (ticks self) (calls self).

Definition with_cost_tracker (c : CostTracker.state) (self : state) : state :=
  State (cache self) (max_texts_per_request self) (rate_limiter self) c
        (ticks self) (calls self).

Definition tick (self : state) : state :=
  State (cache self) (max_texts_per_request self) (rate_limiter self)
        (cost_tracker self) (S (ticks self)) (calls self).

Definition called (self : state) : state :=
  State (cache self) (max_texts_per_request self) (rate_limiter self)
        (cost_tracker self) (ticks self) (S (calls self)).

(** [__init__]: the limiter is created with 60 requests per minute and
    1000 per day. *)
Definition __init__ (max_daily_cost : Q) (max_texts_per_request : Z)
                    (today : RateLimiter.date)
                    (limiter_file : option RateLimiter.saved_state)
                    (cost_file : option (gmap Z Q)) : state :=
  let cost_per_1k_input := 0.00015 in
  State ∅ max_texts_per_request
        (RateLimiter.__init__ 60 1000 max_daily_cost
                              (cost_per_1k_input * 1000) today limiter_file)
        (CostTracker.__init__ cost_file) 0 0.

(** [_get_cache_key]: the string that is hashed; the digest is taken to be
    injective. *)
Definition _get_cache_key (text : string) (ticker : option string) : string :=
  (default "" ticker ++ ":" ++ String.substring 0 200 text)%string.

Section World.

(** The [n]-th reading of the clock: seconds and calendar day. *)
Variable clock : nat -> Q * RateLimiter.date.

(** The [n]-th call of the external scorer. *)
Variable scorer : nat -> string -> option string -> api_outcome.

(** The part of [analyze_sentiment] inside [try]; [None] stands for the
    [except] branch. *)
Definition scored (text : string) (ticker : option string) (self : state)
  : option sentiment_result * state :=
  let outcome := scorer (calls self) text ticker in
  let self := called self in
  match outcome with
  | ApiRaises => (None, self)
  | ApiReplies input_tokens output_tokens sentiment_data =>
      let input_cost := (inject_Z input_tokens / 1000000) * 0.15 in
      let output_cost := (inject_Z output_tokens / 1000000) * 0.60 in
      let total_cost := input_cost + output_cost in
      let '(now, today) := clock (ticks self) in
      let '(r, l) := RateLimiter.record_request
                       (input_tokens + output_tokens) now today
                       (rate_limiter self) in
      let self := tick (with_rate_limiter l self) in
      match r with
      | inl _ => (None, self)
      | inr _ =>
          let '(_, today) := clock (ticks self) in
          let '(r, c) := CostTracker.add_cost total_cost today
                                              (cost_tracker self) in
          let self := tick (with_cost_tracker c self) in
          match r with
          | inl _ => (None, self)
          | inr _ =>
              match sentiment_data with
              | None => (None, self)
              | Some data =>
                  let cache_key := _get_cache_key text ticker in
                  (Some data, with_cache (<[cache_key := data]> (cache self)) self)
              end
          end
      end
  end.

Definition analyze_sentiment (text : string) (ticker : option string)
                             (self : state)
  : Py.result sentiment_result * state :=
  let cache_key := _get_cache_key text ticker in
  match cache self !! cache_key with
  | Some cached => (Py.ret cached, self)
  | None =>
      let '(now, today) := clock (ticks self) in
      let '(r, l) := RateLimiter.check_rate_limit now today (rate_limiter self) in
      let self := tick (with_rate_limiter l self) in
      match r with
      | inl e => (inl e, self)
      | inr (allowed, error_msg) =>
          if negb allowed then
            let why := match error_msg with
                       | Some m => RateLimit m
                       | None => Error
                       end in
            (Py.ret (neutral why), self)
          else
            let '(now, _) := clock (ticks self) in
            let '(_, l) := RateLimiter.wait_if_needed now (rate_limiter self) in
            let self := tick (with_rate_limiter l self) in
            match scored text ticker self with
            | (Some data, self) => (Py.ret data, self)
            | (None, self) => (Py.ret (neutral Error), self)
            end
      end
  end.

(** [texts_list[:n]]; a negative bound counts from the end. *)
Definition slice_to {A} (l : list A) (n : Z) : list A :=
  if (0 <=? n)%Z then take (Z.to_nat n) l
  else take (Z.to_nat (Z.of_nat (length l) + n)) l.

(** The slices [texts_list[i:i + batch_size]] for [i] in
    [range(0, len(texts_list), batch_size)], [batch_size] positive. *)
Fixpoint batches {A} (fuel batch_size : nat) (l : list A) : list (list A) :=
  match fuel, l with
  | S fuel, _ :: _ => take batch_size l :: batches fuel batch_size (drop batch_size l)
  | _, _ => []
  end.

(** The inner loop over one batch.  [time.sleep(delay)] lets the clock
    advance and raises on a negative delay. *)
Fixpoint analyze_batch (ticker : option string) (delay : Q)
                       (batch : list string)
                       (batch_results : list sentiment_result) (self : state)
  : Py.result (list sentiment_result) * state :=
  match batch with
  | [] => (Py.ret batch_results, self)
  | text :: rest =>
      let '(r, self) := analyze_sentiment text ticker self in
      match r with
      | inl e => (inl e, self)
      | inr result =>
          if Py.ltb delay 0
          then (Py.raise (Py.ValueError "sleep length must be non-negative"), self)
          else analyze_batch ticker delay rest (batch_results ++ [result]) self
      end
  end.

(** The outer loop; [n] is [len(texts_list)] after truncation. *)
Fixpoint batch_loop (n : nat) (ticker : option string) (delay : Q)
                    (todo : list (list string))
                    (results : list sentiment_result) (self : state)
  : Py.result (list sentiment_result) * state :=
  match todo with
  | [] => (Py.ret results, self)
  | batch :: todo =>
      let '(now, today) := clock (ticks self) in
      let '(r, l) := RateLimiter.check_rate_limit now today (rate_limiter self) in
      let self := tick (with_rate_limiter l self) in
      match r with
      | inl e => (inl e, self)
      | inr (allowed, _) =>
          if negb allowed then
            let remaining := (n - length results)%nat in
            (Py.ret (results ++ repeat (neutral RateLimitReached) remaining), self)
          else
            let '(r, self) := analyze_batch ticker delay batch [] self in
            match r with
            | inl e => (inl e, self)
            | inr batch_results =>
                batch_loop n ticker delay todo (results ++ batch_results) self
            end
      end
  end.

Definition batch_analyze (texts_list : list string) (ticker : option string)
                         (batch_size : Z) (delay : Q) (self : state)
  : Py.result (list sentiment_result) * state :=
  let max_texts := Z.min (Z.of_nat (length texts_list)) (max_texts_per_request self) in
  let texts_list := slice_to texts_list max_texts in
  if (batch_size =? 0)%Z
  then (Py.raise (Py.ValueError "range() arg 3 must not be zero"), self)
  else if (batch_size <? 0)%Z then (Py.ret [], self)
  else batch_loop (length texts_list) ticker delay
                  (batches (length texts_list) (Z.to_nat batch_size) texts_list)
                  [] self.

End World.

(** *** [aggregate_sentiment] *)

Definition lower_ascii (c : ascii) : ascii :=
  let n := nat_of_ascii c in
  if (65 <=? n)%nat && (n <=? 90)%nat then ascii_of_nat (n + 32) else c.

Fixpoint lower (s : string) : string :=
  match s with
  | EmptyString => EmptyString
  | String c rest => String (lower_ascii c) (lower rest)
  end.

Inductive overall : Type := bullish | bearish | neutral_overall.

(** The local variables that the loop updates. *)
Record tally : Type := Tally {
  weighted_sum : Q;
  total_confidence : Q;
  scores : list Q;
  positive : Z;
  negative : Z;
  neutral_n : Z
}.

Definition tally_step (acc : tally) (result : sentiment_result) : tally :=
  let score := default 0.0 (score result) in
  let confidence := default 0.5 (confidence result) in
  let sentiment := lower (default "neutral" (sentiment result)) in
  Tally (weighted_sum acc + score * confidence)
        (total_confidence acc + confidence)
        (scores acc ++ [score])
        (if String.eqb sentiment "positive" then positive acc + 1 else positive acc)%Z
        (if String.eqb sentiment "negative" then negative acc + 1 else negative acc)%Z
        (if String.eqb sentiment "neutral" then neutral_n acc + 1 else neutral_n acc)%Z.

Record snapshot : Type := Snapshot {
  overall_sentiment : overall;
  average_score : Q;
  weighted_score : Q;
  avg_confidence : Q;
  positive_count : Z;
  negative_count : Z;
  neutral_count : Z;
  total_count : Z;
  positive_percentage : option Q;
  negative_percentage : option Q
}.

Definition aggregate_sentiment (sentiment_results : list sentiment_result)
  : snapshot :=
  match sentiment_results with
  | [] => Snapshot neutral_overall 0.0 0.0 0.0 0 0 0 0 None None
  | _ :: _ =>
      let acc := fold_left tally_step sentiment_results
                           (Tally 0.0 0.0 [] 0 0 0) in
      let average_score :=
        match scores acc with
        | [] => 0.0
        | _ :: _ => Py.sum (scores acc) / Py.len (scores acc)
        end in
      let weighted_score :=
        if Py.gtb (total_confidence acc) 0
        then weighted_sum acc / total_confidence acc
        else average_score in
      let avg_confidence := total_confidence acc / Py.len sentiment_results in
      let total_count := Z.of_nat (length sentiment_results) in
      let positive_pct := inject_Z (positive acc) / inject_Z total_count in
      let negative_pct := inject_Z (negative acc) / inject_Z total_count in
      let overall_sentiment :=
        if Py.gtb weighted_score 0.3 then bullish
        else if Py.ltb weighted_score (-0.3) then bearish
        else neutral_overall in
      Snapshot overall_sentiment average_score weighted_score avg_confidence
               (positive acc) (negative acc) (neutral_n acc) total_count
               (Some (positive_pct * 100)) (Some (negative_pct * 100))
  end.

(** The observations' scores and confidences, with the defaults of the
    [.get] calls filled in. *)
Definition score_of (r : sentiment_result) : Q := default 0.0 (score r).
Definition confidence_of (r : sentiment_result) : Q := default 0.5 (confidence r).

End GPTSentimentAnalyzer.

(** ** [backtesting_engine.py] *)

Module BacktestingEngine.

(** A row of the market data frame. *)
Record bar : Type := Bar {
  date : Z;
  Close : Q;
  Volume : Z
}.

(** A row of the sentiment data frame; [None] is a missing column. *)
Record sentiment_row : Type := SentimentRow {
  s_date : Z;
  avg_sentiment_score : option Q;
  avg_confidence : option Q;
  mention_count : option Z
}.

Record portfolio : Type := Portfolio {
  cash : Q;
  shares : Z
}.

Inductive trade_kind : Type := buy_trade | sell_trade.

(** An entry of [trades]; [amount] is the [cost] of a buy and the
    [revenue] of a sell. *)
Record trade : Type := Trade {
  t_date : Z;
  t_kind : trade_kind;
  t_shares : Z;
  t_price : Q;
  t_amount : Q
}.

(** An entry of [daily_values]. *)
Record daily_value : Type := DailyValue {
  v_date : Z;
  value : Q;
  v_cash : Q;
  v_shares : Z;
  v_price : Q
}.

(** The variables that the day loop updates. *)
Record ledger : Type := Ledger {
  holdings : portfolio;
  trades : list trade;
  daily_values : list daily_value
}.

(** The sentiment effective on [current_date]: the last row dated on or
    before it, else the low-confidence neutral default. *)
Definition sentiment_for (sentiment_df : list sentiment_row) (current_date : Z)
  : TradingStrategy.sentiment_data :=
  let sentiment_up_to_date :=
    List.filter (fun r => (s_date r <=? current_date)%Z) sentiment_df in
  match last sentiment_up_to_date with
  | Some latest_sentiment =>
      TradingStrategy.SentimentData
        (Some (default 0.0 (avg_sentiment_score latest_sentiment)))
        (Some (default 0.5 (avg_confidence latest_sentiment)))
  | None => TradingStrategy.SentimentData (Some 0.0) (Some 0.3)
  end.

Section Engine.

(** [self.initial_capital] and [self.transaction_cost]. *)
Variable initial_capital : Q.
Variable transaction_cost : Q.

(** [_calculate_indicators_for_date]: the indicator library applied to
    the rows up to a date. *)
Variable _calculate_indicators_for_date : list bar -> Q -> indicator_dict.

(** The indicator set of a day: computed from 20 rows on. *)
Definition indicators_on (market_df : list bar) (current_date : Z)
                         (current_price : Q) : indicator_dict :=
  let market_data_up_to_date :=
    List.filter (fun r => (date r <=? current_date)%Z) market_df in
  if (20 <=? length market_data_up_to_date)%nat
  then _calculate_indicators_for_date market_data_up_to_date current_price
  else ∅.

(** The trade step of one day.  The rows of the data frame mix dates and
    numbers, so the closing price of a row is a Python float, and
    dividing by a closing price of zero raises [ZeroDivisionError]. *)
Definition execute (strategy : TradingStrategy.strategy)
                   (signal : TradingStrategy.signal)
                   (current_date : Z) (current_price : Q)
                   (p : portfolio) (trades : list trade)
  : Py.result (portfolio * list trade) :=
  match TradingStrategy.sig_type signal with
  | TradingStrategy.buy =>
      if Py.gtb (cash p) 0 then
        let position_value :=
          TradingStrategy.calculate_position_size
            (cash p) (TradingStrategy.sig_confidence signal) None 0.02 in
        if Qeq_bool current_price 0 then Py.raise Py.ZeroDivisionError
        else
          let shares_to_buy := Py.int (position_value / current_price) in
          if (0 <? shares_to_buy)%Z then
            let cost := inject_Z shares_to_buy * current_price
                        * (1 + transaction_cost) in
            if Py.leb cost (cash p) then
              Py.ret (Portfolio (cash p - cost) (shares p + shares_to_buy),
                      trades ++ [Trade current_date buy_trade shares_to_buy
                                       current_price cost])
            else Py.ret (p, trades)
          else Py.ret (p, trades)
      else Py.ret (p, trades)
  | TradingStrategy.sell =>
      if (0 <? shares p)%Z then
        let shares_to_sell := shares p in
        let revenue := inject_Z shares_to_sell * current_price
                       * (1 - transaction_cost) in
        Py.ret (Portfolio (cash p + revenue) 0,
                trades ++ [Trade current_date sell_trade shares_to_sell
                                 current_price revenue])
      else Py.ret (p, trades)
  | TradingStrategy.hold => Py.ret (p, trades)
  end.

(** One iteration of the day loop. *)
Definition simulate_day (strategy : TradingStrategy.strategy)
                        (market_df : list bar)
                        (sentiment_df : list sentiment_row)
                        (row : bar) (l : ledger) : Py.result ledger :=
  let current_date := date row in
  let current_price := Close row in
  let sentiment_data := sentiment_for sentiment_df current_date in
  let indicators := indicators_on market_df current_date current_price in
  let signal := TradingStrategy.generate_signal strategy sentiment_data indicators in
  pt <- execute strategy signal current_date current_price (holdings l) (trades l) ;;;
  let p := pt.1 in
  let portfolio_value := cash p + inject_Z (shares p) * current_price in
  Py.ret (Ledger p pt.2
            (daily_values l
             ++ [DailyValue current_date portfolio_value (cash p) (shares p)
                            current_price])).

(** The day loop over the rows that remain. *)
Fixpoint simulate (strategy : TradingStrategy.strategy)
                  (market_df : list bar) (sentiment_df : list sentiment_row)
                  (rows : list bar) (l : ledger) : Py.result ledger :=
  match rows with
  | [] => Py.ret l
  | row :: rows =>
      l <- simulate_day strategy market_df sentiment_df row l ;;;
      simulate strategy market_df sentiment_df rows l
  end.

Definition initial_ledger : ledger :=
  Ledger (Portfolio initial_capital 0) [] [].

(** *** Metrics *)

(** [pct_change()] followed by [dropna()], for values other than zero:
    after a value of zero pandas yields NaN, which [dropna()] removes, or
    an infinity. *)
Fixpoint pct_change (values : list Q) : list Q :=
  match values with
  | previous :: (current :: _) as rest =>
      (current - previous) / previous :: pct_change rest
  | _ => []
  end.

Definition mean (l : list Q) : Q := Py.sum l / Py.len l.

(** The square of [np.std]: the population variance. *)
Definition variance (l : list Q) : Q :=
  let m := mean l in
  mean (List.map (fun x => (x - m) * (x - m)) l).

(** The square root used for [np.std] and [np.sqrt]. *)
Variable sqrt : Q -> Q.

Definition sharpe (daily_returns : list Q) : Q :=
  if (1 <? length daily_returns)%nat && Py.gtb (sqrt (variance daily_returns)) 0
  then mean daily_returns / sqrt (variance daily_returns) * sqrt 252
  else 0.0.

(** [cumprod()] and [cummax()] over the rows that hold a number. *)
Fixpoint cumprod (acc : Q) (l : list Q) : list Q :=
  match l with
  | [] => []
  | x :: l => acc * x :: cumprod (acc * x) l
  end.

Fixpoint cummax_from (acc : Q) (l : list Q) : list Q :=
  match l with
  | [] => []
  | x :: l => Py.max acc x :: cummax_from (Py.max acc x) l
  end.

Definition cummax (l : list Q) : list Q :=
  match l with
  | [] => []
  | x :: rest => x :: cummax_from x rest
  end.

Definition minimum (l : list Q) : Q :=
  match l with
  | [] => 0
  | x :: rest => fold_left Py.min rest x
  end.

(** The data frame [df_values]: its rows and, when it was assigned, the
    column [daily_return] without its leading missing entry. *)
Record values_frame : Type := ValuesFrame {
  rows : list daily_value;
  daily_return : option (list Q)
}.

(** [df_values['daily_return']]. *)
Definition daily_return_column (df_values : values_frame) : Py.result (list Q) :=
  match daily_return df_values with
  | Some column => Py.ret column
  | None => Py.raise (Py.KeyError (Py.StrKey "daily_return"))
  end.

Definition max_drawdown_of (df_values : values_frame) : Py.result Q :=
  if (0 <? length (rows df_values))%nat then
    column <- daily_return_column df_values ;;;
    let cumulative := cumprod 1 (List.map (fun r => 1 + r) column) in
    let running_max := cummax cumulative in
    let drawdown :=
      List.map (fun cr => (cr.1 - cr.2) / cr.2) (combine cumulative running_max) in
    Py.ret (minimum drawdown * 100)
  else Py.ret 0.0.

(** [buy_prices[date] = price] on a dictionary kept in insertion
    order. *)
Fixpoint remember (buy_prices : list (Z * Q)) (d : Z) (price : Q)
  : list (Z * Q) :=
  match buy_prices with
  | [] => [(d, price)]
  | (d', price') :: rest =>
      if (d' =? d)%Z then (d', price) :: rest
      else (d', price') :: remember rest d price
  end.

(** The loop that counts profitable exits: buy prices, profitable
    trades, sell trades. *)
Definition win_step (acc : list (Z * Q) * Z * Z) (t : trade)
  : list (Z * Q) * Z * Z :=
  let '(buy_prices, profitable_trades, total_sell_trades) := acc in
  match t_kind t with
  | buy_trade => (remember buy_prices (t_date t) (t_price t),
                  profitable_trades, total_sell_trades)
  | sell_trade =>
      let total_sell_trades := (total_sell_trades + 1)%Z in
      match last buy_prices with
      | Some (_, last_buy_price) =>
          if Py.gtb (t_price t) last_buy_price
          then (buy_prices, (profitable_trades + 1)%Z, total_sell_trades)
          else (buy_prices, profitable_trades, total_sell_trades)
      | None => (buy_prices, profitable_trades, total_sell_trades)
      end
  end.

Definition win_rate_of (trades : list trade) : Q :=
  if (2 <=? length trades)%nat then
    let '(_, profitable_trades, total_sell_trades) :=
      fold_left win_step trades ([], 0%Z, 0%Z) in
    if (0 <? total_sell_trades)%Z
    then inject_Z profitable_trades / inject_Z total_sell_trades * 100
    else 0.0
  else 0.0.

(** The benchmark's return over the closes of its rows in range. *)
Definition sp500_return_of (sp500_closes : list Q) : Q :=
  match sp500_closes with
  | sp500_start :: _ :: _ =>
      let sp500_end := List.last sp500_closes 0 in
      (sp500_end - sp500_start) / sp500_start * 100
  | _ => 0.0
  end.

(** What [run_backtest] returns: the error dictionary or the result
    dictionary. *)
Record metrics : Type := Metrics {
  final_value : Q;
  total_return : Q;
  sharpe_ratio : Q;
  max_drawdown : Q;
  win_rate : Q;
  vs_sp500_performance : Q;
  sp500_return : Q;
  daily_returns : list Q;
  result_trades : list trade;
  result_values : list daily_value
}.

Inductive payload : Type :=
| NoMarketData
| Results (m : metrics).

(** The statements after the day loop. *)
Definition summarize (sp500_closes : list Q) (l : ledger) : Py.result payload :=
  let df_values :=
    if (1 <? length (daily_values l))%nat
    then ValuesFrame (daily_values l)
                     (Some (pct_change (List.map value (daily_values l))))
    else ValuesFrame (daily_values l) None in
  let daily_returns :=
    match daily_return df_values with
    | Some column => column
    | None => [0.0]
    end in
  match last (rows df_values) with
  | None => Py.raise Py.IndexError
  | Some final_row =>
      let final_value := value final_row in
      let total_return := (final_value - initial_capital) / initial_capital * 100 in
      let sharpe_ratio := sharpe daily_returns in
      max_drawdown <- max_drawdown_of df_values ;;;
      let win_rate := win_rate_of (trades l) in
      let sp500_performance := sp500_return_of sp500_closes in
      let vs_sp500 := total_return - sp500_performance in
      Py.ret (Results (Metrics final_value total_return sharpe_ratio
                               max_drawdown win_rate vs_sp500
                               sp500_performance daily_returns
                               (trades l) (daily_values l)))
  end.

(** [run_backtest] on the rows of the requested range, in date order. *)
Definition run_backtest (strategy : TradingStrategy.strategy)
                        (market_df : list bar)
                        (sentiment_df : list sentiment_row)
                        (sp500_closes : list Q) : Py.result payload :=
  match market_df with
  | [] => Py.ret NoMarketData
  | _ :: _ =>
      l <- simulate strategy market_df sentiment_df market_df initial_ledger ;;;
      summarize sp500_closes l
  end.

End Engine.

End BacktestingEngine.

(** ** Vocabulary of the statements *)

Module Rules.

Import BacktestingEngine.

(** The position size of a buy: [calculate_position_size(cash, confidence)]. *)
Definition position (p : portfolio) (signal : TradingStrategy.signal) : Q :=
  TradingStrategy.calculate_position_size
    (cash p) (TradingStrategy.sig_confidence signal) None 0.02.

(** [n] is the largest whole number of shares that [budget] affords at
    [unit_price] a share. *)
Definition largest_affordable (budget unit_price : Q) (n : Z) : Prop :=
  inject_Z n * unit_price <= budget /\ budget < inject_Z (n + 1) * unit_price.

(** The trade of one day: the portfolio after it and the trades it adds
    to the log. *)
Inductive day_trade (transaction_cost : Q) (signal : TradingStrategy.signal)
                    (d : Z) (price : Q) (p : portfolio)
  : portfolio -> list trade -> Prop :=
| bought (n : Z) :
    TradingStrategy.sig_type signal = TradingStrategy.buy ->
    0 < cash p ->
    largest_affordable (position p signal) price n ->
    (0 < n)%Z ->
    inject_Z n * price * (1 + transaction_cost) <= cash p ->
    day_trade transaction_cost signal d price p
      (Portfolio (cash p - inject_Z n * price * (1 + transaction_cost))
                 (shares p + n))
      [Trade d buy_trade n price (inject_Z n * price * (1 + transaction_cost))]
| buy_skipped (n : Z) :
    TradingStrategy.sig_type signal = TradingStrategy.buy ->
    0 < cash p ->
    largest_affordable (position p signal) price n ->
    (n <= 0)%Z \/ cash p < inject_Z n * price * (1 + transaction_cost) ->
    day_trade transaction_cost signal d price p p []
| buy_without_cash :
    TradingStrategy.sig_type signal = TradingStrategy.buy ->
    cash p <= 0 ->
    day_trade transaction_cost signal d price p p []
| sold :
    TradingStrategy.sig_type signal = TradingStrategy.sell ->
    (0 < shares p)%Z ->
    day_trade transaction_cost signal d price p
      (Portfolio (cash p + inject_Z (shares p) * price * (1 - transaction_cost)) 0)
      [Trade d sell_trade (shares p) price
             (inject_Z (shares p) * price * (1 - transaction_cost))]
| sell_without_shares :
    TradingStrategy.sig_type signal = TradingStrategy.sell ->
    (shares p <= 0)%Z ->
    day_trade transaction_cost signal d price p p []
| held :
    TradingStrategy.sig_type signal = TradingStrategy.hold ->
    day_trade transaction_cost signal d price p p [].

(** No short position and no debt. *)
Definition solvent (p : portfolio) : Prop := 0 <= cash p /\ (0 <= shares p)%Z.

Definition solvent_day (v : daily_value) : Prop :=
  0 <= v_cash v /\ (0 <= v_shares v)%Z.

(** The invariant of the day loop: the portfolio and every recorded day
    are solvent. *)
Definition solvent_ledger (l : ledger) : Prop :=
  solvent (holdings l) /\ Forall solvent_day (daily_values l).

(** The label that goes with a weighted score. *)
Definition label_of (w : Q) : GPTSentimentAnalyzer.overall :=
  if Py.gtb w 0.3 then GPTSentimentAnalyzer.bullish
  else if Py.ltb w (-0.3) then GPTSentimentAnalyzer.bearish
  else GPTSentimentAnalyzer.neutral_overall.

(** The gateway stays on calendar day [D] and can read the day's entries
    of both tables. *)
Definition steady (D : Z) (l : RateLimiter.state) : Prop :=
  RateLimiter.last_reset_date l = D
  /\ is_Some (RateLimiter.readable 0%Z (RateLimiter.daily_requests l) D)
  /\ is_Some (RateLimiter.readable 0 (RateLimiter.daily_costs l) D).

Definition steady_analyzer (D : Z) (self : GPTSentimentAnalyzer.state) : Prop :=
  steady D (GPTSentimentAnalyzer.rate_limiter self).

End Rules.

(** ** Example inputs *)

Module Examples.

(** An indicator set with a neutral-low RSI on a day without any traded
    volume. *)
Definition halted_day : indicator_dict :=
  {[ "RSI" := Some 40; "volume" := Some 0; "volume_sma" := Some 1000 ]}.

(** An indicator set whose 200-day average is reported as 0.0. *)
Definition flat_ma_200 : indicator_dict :=
  {[ "current_price" := Some 5; "MA_200" := Some 0.0 ]}.

(** An indicator library that never has enough history. *)
Definition no_indicators (_ : list BacktestingEngine.bar) (_ : Q) : indicator_dict := ∅.

(** A stand-in for the square root; the examples never take a root of a
    non-zero number. *)
Definition no_sqrt (_ : Q) : Q := 0.

(** One bar closing at 100. *)
Definition one_day : list BacktestingEngine.bar :=
  [BacktestingEngine.Bar 0 100 1000].

(** One bar closing at 334 and a strongly positive sentiment reading of
    the same day. *)
Definition buy_day : list BacktestingEngine.bar :=
  [BacktestingEngine.Bar 0 334 1000].

Definition strong_sentiment : list BacktestingEngine.sentiment_row :=
  [BacktestingEngine.SentimentRow 0 (Some 1) (Some 0.9) (Some 25%Z)].

(** A strategy that weighs sentiment 0.8 and indicators 0.2; the total
    is 1.0, so the constructor stores the weights as given. *)
Definition sentiment_led : TradingStrategy.strategy :=
  TradingStrategy.Strategy 0.8 0.2 0.6 (-0.6).

(** A clock that stands still at second 0 of day 0. *)
Definition frozen_clock (_ : nat) : Q * Z := (0, 0%Z).

(** An external scorer that finds every text mildly positive. *)
Definition upbeat_scorer (_ : nat) (_ : string) (_ : option string)
  : GPTSentimentAnalyzer.api_outcome :=
  GPTSentimentAnalyzer.ApiReplies 100 20
    (Some (GPTSentimentAnalyzer.Result (Some "positive") (Some 0.5)
             (GPTSentimentAnalyzer.Explained "upbeat") (Some 0.8))).

(** An analyzer with the default budget of 10 a day and the default limit
    of 20 texts per request, created on day 0 without saved files. *)
Definition fresh_analyzer : GPTSentimentAnalyzer.state :=
  GPTSentimentAnalyzer.__init__ 10 20 0 None None.

(** Two bars, closing at 100 and at 110, and the result dictionary of
    their replay with the default strategy. *)
Definition two_days : list BacktestingEngine.bar :=
  [BacktestingEngine.Bar 0 100 1000; BacktestingEngine.Bar 1 110 1200].

Definition two_day_metrics : BacktestingEngine.metrics :=
  Eval vm_compute in
    match BacktestingEngine.run_backtest 100000 0.001 no_indicators no_sqrt
            TradingStrategy.default_strategy two_days [] [] with
    | inr (BacktestingEngine.Results m) => m
    | _ => BacktestingEngine.Metrics 0 0 0 0 0 0 0 [] [] []
    end.

(** Two texts that agree on their first 200 characters. *)
Definition preamble : string := string_of_list_ascii (repeat "-"%char 200).
Definition long_text_up : string := (preamble ++ " shares rally")%string.
Definition long_text_down : string := (preamble ++ " shares slump")%string.

(** Twenty-one headlines. *)
Definition headlines : list string :=
  List.map (fun n => String (ascii_of_nat (65 + n)) " shares rally")
           (seq 0 21).

End Examples.

(** ** Vocabulary of the further properties *)

Module Accounting.

Import BacktestingEngine.

(** The shares that a trade adds to the position. *)
Definition signed_shares (t : trade) : Z :=
  match t_kind t with
  | buy_trade => t_shares t
  | sell_trade => (- t_shares t)%Z
  end.

(** The position that a trade log accounts for. *)
Definition net_shares (log : list trade) : Z :=
  fold_right (fun t acc => (signed_shares t + acc)%Z) 0%Z log.

(** The worth of a portfolio at a price. *)
Definition worth (p : portfolio) (price : Q) : Q :=
  cash p + inject_Z (shares p) * price.

(** The fee that a trade pays at the given rate. *)
Definition fee (transaction_cost : Q) (t : trade) : Q :=
  inject_Z (t_shares t) * t_price t * transaction_cost.

(** The factor by which [calculate_position_size] scales the base
    position. *)
Definition multiplier (c : Q) : Q := Py.min 2.0 (Py.max 0.5 (0.5 + c * 1.5)).

(** A vote of the technical scorer lies between -0.7 and 0.7. *)
Definition vote_sized (v : Q) : Prop := -0.7 <= v /\ v <= 0.7.

(** The first trade of a log, if there is one, is a buy. *)
Definition opens_with_buy (log : list trade) : Prop :=
  match log with
  | [] => True
  | t :: _ => t_kind t = buy_trade
  end.

(** The ledger agrees with its trade log. *)
Definition booked (l : ledger) : Prop :=
  shares (holdings l) = net_shares (trades l)
  /\ (0 <= shares (holdings l))%Z
  /\ Forall (fun t => (0 < t_shares t)%Z) (trades l)
  /\ opens_with_buy (trades l)
  /\ (trades l = [] -> shares (holdings l) = 0%Z).

(** A portfolio that holds something: neither cash nor shares are
    negative, and not both are zero. *)
Definition funded (p : portfolio) : Prop :=
  0 <= cash p /\ (0 <= shares p)%Z /\ (0 < cash p \/ (0 < shares p)%Z).

(** A row of the sentiment frame whose score, when present, lies in
    [-1, 1]. *)
Definition bounded_row (r : sentiment_row) : Prop :=
  match avg_sentiment_score r with
  | Some x => -1 <= x /\ x <= 1
  | None => True
  end.

(** A strategy that sentiment alone cannot move: its sentiment weight
    reaches neither threshold. *)
Definition needs_indicators (self : TradingStrategy.strategy) : Prop :=
  0 <= TradingStrategy.sentiment_weight self
  /\ TradingStrategy.sentiment_weight self <= TradingStrategy.buy_threshold self
  /\ TradingStrategy.sell_threshold self <= - TradingStrategy.sentiment_weight self.

(** A sentiment reading whose score, when present, lies in [-1, 1]. *)
Definition bounded_sentiment (s : TradingStrategy.sentiment_data) : Prop :=
  match TradingStrategy.sd_weighted_score s with
  | Some x => -1 <= x /\ x <= 1
  | None => True
  end.

End Accounting.

(** * Properties *)

(** ** Comparisons *)

Lemma ltb_lt (a b : Q) : Py.ltb a b = true <-> a < b.
Proof.
  unfold Py.ltb. rewrite negb_true_iff.
  destruct (Qle_bool b a) eqn:E.
  - apply Qle_bool_iff in E. split; [discriminate | intros H; lra].
  - split; [intros _ | reflexivity].
    destruct (Qlt_le_dec a b) as [H | H]; [exact H |].
    apply Qle_bool_iff in H. congruence.
Qed.

Lemma ltb_ge (a b : Q) : Py.ltb a b = false <-> b <= a.
Proof.
  unfold Py.ltb. rewrite negb_false_iff. apply Qle_bool_iff.
Qed.

Lemma gtb_gt (a b : Q) : Py.gtb a b = true <-> b < a.
Proof. apply ltb_lt. Qed.

Lemma gtb_le (a b : Q) : Py.gtb a b = false <-> a <= b.
Proof. apply ltb_ge. Qed.

Lemma nonzero_true (v : Q) : Py.nonzero v = true <-> ~ v == 0.
Proof.
  unfold Py.nonzero. rewrite negb_true_iff.
  destruct (Qeq_bool v 0) eqn:E.
  - apply Qeq_bool_iff in E. split; [discriminate | tauto].
  - split; [| reflexivity]. intros _ H. apply Qeq_bool_iff in H. congruence.
Qed.

Lemma nonzero_false (v : Q) : Py.nonzero v = false <-> v == 0.
Proof.
  unfold Py.nonzero. rewrite negb_false_iff. apply Qeq_bool_iff.
Qed.

(** Case analysis on a float comparison, leaving the order fact. *)
Ltac cmp a b :=
  let E := fresh "E" in
  destruct (Py.ltb a b) eqn:E;
  [apply ltb_lt in E | apply ltb_ge in E].

Lemma max_min_clamp (x : Q) :
  Py.max (-1.0) (Py.min 1.0 x) == TradingStrategy.clamp (-1) 1 x.
Proof.
  unfold Py.max, Py.min, TradingStrategy.clamp, Py.gtb.
  cmp x 1.0;
  repeat match goal with
         | |- context [Py.ltb ?a ?b] => cmp a b
         end; lra.
Qed.

Module TechnicalScore.
Import TradingStrategy.

Lemma get_empty k : get ∅ k = None.
Proof. unfold get. by rewrite lookup_empty. Qed.

Lemma get_zero_as_absent ind k :
  get (zero_as_absent ind) k =
  match get ind k with
  | Some v => if is_truth_tested k && negb (Py.nonzero v) then None else Some v
  | None => None
  end.
Proof.
  unfold get, zero_as_absent, Py.nonzero. rewrite map_lookup_imap.
  destruct (ind !! k) as [[v|]|]; simpl; [| done | done].
  rewrite negb_involutive.
  by destruct (is_truth_tested k && Qeq_bool v 0).
Qed.

Lemma get_tested ind k :
  is_truth_tested k = true ->
  get (zero_as_absent ind) k =
  match get ind k with
  | Some v => if Py.nonzero v then Some v else None
  | None => None
  end.
Proof.
  intros Hk. rewrite get_zero_as_absent, Hk.
  destruct (get ind k) as [v|]; [| done]. by destruct (Py.nonzero v).
Qed.

Lemma get_untested ind k :
  is_truth_tested k = false -> get (zero_as_absent ind) k = get ind k.
Proof.
  intros Hk. rewrite get_zero_as_absent, Hk. by destruct (get ind k).
Qed.

(** Rewrites every lookup in the filtered dictionary into a lookup in the
    original one. *)
Ltac push_get :=
  repeat match goal with
         | |- context [get (zero_as_absent ?d) ?k] =>
             first [ rewrite (get_tested d k eq_refl)
                   | rewrite (get_untested d k eq_refl) ]
         end.

Ltac split_nonzero :=
  repeat match goal with
         | |- context [Py.nonzero ?v] => destruct (Py.nonzero v); simpl
         end.

Lemma rsi_block_table ind s :
  rsi_block ind s = s ++ table_rsi (zero_as_absent ind).
Proof.
  unfold rsi_block, table_rsi. push_get.
  destruct (get ind "RSI") as [r|]; simpl; [| by rewrite app_nil_r].
  repeat case_match; done.
Qed.

Lemma macd_block_table ind s :
  macd_block ind s = s ++ table_macd (zero_as_absent ind).
Proof.
  unfold macd_block, table_macd. push_get.
  destruct (get ind "MACD"), (get ind "MACD_signal"); simpl;
    rewrite ?app_nil_r; try done.
  by case_match.
Qed.

Lemma macd_diff_block_table ind s :
  macd_diff_block ind s = s ++ table_macd_diff (zero_as_absent ind).
Proof.
  unfold macd_diff_block, table_macd_diff. push_get.
  destruct (get ind "MACD_diff"); simpl; rewrite ?app_nil_r; try done.
  by case_match.
Qed.

Lemma ma_block_table ind s :
  ma_block ind s = s ++ table_ma (zero_as_absent ind).
Proof.
  unfold ma_block, table_ma. push_get.
  destruct (get ind "MA_20") as [m20|], (get ind "MA_50") as [m50|],
           (get ind "current_price") as [p|]; simpl;
    split_nonzero; rewrite ?app_nil_r; try done.
  repeat case_match; done.
Qed.

Lemma ma_200_block_table ind s :
  ma_200_block ind s = s ++ table_ma_200 (zero_as_absent ind).
Proof.
  unfold ma_200_block, table_ma_200. push_get.
  destruct (get ind "MA_200") as [m|], (get ind "current_price") as [p|];
    simpl; split_nonzero; rewrite ?app_nil_r; try done.
  by case_match.
Qed.

Lemma bb_block_table ind s :
  bb_block ind s = s ++ table_bb (zero_as_absent ind).
Proof.
  unfold bb_block, table_bb. push_get.
  destruct (get ind "BB_high") as [hi|], (get ind "BB_low") as [lo|],
           (get ind "BB_mid") as [mid|], (get ind "current_price") as [p|];
    simpl; split_nonzero; rewrite ?app_nil_r; try done.
  repeat case_match; done.
Qed.

Lemma ltb_proper a b a' b' : a == a' -> b == b' -> Py.ltb a b = Py.ltb a' b'.
Proof.
  intros Ha Hb.
  destruct (Py.ltb a b) eqn:E1, (Py.ltb a' b') eqn:E2; try done.
  - apply ltb_lt in E1. apply ltb_ge in E2. lra.
  - apply ltb_ge in E1. apply ltb_lt in E2. lra.
Qed.

Lemma volume_gtb_comm v sma : Py.gtb v (sma * 1.5) = Py.gtb v (1.5 * sma).
Proof. apply ltb_proper; lra. Qed.

Lemma volume_ltb_comm v sma : Py.ltb v (sma * 0.5) = Py.ltb v (0.5 * sma).
Proof. apply ltb_proper; lra. Qed.

Lemma volume_block_table ind s :
  volume_block ind s = s ++ table_volume (zero_as_absent ind).
Proof.
  unfold volume_block, table_volume. push_get.
  destruct (get ind "volume") as [v|], (get ind "volume_sma") as [sma|];
    simpl; split_nonzero; rewrite ?app_nil_r; try done.
  rewrite volume_gtb_comm, volume_ltb_comm.
  repeat case_match; rewrite ?app_nil_r; done.
Qed.

Lemma collected_scores_table ind :
  collected_scores ind = table_votes (zero_as_absent ind).
Proof.
  unfold collected_scores, table_votes.
  rewrite volume_block_table, bb_block_table, ma_200_block_table,
    ma_block_table, macd_diff_block_table, macd_block_table, rsi_block_table.
  simpl. by rewrite <- !app_assoc.
Qed.

Lemma collected_scores_empty : collected_scores ∅ = [].
Proof. reflexivity. Qed.

End TechnicalScore.

(** ** The Technical Scorer (claims C1 and C10) *)

Import Examples.

(** C1, as stated, fails: on a day with RSI 40 and zero volume against a
    volume average of 1000 the table casts the votes +0.2 and -0.1, whose
    mean is 0.05, while the scorer returns 0.2 because the zero volume is
    taken for a missing field. *)
Lemma technical_score_differs_from_table :
  TradingStrategy._calculate_technical_score halted_day == 0.2 /\
  TradingStrategy.table_score halted_day == 0.05 /\
  ~ TradingStrategy._calculate_technical_score halted_day
    == TradingStrategy.table_score halted_day.
Proof.
  split; [| split].
  - vm_compute. reflexivity.
  - vm_compute. reflexivity.
  - vm_compute. discriminate.
Qed.

(** C1, amended: for every indicator set the scorer returns the clamped mean
    of the votes of the fixed table (0 when no vote is cast), where a vote
    group is cast when all its fields are present and the fields
    current_price, MA_20, MA_50, MA_200, BB_high, BB_low, BB_mid, volume and
    volume_sma count as absent when they equal zero. *)
Theorem technical_score_is_table_mean (indicators : indicator_dict) :
  TradingStrategy._calculate_technical_score indicators
  == TradingStrategy.table_score (TradingStrategy.zero_as_absent indicators).
Proof.
  unfold TradingStrategy._calculate_technical_score, TradingStrategy.table_score.
  rewrite <- TechnicalScore.collected_scores_table.
  case_bool_decide as Hempty.
  - subst. rewrite TechnicalScore.collected_scores_empty. reflexivity.
  - destruct (TradingStrategy.collected_scores indicators) as [| v votes].
    + reflexivity.
    + apply max_min_clamp.
Qed.

(** C10: a truth-tested field that is supplied but equals zero silences its
    vote group (moving averages, MA_200, Bollinger bands, volume), whereas
    RSI, tested against [None], still votes when it is zero. *)
Theorem zero_field_casts_no_vote (indicators : indicator_dict) (scores : list Q) :
  (TradingStrategy.zero_at indicators "MA_20"
   \/ TradingStrategy.zero_at indicators "MA_50"
   \/ TradingStrategy.zero_at indicators "current_price" ->
   TradingStrategy.ma_block indicators scores = scores) /\
  (TradingStrategy.zero_at indicators "MA_200"
   \/ TradingStrategy.zero_at indicators "current_price" ->
   TradingStrategy.ma_200_block indicators scores = scores) /\
  (TradingStrategy.zero_at indicators "BB_high"
   \/ TradingStrategy.zero_at indicators "BB_low"
   \/ TradingStrategy.zero_at indicators "BB_mid"
   \/ TradingStrategy.zero_at indicators "current_price" ->
   TradingStrategy.bb_block indicators scores = scores) /\
  (TradingStrategy.zero_at indicators "volume"
   \/ TradingStrategy.zero_at indicators "volume_sma" ->
   TradingStrategy.volume_block indicators scores = scores) /\
  (TradingStrategy.zero_at indicators "RSI" ->
   TradingStrategy.rsi_block indicators scores = scores ++ [0.7]).
Proof.
  unfold TradingStrategy.zero_at.
  repeat split; intros H.
  - unfold TradingStrategy.ma_block.
    destruct H as [(v & -> & Hv) | [(v & -> & Hv) | (v & -> & Hv)]];
      apply nonzero_false in Hv; rewrite Hv;
      repeat case_match; try done;
      rewrite ?andb_false_r in *; simpl in *; congruence.
  - unfold TradingStrategy.ma_200_block.
    destruct H as [(v & -> & Hv) | (v & -> & Hv)];
      apply nonzero_false in Hv; rewrite Hv;
      repeat case_match; try done;
      rewrite ?andb_false_r in *; simpl in *; congruence.
  - unfold TradingStrategy.bb_block.
    destruct H as [(v & -> & Hv) | [(v & -> & Hv) | [(v & -> & Hv) | (v & -> & Hv)]]];
      apply nonzero_false in Hv; rewrite Hv;
      repeat case_match; try done;
      rewrite ?andb_false_r in *; simpl in *; congruence.
  - unfold TradingStrategy.volume_block.
    destruct H as [(v & -> & Hv) | (v & -> & Hv)];
      apply nonzero_false in Hv; rewrite Hv;
      repeat case_match; try done;
      rewrite ?andb_false_r in *; simpl in *; congruence.
  - unfold TradingStrategy.rsi_block.
    destruct H as (v & -> & Hv).
    assert (Py.ltb v 30 = true) as -> by (apply ltb_lt; lra).
    reflexivity.
Qed.

(** The two examples of C10: zero volume casts no volume vote, and a
    200-day average of 0.0 casts no price-versus-MA_200 vote. *)
Lemma zero_field_casts_no_vote_witness :
  TradingStrategy.volume_block halted_day [0.2] = [0.2] /\
  TradingStrategy.ma_200_block flat_ma_200 [] = [].
Proof.
  split.
  - destruct (zero_field_casts_no_vote halted_day [0.2]) as (_ & _ & _ & H & _).
    apply H. left. exists 0. split; [vm_compute; reflexivity | reflexivity].
  - destruct (zero_field_casts_no_vote flat_ma_200 []) as (_ & H & _).
    apply H. left. exists 0.0. split; [vm_compute; reflexivity | reflexivity].
Defined.

(** ** Binary64 rounding *)

Module Rounding.
Import Binary64.

Lemma pow2_pos e : 0 < pow2 e.
Proof. apply Qpower_0_lt. reflexivity. Qed.

Lemma pow2_plus a b : pow2 (a + b) == pow2 a * pow2 b.
Proof. apply Qpower_plus. discriminate. Qed.

Lemma rne_error y : Qabs (inject_Z (rne y) - y) <= 1 # 2.
Proof.
  unfold rne.
  pose proof (Qfloor_le y) as Hlo. pose proof (Qlt_floor y) as Hhi.
  rewrite inject_Z_plus in Hhi. change (inject_Z 1) with 1 in Hhi.
  apply Qabs_Qle_condition.
  destruct (Qcompare_spec (y - inject_Z (Qfloor y)) (1 # 2)) as [H | H | H].
  - destruct (Z.even (Qfloor y)); rewrite ?inject_Z_plus;
      change (inject_Z 1) with 1; split; lra.
  - split; lra.
  - rewrite inject_Z_plus. change (inject_Z 1) with 1. split; lra.
Qed.

Lemma pow2_inject (e : Z) : (0 <= e)%Z -> pow2 e == inject_Z (2 ^ e).
Proof. intros He. unfold pow2. symmetry; apply (Zpower_Qpower 2 e He). Qed.

Lemma mag_lower x : ~ x == 0 -> pow2 (mag x - 1) <= Qabs x.
Proof.
  intros Hx. unfold mag.
  destruct x as [num den]. cbn [Qnum Qden Qabs].
  assert (num <> 0)%Z as Hnum.
  { intros ->. apply Hx. reflexivity. }
  set (n := Z.abs num). set (d := Z.pos den).
  set (k := (Z.log2 n - Z.log2 d)%Z).
  destruct (Qle_bool (pow2 k) (n # den)) eqn:E.
  - apply Qle_bool_iff in E. replace (k + 1 - 1)%Z with k by lia. exact E.
  - clear E.
    assert (0 < n)%Z as Hn by (subst n; lia).
    destruct (Z.log2_spec n Hn) as [Hlo _].
    destruct (Z.log2_spec d ltac:(subst d; lia)) as [_ Hhi].
    pose proof (Z.log2_nonneg n). pose proof (Z.log2_nonneg d).
    replace (k - 1)%Z with (Z.log2 n - Z.succ (Z.log2 d))%Z by (subst k; lia).
    unfold pow2. rewrite Qpower_minus by discriminate.
    fold (pow2 (Z.log2 n)) (pow2 (Z.succ (Z.log2 d))).
    rewrite !pow2_inject by lia.
    apply Qle_shift_div_r.
    + change 0 with (inject_Z 0). rewrite <- Zlt_Qlt. lia.
    + unfold Qle, Qmult, inject_Z. cbn [Qnum Qden]. fold d. nia.
Qed.

Lemma mag_upper x : Qabs x < pow2 (mag x).
Proof.
  unfold mag.
  destruct x as [num den]. cbn [Qnum Qden Qabs].
  set (n := Z.abs num). set (d := Z.pos den).
  set (k := (Z.log2 n - Z.log2 d)%Z).
  destruct (Qle_bool (pow2 k) (n # den)) eqn:E.
  - clear E.
    assert (0 <= n)%Z as Hn by (subst n; lia).
    assert (n < 2 ^ Z.succ (Z.log2 n))%Z as Hhi.
    { destruct (Z.eq_dec n 0%Z) as [-> | Hne]; [reflexivity |].
      apply Z.log2_spec. lia. }
    destruct (Z.log2_spec d ltac:(subst d; lia)) as [Hlo _].
    pose proof (Z.log2_nonneg n). pose proof (Z.log2_nonneg d).
    replace (k + 1)%Z with (Z.succ (Z.log2 n) - Z.log2 d)%Z by (subst k; lia).
    unfold pow2. rewrite Qpower_minus by discriminate.
    fold (pow2 (Z.succ (Z.log2 n))) (pow2 (Z.log2 d)).
    rewrite !pow2_inject by lia.
    apply Qlt_shift_div_l.
    + change 0 with (inject_Z 0). rewrite <- Zlt_Qlt. lia.
    + unfold Qlt, Qmult, inject_Z. cbn [Qnum Qden]. fold d. nia.
  - destruct (Qlt_le_dec (n # den) (pow2 k)) as [H | H]; [exact H |].
    apply Qle_bool_iff in H. congruence.
Qed.

(** The rounding error is at most half a unit in the last place. *)
Lemma round_half_ulp x :
  Qabs (round x - x) <= (1 # 2) * pow2 (fexp (mag x)).
Proof.
  unfold round. set (q := pow2 (fexp (mag x))).
  pose proof (pow2_pos (fexp (mag x))) as Hq. fold q in Hq.
  pose proof (rne_error (x / q)) as H.
  set (r := inject_Z (rne (x / q))) in *.
  assert (r * q - x == (r - x / q) * q) as -> by (field; lra).
  rewrite Qabs_Qmult, (Qabs_pos q) by lra.
  apply Qmult_le_compat_r; [exact H | lra].
Qed.

Lemma rne_nonneg y : 0 <= y -> (0 <= rne y)%Z.
Proof.
  intros Hy. unfold rne.
  assert (0 <= Qfloor y)%Z as Hf.
  { change 0%Z with (Qfloor 0). apply Qfloor_resp_le; exact Hy. }
  destruct (Qcompare _ _); [destruct (Z.even _) | |]; lia.
Qed.

Lemma rne_nonpos y : y <= 0 -> (rne y <= 0)%Z.
Proof.
  intros Hy. unfold rne.
  pose proof (Qfloor_le y) as Hlo.
  assert (Qfloor y <= 0)%Z as Hf.
  { change 0%Z with (Qfloor 0). apply Qfloor_resp_le; exact Hy. }
  destruct (Qcompare_spec (y - inject_Z (Qfloor y)) (1 # 2)) as [H | H | H];
    [| exact Hf |].
  - assert (inject_Z (Qfloor y) < inject_Z 0) as Hlt
      by (change (inject_Z 0) with 0; lra).
    rewrite <- Zlt_Qlt in Hlt. destruct (Z.even (Qfloor y)); lia.
  - assert (inject_Z (Qfloor y) < inject_Z 0) as Hlt
      by (change (inject_Z 0) with 0; lra).
    rewrite <- Zlt_Qlt in Hlt. lia.
Qed.

(** Rounding keeps the sign. *)
Lemma round_nonneg x : 0 <= x -> 0 <= round x.
Proof.
  intros Hx. unfold round. set (q := pow2 (fexp (mag x))).
  pose proof (pow2_pos (fexp (mag x))) as Hq. fold q in Hq.
  assert (0 <= x / q) as Hy by (apply Qle_shift_div_l; lra).
  apply rne_nonneg in Hy. rewrite Zle_Qle in Hy.
  change (inject_Z 0) with 0 in Hy. nra.
Qed.

Lemma round_nonpos x : x <= 0 -> round x <= 0.
Proof.
  intros Hx. unfold round. set (q := pow2 (fexp (mag x))).
  pose proof (pow2_pos (fexp (mag x))) as Hq. fold q in Hq.
  assert (x / q <= 0) as Hy by (apply Qle_shift_div_r; lra).
  apply rne_nonpos in Hy. rewrite Zle_Qle in Hy.
  change (inject_Z 0) with 0 in Hy. nra.
Qed.

Lemma round_zero x : x == 0 -> round x == 0.
Proof.
  intros Hx. unfold round. set (q := pow2 (fexp (mag x))).
  pose proof (rne_error (x / q)) as H.
  assert (x / q == 0) as Hy by (rewrite Hx; reflexivity).
  apply Qabs_Qle_condition in H as [Hlo Hhi].
  assert (rne (x / q) = 0)%Z as ->.
  { set (y := x / q) in *.
    assert (-1 < inject_Z (rne y) /\ inject_Z (rne y) < 1) as [H1 H2]
      by (split; lra).
    change (-1) with (inject_Z (-1)) in H1. change 1 with (inject_Z 1) in H2.
    rewrite <- Zlt_Qlt in H1, H2. lia. }
  ring.
Qed.

(** The standard model of a binary64 operation: a relative error of at
    most 2^-53, or an absolute one of at most 2^-1075 near zero. *)
Lemma round_error x : Qabs (round x - x) <= Qabs x * u + eta.
Proof.
  destruct (Qeq_dec x 0) as [Hx | Hx].
  - rewrite (round_zero x Hx), Hx. vm_compute. discriminate.
  - pose proof (round_half_ulp x) as H.
    pose proof (mag_lower x Hx) as Hm.
    pose proof (Qabs_nonneg x) as Hx0.
    assert (0 < u) as Hu by apply pow2_pos.
    assert (0 < eta) as He by apply pow2_pos.
    unfold fexp in H.
    destruct (Z.max_spec (mag x - 53) (-1074)) as [[_ Hmax] | [_ Hmax]];
      rewrite Hmax in H.
    + assert ((1 # 2) * pow2 (-1074) == eta) as E by reflexivity.
      rewrite E in H. nra.
    + assert ((1 # 2) * pow2 (mag x - 53) == pow2 (mag x - 1) * u) as E.
      { replace (mag x - 53)%Z with ((mag x - 1) + (-52))%Z by lia.
        rewrite pow2_plus. unfold u.
        assert (pow2 (-52) == 2 * pow2 (-53)) as -> by reflexivity. ring. }
      rewrite E in H. nra.
Qed.

Lemma round_bounds x :
  0 <= x -> x * (1 - u) - eta <= round x /\ round x <= x * (1 + u) + eta.
Proof.
  intros Hx. pose proof (round_error x) as H.
  rewrite (Qabs_pos x Hx) in H.
  apply Qabs_Qle_condition in H as [Hlo Hhi]. split; lra.
Qed.

Lemma u_value : u == 1 # 9007199254740992.
Proof. reflexivity. Qed.

Lemma eta_value : eta == tiny.
Proof. vm_compute. reflexivity. Qed.

(** [round_bounds] with the two constants written out. *)
Lemma round_numeric x :
  0 <= x ->
  x * (1 - (1 # 9007199254740992)) - tiny <= round x
  /\ round x <= x * (1 + (1 # 9007199254740992)) + tiny.
Proof.
  intros Hx. destruct (round_bounds x Hx) as [Hlo Hhi].
  rewrite u_value, eta_value in Hlo, Hhi. split; assumption.
Qed.

(** On the samples, on their pairwise quotients, products and sums, and
    on the small samples, [round] gives the value that [SpecFloat]
    computes. *)
Lemma round_agrees_with_SpecFloat :
  forallb (fun x => Qeq_bool (spec_value (spec_ratio x)) (ratio x)) samples = true
  /\ forallb
       (fun x =>
          forallb
            (fun y =>
               Qeq_bool (spec_value (SFmul 53 1024 (spec_ratio x) (spec_ratio y)))
                        (mul (ratio x) (ratio y))
               && Qeq_bool (spec_value (SFadd 53 1024 (spec_ratio x) (spec_ratio y)))
                           (add (ratio x) (ratio y))
               && (Qeq_bool (ratio y) 0
                   || Qeq_bool (spec_value (SFdiv 53 1024 (spec_ratio x) (spec_ratio y)))
                               (div (ratio x) (ratio y))))
            samples)
       samples = true
  /\ forallb
       (fun x =>
          Qeq_bool
            (spec_value
               (SFdiv 53 1024 (binary_normalize 53 1024 x.1.1 x.1.2 false)
                      (spec_of_int x.2)))
            (div (inject_Z x.1.1 * pow2 x.1.2) (inject_Z x.2)))
       small_samples = true.
Proof. split; [| split]; vm_compute; reflexivity. Qed.

Lemma mul_le_l (a c d : Q) : 0 <= a -> c <= d -> a * c <= a * d.
Proof. intros. nra. Qed.

(** The two quotients by the rounded total add up to 1 within four unit
    roundoffs, and their rounded sum within eight. *)
Lemma quotients_sum_near_one (a b : Q) :
  0 <= a -> 0 <= b -> pow2 (-1022) <= a + b ->
  0 < add a b
  /\ Qabs (div a (add a b) + div b (add a b) - 1) <= pow2 (-51)
  /\ Qabs (add (div a (add a b)) (div b (add a b)) - 1) <= pow2 (-50).
Proof.
  intros Ha Hb Hs.
  assert (pow2 (-1022) * (1 # 9007199254740992) == tiny) as Hlow
    by (vm_compute; reflexivity).
  assert (pow2 (-51) == 4 # 9007199254740992) as -> by reflexivity.
  assert (pow2 (-50) == 8 # 9007199254740992) as -> by reflexivity.
  assert (0 < tiny) as Htiny by reflexivity.
  assert (tiny <= 1 # 9007199254740992000000) as Hsmall
    by (vm_compute; discriminate).
  set (L := pow2 (-1022)) in *.
  assert (0 < L) as HL by apply pow2_pos.
  clearbody L.
  destruct (round_numeric (a + b) ltac:(lra)) as [Htlo Hthi].
  fold (add a b) in Htlo, Hthi. set (t := add a b) in *.
  unfold div.
  clearbody t.
  assert (0 < t) as Ht by lra.
  split; [exact Ht |].
  set (A := a / t). set (B := b / t).
  assert (0 <= A) as HA by (apply Qle_shift_div_l; lra).
  assert (0 <= B) as HB by (apply Qle_shift_div_l; lra).
  assert (A + B == (a + b) / t) as Hr by (unfold A, B; field; lra).
  assert ((a + b) / t <= 9007199254740992 # 9007199254740990) as Hrhi
    by (apply Qle_shift_div_r; lra).
  assert (9007199254740992 # 9007199254740994 <= (a + b) / t) as Hrlo
    by (apply Qle_shift_div_l; lra).
  set (r := (a + b) / t) in *. clearbody r. clearbody A B.
  destruct (round_numeric A HA) as [H1lo H1hi].
  destruct (round_numeric B HB) as [H2lo H2hi].
  set (q1 := round A) in *. set (q2 := round B) in *.
  clearbody q1 q2.
  assert (0 <= q1 + q2) as Hsum by lra.
  destruct (round_numeric (q1 + q2) Hsum) as [H3lo H3hi].
  unfold add. set (f := round (q1 + q2)) in *. clearbody f.
  split; apply Qabs_Qle_condition; split; lra.
Qed.

End Rounding.

(** ** Weights of the Signal Generator (claim C5) *)

(** The constructor stores the default weights 0.6 and 0.4, and likewise
    0.8 and 0.2, as given: their float sum is 1.0. *)
Lemma default_weights_stored_as_given :
  TradingStrategy.__init__ (Binary64.round 0.6) (Binary64.round 0.4) 0.6 (-0.6)
  = TradingStrategy.Strategy (Binary64.round 0.6) (Binary64.round 0.4) 0.6 (-0.6)
  /\ TradingStrategy.__init__ (Binary64.round 0.8) (Binary64.round 0.2) 0.6 (-0.6)
     = TradingStrategy.Strategy (Binary64.round 0.8) (Binary64.round 0.2) 0.6 (-0.6).
Proof. split; vm_compute; reflexivity. Qed.

(** C5, as stated, fails.  Constructed with the floats 0.3 and 0.1, whose
    sum is positive, the strategy stores 0.7499999999999999 and 0.25: their
    float sum is 0.9999999999999999, and their exact sum is not 1 either.
    Constructed with both weights zero, it keeps them, and they sum to 0. *)
Lemma stored_weights_miss_one :
  let s := TradingStrategy.__init__ (Binary64.round 0.3) (Binary64.round 0.1)
             0.6 (-0.6) in
  let z := TradingStrategy.__init__ 0 0 0.6 (-0.6) in
  0 < Binary64.round 0.3 + Binary64.round 0.1
  /\ TradingStrategy.sentiment_weight s == 0.75 - Binary64.u
  /\ TradingStrategy.technical_weight s == 0.25
  /\ Binary64.add (TradingStrategy.sentiment_weight s)
                  (TradingStrategy.technical_weight s) == 1 - Binary64.u
  /\ ~ TradingStrategy.sentiment_weight s + TradingStrategy.technical_weight s == 1
  /\ TradingStrategy.sentiment_weight z + TradingStrategy.technical_weight z == 0.
Proof. vm_compute. repeat split; discriminate. Qed.

(** C5, amended: for non-negative constructor weights whose sum lies in
    the normal range of the floats, the stored weights sum to 1 up to
    rounding: their exact sum is within 2^-51 of 1, and their float sum
    within 2^-50 of 1.  When the sum of the arguments is not positive the
    weights are stored as given. *)
Theorem weights_normalized_when_positive (sw tw bt st : Q) :
  let s := TradingStrategy.__init__ sw tw bt st in
  (0 <= sw -> 0 <= tw ->
   Binary64.pow2 (-1022) <= sw + tw -> sw + tw <= Binary64.pow2 1023 ->
   Qabs (TradingStrategy.sentiment_weight s + TradingStrategy.technical_weight s - 1)
   <= Binary64.pow2 (-51)
   /\ Qabs (Binary64.add (TradingStrategy.sentiment_weight s)
                         (TradingStrategy.technical_weight s) - 1)
      <= Binary64.pow2 (-50))
  /\ (sw + tw <= 0 ->
      TradingStrategy.sentiment_weight s = sw
      /\ TradingStrategy.technical_weight s = tw).
Proof.
  unfold TradingStrategy.__init__. split.
  - intros Hsw Htw Hlo _.
    destruct (Rounding.quotients_sum_near_one sw tw Hsw Htw Hlo) as (Hpos & H1 & H2).
    assert (Py.gtb (Binary64.add sw tw) 0 = true) as -> by (apply gtb_gt; exact Hpos).
    cbn [TradingStrategy.sentiment_weight TradingStrategy.technical_weight].
    split; assumption.
  - intros H.
    assert (Py.gtb (Binary64.add sw tw) 0 = false) as ->
      by (apply gtb_le; apply Rounding.round_nonpos; exact H).
    split; reflexivity.
Qed.

Lemma weights_normalized_when_positive_witness :
  let s := TradingStrategy.__init__ (Binary64.round 0.3) (Binary64.round 0.1)
             0.6 (-0.6) in
  Qabs (TradingStrategy.sentiment_weight s + TradingStrategy.technical_weight s - 1)
  <= Binary64.pow2 (-51).
Proof.
  destruct (weights_normalized_when_positive
              (Binary64.round 0.3) (Binary64.round 0.1) 0.6 (-0.6)) as [H _].
  apply H.
  - vm_compute. discriminate.
  - vm_compute. discriminate.
  - vm_compute. discriminate.
  - vm_compute. discriminate.
Defined.

(** ** The Backtest Simulator (claims C2, C3 and C4) *)

Module Backtest.
Import BacktestingEngine.

(** [int] of a non-negative float is its floor. *)
Lemma int_floor (x : Q) :
  0 <= x -> inject_Z (Py.int x) <= x /\ x < inject_Z (Py.int x + 1).
Proof.
  intros Hx. destruct x as [n d]. unfold Py.int, Qle, Qlt in *. simpl in *.
  assert (0 <= n)%Z as Hn by lia.
  rewrite Z.quot_div_nonneg by lia.
  pose proof (Z.mul_div_le n (Z.pos d) ltac:(lia)).
  pose proof (Z.mul_succ_div_gt n (Z.pos d) ltac:(lia)).
  split; nia.
Qed.

Lemma int_nonneg (x : Q) : 0 <= x -> (0 <= Py.int x)%Z.
Proof.
  intros Hx. destruct x as [n d]. unfold Py.int, Qle in *. simpl in *.
  apply Z.quot_pos; lia.
Qed.


Section Engine.

Variable initial_capital transaction_cost : Q.
Variable indicator_library : list bar -> Q -> indicator_dict.
Variable sqrt : Q -> Q.

Local Abbreviation execute := (execute transaction_cost).
Local Abbreviation simulate_day :=
  (simulate_day transaction_cost indicator_library).
Local Abbreviation simulate := (simulate transaction_cost indicator_library).

(** The statements after the loop raise whenever the loop recorded
    exactly one day. *)
Lemma summarize_one_day sp500 p ts v :
  summarize initial_capital sqrt sp500 (Ledger p ts [v])
  = inl (Py.KeyError (Py.StrKey "daily_return")).
Proof. reflexivity. Qed.

(** The trade step follows the rule of [Rules.day_trade]. *)
Lemma execute_rule strategy signal d price p ts :
  0 < price ->
  exists p' added,
    execute strategy signal d price p ts = inr (p', ts ++ added)
    /\ Rules.day_trade transaction_cost signal d price p p' added.
Proof.
  intros Hprice. unfold BacktestingEngine.execute.
  destruct (TradingStrategy.sig_type signal) eqn:Hsig.
  - destruct (Py.gtb (cash p) 0) eqn:Hcash.
    + apply gtb_gt in Hcash.
      assert (Qeq_bool price 0 = false) as ->.
      { destruct (Qeq_bool price 0) eqn:E; [| done].
        apply Qeq_bool_iff in E. lra. }
      fold (Rules.position p signal).
      set (n := Py.int (Rules.position p signal / price)).
      assert (Rules.largest_affordable (Rules.position p signal) price n)
        as Hn.
      { assert (0 <= Rules.position p signal) as Hpos.
        { unfold Rules.position, TradingStrategy.calculate_position_size.
          unfold Py.min, Py.max, Py.gtb.
          repeat match goal with
                 | |- context [Py.ltb ?a ?b] => cmp a b
                 end; nra. }
        assert (0 <= Rules.position p signal / price) as Hq.
        { apply Qle_shift_div_l; lra. }
        destruct (int_floor _ Hq) as [Hlo Hhi]. fold n in Hlo, Hhi.
        assert (Rules.position p signal
                == Rules.position p signal / price * price) as Heq
          by (field; lra).
        split; rewrite Heq; nra. }
      destruct (0 <? n)%Z eqn:Hpos.
      * apply Z.ltb_lt in Hpos.
        destruct (Py.leb (inject_Z n * price * (1 + transaction_cost)) (cash p))
          eqn:Hcost.
        -- apply Qle_bool_iff in Hcost.
           eexists _, [_]. split; [reflexivity |].
           by apply Rules.bought.
        -- exists p, []. rewrite app_nil_r. split; [reflexivity |].
           apply (Rules.buy_skipped _ _ _ _ _ n); try done.
           right. apply ltb_ge in Hcost || idtac.
           destruct (Qlt_le_dec (cash p)
                       (inject_Z n * price * (1 + transaction_cost)))
             as [H | H]; [exact H |].
           apply Qle_bool_iff in H. unfold Py.leb in Hcost. congruence.
      * apply Z.ltb_ge in Hpos.
        exists p, []. rewrite app_nil_r. split; [reflexivity |].
        apply (Rules.buy_skipped _ _ _ _ _ n); auto.
    + apply gtb_le in Hcash.
      exists p, []. rewrite app_nil_r. split; [reflexivity |].
      by apply Rules.buy_without_cash.
  - destruct (0 <? shares p)%Z eqn:Hs.
    + apply Z.ltb_lt in Hs. eexists _, [_]. split; [reflexivity |].
      by apply Rules.sold.
    + apply Z.ltb_ge in Hs. exists p, []. rewrite app_nil_r.
      split; [reflexivity |]. by apply Rules.sell_without_shares.
  - exists p, []. rewrite app_nil_r. split; [reflexivity |].
    by apply Rules.held.
Qed.

(** A day's trade keeps a solvent portfolio solvent. *)
Lemma day_trade_solvent signal d price p p' added :
  0 < price -> transaction_cost <= 1 ->
  Rules.day_trade transaction_cost signal d price p p' added ->
  Rules.solvent p -> Rules.solvent p'.
Proof.
  intros Hprice Htc Hrule [Hcash Hshares].
  destruct Hrule; unfold Rules.solvent; simpl; try done.
  - split; [lra | lia].
  - split; [| lia].
    assert (0 <= inject_Z (shares p)) by (unfold Qle; simpl; lia).
    assert (0 <= inject_Z (shares p) * price)
      by (apply Qmult_le_0_compat; lra).
    assert (0 <= inject_Z (shares p) * price * (1 - transaction_cost))
      by (apply Qmult_le_0_compat; lra).
    lra.
Qed.

Lemma simulate_day_solvent strategy market_df sentiment_df row l :
  0 < Close row -> transaction_cost <= 1 ->
  Rules.solvent_ledger l ->
  exists l', simulate_day strategy market_df sentiment_df row l = inr l'
             /\ Rules.solvent_ledger l'
             /\ length (daily_values l') = S (length (daily_values l)).
Proof.
  intros Hprice Htc [Hp Hv]. unfold BacktestingEngine.simulate_day.
  match goal with
  | |- context [execute ?s ?sg ?d ?pr ?p ?ts] =>
      destruct (execute_rule s sg d pr p ts Hprice) as (p' & added & -> & Hrule)
  end.
  simpl. eexists. split; [reflexivity |].
  pose proof (day_trade_solvent _ _ _ _ _ _ Hprice Htc Hrule Hp) as Hp'.
  split; [split |]; simpl.
  - exact Hp'.
  - apply Forall_app. split; [exact Hv |]. constructor; [exact Hp' | constructor].
  - rewrite length_app. simpl. lia.
Qed.

Lemma simulate_solvent strategy market_df sentiment_df rows : forall l,
  Forall (fun row => 0 < Close row) rows -> transaction_cost <= 1 ->
  Rules.solvent_ledger l ->
  exists l', simulate strategy market_df sentiment_df rows l = inr l'
             /\ Rules.solvent_ledger l'
             /\ length (daily_values l')
                = (length (daily_values l) + length rows)%nat.
Proof.
  induction rows as [| row rows IH]; intros l Hrows Htc Hl.
  - exists l. simpl. split; [reflexivity | split; [exact Hl | lia]].
  - apply Forall_cons in Hrows as [Hrow Hrows].
    destruct (simulate_day_solvent strategy market_df sentiment_df row l
                Hrow Htc Hl) as (l1 & E1 & Hl1 & Hlen1).
    destruct (IH l1 Hrows Htc Hl1) as (l2 & E2 & Hl2 & Hlen2).
    exists l2. simpl. rewrite E1. simpl. rewrite E2.
    split; [reflexivity | split; [exact Hl2 |]].
    rewrite Hlen2, Hlen1. simpl. lia.
Qed.

(** From two recorded days on, the statements after the loop return
    the result dictionary. *)
Lemma summarize_returns sp500 l :
  (2 <= length (daily_values l))%nat ->
  exists m, summarize initial_capital sqrt sp500 l = inr (Results m).
Proof.
  intros Hlen. unfold summarize.
  assert ((1 <? length (daily_values l))%nat = true) as ->
    by (apply Nat.ltb_lt; lia).
  cbn [rows daily_return].
  destruct (last (daily_values l)) as [final_row |] eqn:Hlast.
  - unfold max_drawdown_of. cbn [rows daily_return_column daily_return].
    assert ((0 <? length (daily_values l))%nat = true) as ->
      by (apply Nat.ltb_lt; lia).
    simpl. by eexists.
  - apply last_None in Hlast. rewrite Hlast in Hlen. simpl in Hlen. lia.
Qed.

(** A history of two days or more, at positive prices, is replayed to
    the end and summarized. *)
Lemma longer_backtest_returns strategy market_df sentiment_df sp500 :
  (2 <= length market_df)%nat ->
  0 <= initial_capital -> transaction_cost <= 1 ->
  Forall (fun row => 0 < Close row) market_df ->
  exists m,
    run_backtest initial_capital transaction_cost indicator_library sqrt
      strategy market_df sentiment_df sp500 = inr (Results m).
Proof.
  intros Hlen Hcap Htc Hrows. unfold run_backtest.
  destruct market_df as [| row rows] eqn:Hdf; [simpl in Hlen; lia |].
  rewrite <- Hdf in *.
  destruct (simulate_solvent strategy market_df sentiment_df market_df
              (initial_ledger initial_capital) Hrows Htc)
    as (l & -> & _ & Hdays).
  - split; [split; simpl; [exact Hcap | lia] | constructor].
  - simpl in *. apply summarize_returns. lia.
Qed.

End Engine.

End Backtest.

(** C2: a history of exactly one trading day makes [run_backtest] raise
    instead of returning a result: the column [daily_return] is read by the
    draw-down computation although it is only assigned for two days or
    more.  (With a closing price of zero the buy step may raise earlier.) *)
Theorem single_day_backtest_raises
    (initial_capital transaction_cost : Q)
    (indicator_library : list BacktestingEngine.bar -> Q -> indicator_dict)
    (sqrt : Q -> Q) (strategy : TradingStrategy.strategy)
    (day : BacktestingEngine.bar)
    (sentiment_df : list BacktestingEngine.sentiment_row)
    (sp500_closes : list Q) :
  let outcome :=
    BacktestingEngine.run_backtest initial_capital transaction_cost
      indicator_library sqrt strategy [day] sentiment_df sp500_closes in
  outcome = inl (Py.KeyError (Py.StrKey "daily_return"))
  \/ outcome = inl Py.ZeroDivisionError.
Proof.
  unfold BacktestingEngine.run_backtest, BacktestingEngine.simulate,
    BacktestingEngine.simulate_day.
  match goal with
  | |- context [BacktestingEngine.execute ?tc ?s ?sg ?d ?pr ?p ?ts] =>
      destruct (BacktestingEngine.execute tc s sg d pr p ts) as [e | [p' ts']] eqn:E
  end.
  - right. simpl.
    unfold BacktestingEngine.execute in E.
    repeat case_match; unfold Py.raise, Py.ret in E; simplify_eq; reflexivity.
  - left. reflexivity.
Qed.

(** C2 at a concrete input: 100000 of capital, a fee of 0.1 percent, the
    default strategy, one bar closing at 100 and no sentiment history. *)
Example one_day_backtest_key_error :
  BacktestingEngine.run_backtest 100000 0.001 no_indicators no_sqrt
    TradingStrategy.default_strategy one_day [] []
  = inl (Py.KeyError (Py.StrKey "daily_return")).
Proof. vm_compute. reflexivity. Qed.

(** C3, as stated, fails: with 100000 in cash, a buy signal of confidence
    0.78 sizes the position at 3340; at a close of 334 and a fee of 0.1
    percent the simulator buys 10 shares for 3343.34.  Ten is not the
    largest number of shares affordable at 334 * 1.001 a share, neither
    within the position size (it affords 9) nor within the cash (it
    affords more). *)
Lemma fee_ignored_when_sizing :
  let signal :=
    TradingStrategy.generate_signal sentiment_led
      (BacktestingEngine.sentiment_for strong_sentiment 0) ∅ in
  let p := BacktestingEngine.Portfolio 100000 0 in
  TradingStrategy.sig_type signal = TradingStrategy.buy /\
  Rules.position p signal == 3340 /\
  (exists p' trades,
     BacktestingEngine.execute 0.001 sentiment_led signal 0 334 p [] = inr (p', trades)
     /\ BacktestingEngine.shares p' = 10%Z
     /\ BacktestingEngine.cash p' == 100000 - 3343.34) /\
  ~ Rules.largest_affordable (Rules.position p signal) (334 * (1 + 0.001)) 10 /\
  ~ Rules.largest_affordable (BacktestingEngine.cash p) (334 * (1 + 0.001)) 10.
Proof.
  split; [| split; [| split; [| split]]].
  - vm_compute. reflexivity.
  - vm_compute. reflexivity.
  - eexists _, _. split; [vm_compute; reflexivity |].
    split; vm_compute; reflexivity.
  - intros [H _]. vm_compute in H. apply H. reflexivity.
  - intros [_ H]. vm_compute in H. discriminate.
Qed.

(** C3, amended: at a positive closing price the trade step does the
    following.  On a buy signal with positive cash, the number of shares is
    the largest whole number whose value at the closing price, before the
    fee, fits in [calculate_position_size(cash, confidence)]; the shares are
    bought for shares * price * (1 + fee) when that number is positive and
    the cash covers the cost, and the trade is skipped otherwise.  On a sell
    signal with shares held, all shares are sold for
    shares * price * (1 - fee).  On hold, and in every other case, nothing
    is traded.  A day adds at most one trade to the log. *)
Theorem trade_step_rule
    (transaction_cost : Q) (strategy : TradingStrategy.strategy)
    (signal : TradingStrategy.signal) (d : Z) (price : Q)
    (p : BacktestingEngine.portfolio) (trades : list BacktestingEngine.trade) :
  0 < price ->
  exists p' added,
    BacktestingEngine.execute transaction_cost strategy signal d price p trades
    = inr (p', trades ++ added)
    /\ Rules.day_trade transaction_cost signal d price p p' added
    /\ (length added <= 1)%nat.
Proof.
  intros Hprice.
  destruct (Backtest.execute_rule transaction_cost strategy signal d price p
              trades Hprice) as (p' & added & E & Hrule).
  exists p', added. split; [exact E | split; [exact Hrule |]].
  destruct Hrule; simpl; lia.
Qed.

Lemma trade_step_rule_witness :
  exists p' added,
    BacktestingEngine.execute 0.001 sentiment_led
      (TradingStrategy.generate_signal sentiment_led
         (BacktestingEngine.sentiment_for strong_sentiment 0) ∅)
      0 334 (BacktestingEngine.Portfolio 100000 0) []
    = inr (p', [] ++ added)
    /\ Rules.day_trade 0.001
         (TradingStrategy.generate_signal sentiment_led
            (BacktestingEngine.sentiment_for strong_sentiment 0) ∅)
         0 334 (BacktestingEngine.Portfolio 100000 0) p' added
    /\ (length added <= 1)%nat.
Proof.
  apply (trade_step_rule 0.001 sentiment_led _ 0 334
           (BacktestingEngine.Portfolio 100000 0) []).
  reflexivity.
Defined.

(** C4: with a non-negative initial capital, a fee rate of at most 1 and
    positive closing prices, the day loop runs to the end for every
    strategy, sentiment history and indicator library, and the portfolio
    holds no negative cash and no negative share count after the trade step
    of every day and at the end of the run. *)
Theorem portfolio_never_negative
    (initial_capital transaction_cost : Q)
    (indicator_library : list BacktestingEngine.bar -> Q -> indicator_dict)
    (strategy : TradingStrategy.strategy)
    (market_df : list BacktestingEngine.bar)
    (sentiment_df : list BacktestingEngine.sentiment_row) :
  0 <= initial_capital ->
  transaction_cost <= 1 ->
  Forall (fun row => 0 < BacktestingEngine.Close row) market_df ->
  exists l,
    BacktestingEngine.simulate transaction_cost indicator_library strategy
      market_df sentiment_df market_df
      (BacktestingEngine.initial_ledger initial_capital) = inr l
    /\ length (BacktestingEngine.daily_values l) = length market_df
    /\ Forall Rules.solvent_day (BacktestingEngine.daily_values l)
    /\ Rules.solvent (BacktestingEngine.holdings l).
Proof.
  intros Hcap Htc Hrows.
  destruct (Backtest.simulate_solvent transaction_cost indicator_library
              strategy market_df sentiment_df market_df
              (BacktestingEngine.initial_ledger initial_capital) Hrows Htc)
    as (l & E & [Hp Hv] & Hlen).
  - split; [split; simpl; [exact Hcap | lia] | constructor].
  - exists l. repeat split; try done. apply Hp. apply Hp.
Qed.

Lemma portfolio_never_negative_witness :
  exists l,
    BacktestingEngine.simulate 0.001 no_indicators sentiment_led
      buy_day strong_sentiment buy_day
      (BacktestingEngine.initial_ledger 100000) = inr l
    /\ length (BacktestingEngine.daily_values l) = length buy_day
    /\ Forall Rules.solvent_day (BacktestingEngine.daily_values l)
    /\ Rules.solvent (BacktestingEngine.holdings l).
Proof.
  apply (portfolio_never_negative 100000 0.001 no_indicators sentiment_led
           buy_day strong_sentiment).
  - unfold Qle. simpl. lia.
  - unfold Qle. simpl. lia.
  - repeat constructor.
Defined.

(** ** The Budget Gateway (claims C7 and C8) *)

Module Gateway.
Import RateLimiter.

Lemma reset_same_day today self :
  last_reset_date self = today -> _reset_if_new_day today self = self.
Proof.
  intros H. unfold _reset_if_new_day. case_bool_decide; [congruence | done].
Qed.

Lemma reset_timestamps today self :
  requests_timestamps (_reset_if_new_day today self) = requests_timestamps self.
Proof. unfold _reset_if_new_day. by case_bool_decide. Qed.

Lemma reset_limits today self :
  max_requests_per_minute (_reset_if_new_day today self)
  = max_requests_per_minute self.
Proof. unfold _reset_if_new_day. by case_bool_decide. Qed.

(** A full window refuses, whatever the daily tables hold. *)
Lemma full_window_refused now today self :
  (max_requests_per_minute self <= Z.of_nat (in_window now self))%Z ->
  (check_rate_limit now today self).1
  = inr (false, Some (RateLimitExceeded (max_requests_per_minute self))).
Proof.
  intros Hfull. unfold check_rate_limit, in_window in *. simpl.
  rewrite reset_timestamps, reset_limits.
  apply Z.leb_le in Hfull. by rewrite Hfull.
Qed.

Lemma getitem_readable {V} (dflt : V) d k v :
  readable dflt d k = Some v ->
  exists d', getitem dflt d k = (inr v, d')
             /\ entries d' !! k = Some v
             /\ is_defaultdict d' = is_defaultdict d.
Proof.
  unfold readable, getitem. intros H.
  destruct (entries d !! k) eqn:E.
  - simplify_eq. by exists d.
  - destruct (is_defaultdict d) eqn:Hd; [| done]. simplify_eq.
    eexists. split; [reflexivity |]. simpl. by rewrite lookup_insert_eq.
Qed.

(** With room in the window and readable tables, the day's request count
    is compared before the day's cost, and the first ceiling that is
    reached names the refusal. *)
Lemma ceilings_in_order now today self n c :
  let self1 := _reset_if_new_day today self in
  (Z.of_nat (in_window now self) < max_requests_per_minute self)%Z ->
  readable 0%Z (daily_requests self1) today = Some n ->
  readable 0 (daily_costs self1) today = Some c ->
  (check_rate_limit now today self).1
  = if (max_requests_per_day self <=? n)%Z
    then inr (false, Some (DailyLimitExceeded (max_requests_per_day self)))
    else if Py.geb c (max_daily_cost self)
         then inr (false, Some (DailyCostLimitExceeded (max_daily_cost self)))
         else inr (true, None).
Proof.
  intros self1 Hroom Hn Hc. unfold check_rate_limit, in_window in *.
  simpl. rewrite reset_timestamps, reset_limits.
  apply Z.leb_gt in Hroom. rewrite Hroom.
  fold self1.
  destruct (getitem_readable _ _ _ _ Hn) as (d1 & -> & _ & _). simpl.
  assert (max_requests_per_day self1 = max_requests_per_day self) as ->
    by (unfold self1, _reset_if_new_day; by case_bool_decide).
  destruct (max_requests_per_day self <=? n)%Z; [done |].
  destruct (getitem_readable _ _ _ _ Hc) as (d2 & -> & _ & _). simpl.
  assert (max_daily_cost self1 = max_daily_cost self) as ->
    by (unfold self1, _reset_if_new_day; by case_bool_decide).
  by destruct (Py.geb c (max_daily_cost self)).
Qed.

(** [int(t * share)] for a share [k/10], taken on the binary64 product, is
    the integer quotient [t * k / 10] or one less. *)
Lemma share_within_one (t k : Z) (c : Q) :
  (0 <= t <= 10 ^ 12)%Z -> (0 < k < 10)%Z ->
  inject_Z k / 10 * (1 - (1 # 9007199254740992)) <= c ->
  c <= inject_Z k / 10 ->
  (t * k / 10 - 1 <= Py.int (Binary64.mul (Binary64.of_int t) c) <= t * k / 10)%Z.
Proof.
  intros [Ht0 Ht1] Hk Hclo Hchi.
  assert (0 < Binary64.tiny) as Htiny by reflexivity.
  assert (Binary64.tiny <= 1 # 9007199254740992000000) as Hsmall
    by (vm_compute; discriminate).
  unfold Binary64.mul, Binary64.of_int.
  set (x := inject_Z t).
  assert (0 <= x /\ x <= 1000000000000) as [Hx0 Hx1].
  { unfold x. change 0 with (inject_Z 0).
    change 1000000000000 with (inject_Z (10 ^ 12)).
    rewrite <- !Zle_Qle. lia. }
  destruct (Rounding.round_numeric x Hx0) as [Halo Hahi].
  pose proof (Rounding.round_nonneg x Hx0) as Ha0.
  set (a := Binary64.round x) in *. clearbody a.
  set (kq := inject_Z k) in *.
  assert (0 < kq /\ kq <= 9) as [Hk0 Hk9].
  { unfold kq. change 0 with (inject_Z 0). change 9 with (inject_Z 9).
    rewrite <- Zlt_Qlt, <- Zle_Qle. lia. }
  assert (0 <= c) as Hc0 by lra.
  assert (0 <= a * c) as Hb0 by (apply Qmult_le_0_compat; assumption).
  destruct (Rounding.round_numeric (a * c) Hb0) as [Hplo Hphi].
  pose proof (Rounding.round_nonneg (a * c) Hb0) as Hp0.
  set (p := Binary64.round (a * c)) in *. clearbody p.
  destruct (Backtest.int_floor p Hp0) as [Hilo Hihi].
  rewrite inject_Z_plus in Hihi. change (inject_Z 1) with 1 in Hihi.
  set (m := (t * k / 10)%Z).
  assert (10 * m <= t * k <= 10 * m + 9)%Z as [Hm0 Hm1].
  { pose proof (Z.div_mod (t * k) 10 ltac:(lia)).
    pose proof (Z.mod_pos_bound (t * k) 10 ltac:(lia)). subst m. lia. }
  assert (10 * inject_Z m <= x * kq /\ x * kq <= 10 * inject_Z m + 9) as [Hq0 Hq1].
  { unfold x, kq. rewrite <- inject_Z_mult.
    change 10 with (inject_Z 10). change 9 with (inject_Z 9).
    rewrite <- inject_Z_mult, <- inject_Z_plus, <- !Zle_Qle. lia. }
  set (i := Py.int p) in *.
  assert (inject_Z i < inject_Z m + 1 /\ inject_Z m - 2 < inject_Z i) as [Hup Hdown].
  { set (iq := inject_Z i) in *. set (mq := inject_Z m) in *.
    clearbody iq mq. clear Hm0 Hm1.
    pose proof (Rounding.mul_le_l a _ _ Ha0 Hchi) as Hbhi.
    pose proof (Rounding.mul_le_l a _ _ Ha0 Hclo) as Hblo.
    set (b := a * c) in *. clearbody b.
    assert (a * kq <= (x * kq) * (1 + (1 # 9007199254740992)) + Binary64.tiny * kq)
      as Hakhi.
    { assert ((x * kq) * (1 + (1 # 9007199254740992)) + Binary64.tiny * kq
              == kq * (x * (1 + (1 # 9007199254740992)) + Binary64.tiny)) as -> by ring.
      rewrite (Qmult_comm a kq). apply Rounding.mul_le_l; lra. }
    assert ((x * kq) * (1 - (1 # 9007199254740992)) - Binary64.tiny * kq <= a * kq)
      as Haklo.
    { assert ((x * kq) * (1 - (1 # 9007199254740992)) - Binary64.tiny * kq
              == kq * (x * (1 - (1 # 9007199254740992)) - Binary64.tiny)) as -> by ring.
      rewrite (Qmult_comm a kq). apply Rounding.mul_le_l; lra. }
    assert (x * kq <= 9000000000000) as Hbig.
    { apply Qle_trans with (x * 9); [apply Rounding.mul_le_l; lra | lra]. }
    assert (a * (kq / 10) == a * kq * (1 # 10)) as E1 by (field; discriminate).
    assert (a * (kq / 10 * (1 - (1 # 9007199254740992)))
            == a * kq * (1 # 10) * (1 - (1 # 9007199254740992))) as E2
      by (field; discriminate).
    rewrite E1 in Hbhi. rewrite E2 in Hblo.
    assert (0 <= Binary64.tiny * kq /\ Binary64.tiny * kq <= Binary64.tiny * 9)
      as [Htk0 Htk1].
    { split; [apply Qmult_le_0_compat; lra | apply Rounding.mul_le_l; lra]. }
    set (ak := a * kq) in *. set (xk := x * kq) in *.
    set (tk := Binary64.tiny * kq) in *. clearbody ak xk tk.
    clear E1 E2 Hx0 Hx1 Halo Hahi Ha0 Hclo Hchi Hk0 Hk9 Hc0. clear i x kq.
    split; lra. }
  change 1 with (inject_Z 1) in Hup. change 2 with (inject_Z 2) in Hdown.
  rewrite <- inject_Z_plus, <- Zlt_Qlt in Hup.
  unfold Qminus in Hdown. change (- inject_Z 2) with (inject_Z (-2)) in Hdown.
  rewrite <- inject_Z_plus, <- Zlt_Qlt in Hdown. lia.
Qed.

Lemma input_share t :
  (0 <= t <= 10 ^ 12)%Z ->
  (t * 7 / 10 - 1 <= token_share t 0.7 <= t * 7 / 10)%Z.
Proof.
  intros Ht. apply (share_within_one t 7); [exact Ht | lia | |];
    vm_compute; discriminate.
Qed.

Lemma output_share t :
  (0 <= t <= 10 ^ 12)%Z ->
  (t * 3 / 10 - 1 <= token_share t 0.3 <= t * 3 / 10)%Z.
Proof.
  intros Ht. apply (share_within_one t 3); [exact Ht | lia | |];
    vm_compute; discriminate.
Qed.

(** Both cases occur: 1000 tokens split into 700 and 300, while 700
    tokens count as 489 input tokens and 90 tokens as 62, because
    [700 * 0.7] is the float 489.99999999999994. *)
Lemma share_examples :
  token_share 1000 0.7 = 700%Z /\ token_share 1000 0.3 = 300%Z
  /\ token_share 700 0.7 = 489%Z /\ token_share 700 0.3 = 210%Z
  /\ token_share 90 0.7 = 62%Z.
Proof. vm_compute. repeat split. Qed.

End Gateway.

(** C7: two calls are admitted and recorded shortly before midnight by a
    gateway that allows two requests a minute; the next check is refused
    with the per-minute reason; one minute after the first call, on the
    next calendar day, the first call has left the window, yet the check
    raises [KeyError] instead of admitting: the day roll-over has replaced
    the [defaultdict] tables by plain dictionaries that lack the new day.
    On the same calendar day the same check admits. *)
Theorem admission_after_midnight_raises :
  let s0 := RateLimiter.__init__ 2 1000 10 0.15 0 None in
  let '(r1, s1) := RateLimiter.check_rate_limit 86370 0 s0 in
  let '(_, s2) := RateLimiter.record_request 500 86370 0 s1 in
  let '(r2, s3) := RateLimiter.check_rate_limit 86380 0 s2 in
  let '(_, s4) := RateLimiter.record_request 500 86380 0 s3 in
  let '(r3, s5) := RateLimiter.check_rate_limit 86385 0 s4 in
  r1 = inr (true, None) /\
  r2 = inr (true, None) /\
  r3 = inr (false, Some (RateLimiter.RateLimitExceeded 2)) /\
  RateLimiter.in_window 86431 s5 = 1%nat /\
  (RateLimiter.check_rate_limit 86431 1 s5).1
  = inl (Py.KeyError (Py.DateKey 1)) /\
  (RateLimiter.check_rate_limit 86431 0 s5).1 = inr (true, None).
Proof. vm_compute. repeat split; reflexivity. Qed.

(** C8, as stated, fails: two gateways configured with different token
    rates record the same cost, 0.000285, for a request of 1000 tokens. *)
Lemma recorded_cost_ignores_configured_rate :
  let cheap := RateLimiter.__init__ 60 1000 10 0.15 0 None in
  let dear := RateLimiter.__init__ 60 1000 10 30 0 None in
  let cost_after self :=
    RateLimiter.get_default 0
      (RateLimiter.daily_costs (RateLimiter.record_request 1000 0 0 self).2) 0%Z in
  ~ RateLimiter.cost_per_1k_tokens cheap == RateLimiter.cost_per_1k_tokens dear
  /\ cost_after cheap == 0.000285
  /\ cost_after dear == 0.000285.
Proof.
  split; [| split].
  - vm_compute. discriminate.
  - vm_compute. reflexivity.
  - vm_compute. reflexivity.
Qed.

(** C8, amended: whenever the tables of the day can be read after the
    roll-over check, [record_request(t)], for a token count of at most
    10^12, appends one timestamp to the window, raises the day's request
    count by one, and adds to the day's cost the estimate 0.15 per million
    for int(t * 0.7) input tokens plus 0.60 per million for int(t * 0.3)
    output tokens.  The two truncations are taken on the float products, so
    each is the integer quotient 7t/10, respectively 3t/10, or one less; the
    two rates are constants and the configured rate plays no part. *)
Theorem record_request_effect
    (self : RateLimiter.state) (t : Z) (now : Q) (today : Z) (n : Z) (c : Q) :
  let self1 := RateLimiter._reset_if_new_day today self in
  (0 <= t <= 10 ^ 12)%Z ->
  RateLimiter.readable 0%Z (RateLimiter.daily_requests self1) today = Some n ->
  RateLimiter.readable 0 (RateLimiter.daily_costs self1) today = Some c ->
  exists self',
    RateLimiter.record_request t now today self = (inr tt, self')
    /\ RateLimiter.requests_timestamps self'
       = RateLimiter.requests_timestamps self ++ [now]
    /\ RateLimiter.entries (RateLimiter.daily_requests self') !! today
       = Some (n + 1)%Z
    /\ (exists c' input_tokens output_tokens,
          RateLimiter.entries (RateLimiter.daily_costs self') !! today = Some c'
          /\ input_tokens = RateLimiter.token_share t 0.7
          /\ output_tokens = RateLimiter.token_share t 0.3
          /\ c' == c + (inject_Z input_tokens / 1000000 * 0.15
                        + inject_Z output_tokens / 1000000 * 0.60)
          /\ (t * 7 / 10 - 1 <= input_tokens <= t * 7 / 10)%Z
          /\ (t * 3 / 10 - 1 <= output_tokens <= t * 3 / 10)%Z).
Proof.
  intros self1 Ht Hn Hc. unfold RateLimiter.record_request. fold self1.
  simpl.
  destruct (Gateway.getitem_readable _ _ _ _ Hn) as (d1 & -> & _ & _).
  simpl.
  destruct (Gateway.getitem_readable _ _ _ _ Hc) as (d2 & -> & _ & _).
  simpl. eexists. split; [reflexivity |]. simpl.
  split; [subst self1; by rewrite Gateway.reset_timestamps |].
  split; [by rewrite lookup_insert_eq |].
  eexists _, _, _. split; [by rewrite lookup_insert_eq |].
  split; [reflexivity |]. split; [reflexivity |].
  split; [reflexivity |].
  split; [apply Gateway.input_share | apply Gateway.output_share]; exact Ht.
Qed.

Lemma record_request_effect_witness :
  exists self',
    RateLimiter.record_request 700 5 0
      (RateLimiter.__init__ 60 1000 10 0.15 0 None) = (inr tt, self')
    /\ RateLimiter.requests_timestamps self' = [] ++ [5]
    /\ RateLimiter.entries (RateLimiter.daily_requests self') !! 0%Z
       = Some (0 + 1)%Z
    /\ (exists c' input_tokens output_tokens,
          RateLimiter.entries (RateLimiter.daily_costs self') !! 0%Z = Some c'
          /\ input_tokens = RateLimiter.token_share 700 0.7
          /\ output_tokens = RateLimiter.token_share 700 0.3
          /\ c' == 0 + (inject_Z input_tokens / 1000000 * 0.15
                        + inject_Z output_tokens / 1000000 * 0.60)
          /\ (700 * 7 / 10 - 1 <= input_tokens <= 700 * 7 / 10)%Z
          /\ (700 * 3 / 10 - 1 <= output_tokens <= 700 * 3 / 10)%Z).
Proof.
  apply (record_request_effect (RateLimiter.__init__ 60 1000 10 0.15 0 None)
           700 5 0 0 0).
  - lia.
  - reflexivity.
  - reflexivity.
Defined.

(** ** The Sentiment Aggregator (claim C6) *)

Module Aggregator.
Import GPTSentimentAnalyzer.

Lemma fold_plus_shift (l : list Q) (a : Q) :
  fold_left Qplus l a == a + Py.sum l.
Proof.
  unfold Py.sum. revert a.
  induction l as [| x l IH]; intros a; simpl.
  - lra.
  - rewrite (IH (a + x)), (IH (0 + x)). lra.
Qed.

Lemma sum_cons (x : Q) (l : list Q) : Py.sum (x :: l) == x + Py.sum l.
Proof. unfold Py.sum at 1. simpl. rewrite fold_plus_shift. lra. Qed.

(** The accumulators after the loop, from any starting values. *)
Lemma tally_fold (results : list sentiment_result) : forall acc,
  let acc' := fold_left tally_step results acc in
  weighted_sum acc'
  == weighted_sum acc
     + Py.sum (List.map (fun r => score_of r * confidence_of r) results)
  /\ total_confidence acc'
     == total_confidence acc + Py.sum (List.map confidence_of results)
  /\ scores acc' = scores acc ++ List.map score_of results.
Proof.
  induction results as [| r results IH]; intros acc; simpl.
  - unfold Py.sum. simpl. rewrite app_nil_r. repeat split; lra.
  - destruct (IH (tally_step acc r)) as (Hw & Ht & Hs).
    rewrite Hw, Ht, Hs, !sum_cons. simpl.
    fold (score_of r) (confidence_of r).
    rewrite <- app_assoc. repeat split; lra.
Qed.

Lemma label_of_spec (w : Q) :
  (Rules.label_of w = bullish <-> 0.3 < w)
  /\ (Rules.label_of w = bearish <-> w < -0.3)
  /\ (Rules.label_of w = neutral_overall <-> -0.3 <= w /\ w <= 0.3).
Proof.
  unfold Rules.label_of, Py.gtb.
  cmp 0.3 w; [| cmp w (-0.3)];
    repeat split; intros; try done; try lra;
    match goal with
    | H : _ /\ _ |- _ => destruct H; lra
    end.
Qed.

Lemma aggregate_label (results : list sentiment_result) :
  results <> [] ->
  overall_sentiment (aggregate_sentiment results)
  = Rules.label_of (weighted_score (aggregate_sentiment results)).
Proof. destruct results; [done | reflexivity]. Qed.

End Aggregator.

(** C6: for every non-empty list of observations whose confidences do not
    sum below zero, the weighted score is sum(score * confidence) /
    sum(confidence), or the plain average of the scores when the
    confidences sum to zero; the label is bullish exactly above 0.3, bearish
    exactly below -0.3 and neutral in between, so a weighted score of
    exactly 0.3 is neutral. *)
Theorem aggregate_weighted_score_and_label
    (results : list GPTSentimentAnalyzer.sentiment_result) :
  let total :=
    Py.sum (List.map GPTSentimentAnalyzer.confidence_of results) in
  let weighted :=
    Py.sum (List.map (fun r => GPTSentimentAnalyzer.score_of r
                               * GPTSentimentAnalyzer.confidence_of r) results) in
  let average :=
    Py.sum (List.map GPTSentimentAnalyzer.score_of results) / Py.len results in
  let s := GPTSentimentAnalyzer.aggregate_sentiment results in
  results <> [] ->
  0 <= total ->
  GPTSentimentAnalyzer.average_score s == average
  /\ (~ total == 0 -> GPTSentimentAnalyzer.weighted_score s == weighted / total)
  /\ (total == 0 -> GPTSentimentAnalyzer.weighted_score s == average)
  /\ (GPTSentimentAnalyzer.overall_sentiment s = GPTSentimentAnalyzer.bullish
      <-> 0.3 < GPTSentimentAnalyzer.weighted_score s)
  /\ (GPTSentimentAnalyzer.overall_sentiment s = GPTSentimentAnalyzer.bearish
      <-> GPTSentimentAnalyzer.weighted_score s < -0.3)
  /\ (GPTSentimentAnalyzer.overall_sentiment s
      = GPTSentimentAnalyzer.neutral_overall
      <-> -0.3 <= GPTSentimentAnalyzer.weighted_score s
          /\ GPTSentimentAnalyzer.weighted_score s <= 0.3)
  /\ (GPTSentimentAnalyzer.weighted_score s == 0.3 ->
      GPTSentimentAnalyzer.overall_sentiment s
      = GPTSentimentAnalyzer.neutral_overall).
Proof.
  intros total weighted average s Hne Htotal.
  pose proof (Aggregator.aggregate_label results Hne) as Hlabel. fold s in Hlabel.
  destruct (Aggregator.label_of_spec (GPTSentimentAnalyzer.weighted_score s))
    as (Hbull & Hbear & Hneut).
  rewrite <- Hlabel in Hbull, Hbear, Hneut.
  assert (GPTSentimentAnalyzer.average_score s == average
          /\ (~ total == 0 ->
              GPTSentimentAnalyzer.weighted_score s == weighted / total)
          /\ (total == 0 -> GPTSentimentAnalyzer.weighted_score s == average))
    as (Havg & Hw & Hfallback).
  { subst s. destruct results as [| r results]; [done |].
    unfold GPTSentimentAnalyzer.aggregate_sentiment.
    destruct (Aggregator.tally_fold (r :: results)
                (GPTSentimentAnalyzer.Tally 0.0 0.0 [] 0 0 0))
      as (Hws & Htc & Hsc).
    set (acc := fold_left GPTSentimentAnalyzer.tally_step (r :: results) _) in *.
    cbn [GPTSentimentAnalyzer.weighted_sum GPTSentimentAnalyzer.total_confidence
         GPTSentimentAnalyzer.scores] in Hws, Htc, Hsc.
    fold weighted in Hws. fold total in Htc.
    cbn [GPTSentimentAnalyzer.average_score GPTSentimentAnalyzer.weighted_score].
    assert (match GPTSentimentAnalyzer.scores acc with
            | [] => 0.0
            | _ :: _ => Py.sum (GPTSentimentAnalyzer.scores acc)
                        / Py.len (GPTSentimentAnalyzer.scores acc)
            end == average) as Havg.
    { rewrite Hsc. simpl app. cbn [List.map].
      unfold average, Py.len. cbn [List.map]. simpl length.
      rewrite length_map. reflexivity. }
    split; [exact Havg |].
    destruct (Py.gtb (GPTSentimentAnalyzer.total_confidence acc) 0) eqn:Hpos.
    - apply gtb_gt in Hpos. split.
      + intros _. rewrite Hws, Htc. field. lra.
      + intros Hzero. lra.
    - apply gtb_le in Hpos. split.
      + intros Hnz. exfalso. apply Hnz. lra.
      + intros _. exact Havg. }
  repeat split; try tauto.
  - intros H. apply Hneut. lra.
Qed.

(** One observation of score 0.3 and confidence 1: the weighted score is
    exactly 0.3 and the label is neutral. *)
Lemma aggregate_weighted_score_and_label_witness :
  GPTSentimentAnalyzer.overall_sentiment
    (GPTSentimentAnalyzer.aggregate_sentiment
       [GPTSentimentAnalyzer.Result (Some "positive") (Some 0.3)
          (GPTSentimentAnalyzer.Explained "guidance raised") (Some 1)])
  = GPTSentimentAnalyzer.neutral_overall.
Proof.
  apply (aggregate_weighted_score_and_label
           [GPTSentimentAnalyzer.Result (Some "positive") (Some 0.3)
              (GPTSentimentAnalyzer.Explained "guidance raised") (Some 1)]).
  - discriminate.
  - vm_compute. discriminate.
  - vm_compute. reflexivity.
Defined.

(** ** Batch scoring (claim C9) *)

Module Batch.
Import GPTSentimentAnalyzer.

Lemma readable_getitem {V} (dflt : V) d k :
  is_Some (RateLimiter.readable dflt d k) ->
  exists v d', RateLimiter.getitem dflt d k = (inr v, d')
               /\ is_Some (RateLimiter.readable dflt d' k).
Proof.
  intros [v Hv].
  destruct (Gateway.getitem_readable _ _ _ _ Hv) as (d' & E & Hd' & _).
  exists v, d'. split; [exact E |].
  unfold RateLimiter.readable. rewrite Hd'. by eexists.
Qed.

Lemma readable_setitem {V} (dflt : V) d k v :
  is_Some (RateLimiter.readable dflt (RateLimiter.setitem d k v) k).
Proof.
  unfold RateLimiter.readable, RateLimiter.setitem. simpl.
  rewrite lookup_insert_eq. by eexists.
Qed.

Lemma check_steady D now l :
  Rules.steady D l ->
  exists answer l',
    RateLimiter.check_rate_limit now D l = (inr answer, l') /\ Rules.steady D l'.
Proof.
  intros (Hd & Hr & Hc). unfold RateLimiter.check_rate_limit.
  rewrite (Gateway.reset_same_day D l Hd).
  destruct (_ <=? _)%Z.
  - eexists _, _. split; [reflexivity |]. by repeat split.
  - cbn [RateLimiter.daily_requests RateLimiter._clean_old_timestamps
         RateLimiter.with_timestamps].
    destruct (readable_getitem _ _ _ Hr) as (n & d1 & -> & Hr1).
    cbn -[RateLimiter.getitem Z.leb].
    destruct (_ <=? _)%Z.
    + eexists _, _. split; [reflexivity |]. by repeat split.
    + destruct (readable_getitem _ _ _ Hc) as (c & d2 & -> & Hc1).
      cbn -[RateLimiter.getitem].
      destruct (Py.geb _ _);
        (eexists _, _; split; [reflexivity |]; by repeat split).
Qed.

Lemma wait_steady D now l :
  Rules.steady D l -> Rules.steady D (RateLimiter.wait_if_needed now l).2.
Proof.
  intros (Hd & Hr & Hc). unfold RateLimiter.wait_if_needed.
  repeat case_match; by repeat split.
Qed.

Lemma record_steady D t now l :
  Rules.steady D l -> Rules.steady D (RateLimiter.record_request t now D l).2.
Proof.
  intros (Hd & Hr & Hc). unfold RateLimiter.record_request.
  rewrite (Gateway.reset_same_day D l Hd).
  cbn [RateLimiter.daily_requests RateLimiter.with_timestamps].
  destruct (readable_getitem _ _ _ Hr) as (n & d1 & -> & Hr1).
  cbn -[RateLimiter.getitem RateLimiter.setitem].
  destruct (readable_getitem _ _ _ Hc) as (c & d2 & -> & Hc1).
  cbn -[RateLimiter.getitem RateLimiter.setitem].
  repeat split; [done | apply readable_setitem | apply readable_setitem].
Qed.

Section World.

Variable clock : nat -> Q * Z.
Variable scorer : nat -> string -> option string -> api_outcome.
Variable D : Z.
Hypothesis same_day : forall n, (clock n).2 = D.

Lemma scored_steady text ticker self :
  Rules.steady_analyzer D self ->
  Rules.steady_analyzer D (scored clock scorer text ticker self).2.
Proof.
  intros H. unfold scored, Rules.steady_analyzer in *.
  destruct (scorer _ _ _) as [| i o data]; [done |].
  cbn [ticks called].
  pose proof (same_day (ticks self)) as Hday.
  destruct (clock (ticks self)) as [now today]. simpl in Hday. subst today.
  pose proof (record_steady D (i + o) now _ H) as Hrec.
  destruct (RateLimiter.record_request _ _ _ _) as [r l]. simpl in Hrec.
  destruct r as [e | []]; [done |].
  cbn [ticks tick with_rate_limiter].
  destruct (clock _) as [now' today'].
  destruct (CostTracker.add_cost _ _ _) as [r c].
  destruct r as [e | []]; [done |].
  by destruct data.
Qed.

Lemma analyze_sentiment_returns text ticker self :
  Rules.steady_analyzer D self ->
  exists result self',
    analyze_sentiment clock scorer text ticker self = (inr result, self')
    /\ Rules.steady_analyzer D self'.
Proof.
  intros H. unfold analyze_sentiment.
  destruct (cache self !! _) as [cached |]; [by eexists _, _ |].
  pose proof (same_day (ticks self)) as Hday.
  destruct (clock (ticks self)) as [now today]. simpl in Hday. subst today.
  destruct (check_steady D now _ H) as ([allowed msg] & l & -> & Hl).
  destruct allowed; cbn [negb].
  - cbn [ticks tick with_rate_limiter rate_limiter].
    destruct (clock _) as [now' today'].
    pose proof (wait_steady D now' l Hl) as Hw.
    destruct (RateLimiter.wait_if_needed now' l) as [w l']. simpl in Hw.
    match goal with
    | |- context [scored clock scorer text ticker ?st] =>
        pose proof (scored_steady text ticker st Hw) as Hs;
        destruct (scored clock scorer text ticker st) as [[data |] st']
    end; by eexists _, _.
  - by eexists _, _.
Qed.

Lemma analyze_batch_returns ticker delay batch : forall batch_results self,
  0 <= delay ->
  Rules.steady_analyzer D self ->
  exists added self',
    analyze_batch clock scorer ticker delay batch batch_results self
    = (inr (batch_results ++ added), self')
    /\ length added = length batch
    /\ Rules.steady_analyzer D self'.
Proof.
  induction batch as [| text batch IH]; intros acc self Hdelay H; simpl.
  - exists [], self. by rewrite app_nil_r.
  - destruct (analyze_sentiment_returns text ticker self H)
      as (result & self1 & -> & H1).
    assert (Py.ltb delay 0 = false) as -> by (by apply ltb_ge).
    destruct (IH (acc ++ [result]) self1 Hdelay H1)
      as (added & self2 & -> & Hlen & H2).
    exists (result :: added), self2.
    rewrite <- app_assoc. simpl. by rewrite Hlen.
Qed.

Lemma batch_loop_returns n ticker delay todo : forall results self,
  0 <= delay ->
  Rules.steady_analyzer D self ->
  (length results + length (concat todo) = n)%nat ->
  exists all self',
    batch_loop clock scorer n ticker delay todo results self = (inr all, self')
    /\ length all = n.
Proof.
  induction todo as [| batch todo IH]; intros results self Hdelay H Hn; simpl.
  - exists results, self. simpl in Hn. split; [done | lia].
  - pose proof (same_day (ticks self)) as Hday.
    destruct (clock (ticks self)) as [now today]. simpl in Hday. subst today.
    destruct (check_steady D now _ H) as ([allowed msg] & l & -> & Hl).
    destruct allowed; cbn [negb].
    + match goal with
      | |- context [analyze_batch clock scorer ticker delay batch [] ?st] =>
          destruct (analyze_batch_returns ticker delay batch [] st Hdelay Hl)
            as (added & self1 & -> & Hlen & H1)
      end.
      simpl. apply IH; [exact Hdelay | exact H1 |].
      simpl in Hn. rewrite length_app in *. lia.
    + eexists _, _. split; [reflexivity |].
      rewrite length_app, repeat_length. lia.
Qed.

Lemma concat_batches {A} (batch_size : nat) : forall fuel (l : list A),
  (0 < batch_size)%nat -> (length l <= fuel)%nat ->
  concat (batches fuel batch_size l) = l.
Proof.
  induction fuel as [| fuel IH]; intros l Hb Hl.
  - destruct l; simpl in *; [done | lia].
  - destruct l as [| x l]; [done |].
    cbn [batches concat]. rewrite IH; [apply take_drop | done |].
    rewrite length_drop. simpl in *. lia.
Qed.

(** A refusal before a batch fills every text that has no result yet
    with the neutral refused observation. *)
Lemma refusal_fills_remaining n ticker delay batch todo results self now today l msg :
  clock (ticks self) = (now, today) ->
  RateLimiter.check_rate_limit now today (rate_limiter self)
  = (inr (false, msg), l) ->
  (batch_loop clock scorer n ticker delay (batch :: todo) results self).1
  = inr (results
         ++ repeat (neutral RateLimitReached) (n - length results)).
Proof. intros Hclock Hcheck. simpl. by rewrite Hclock, Hcheck. Qed.

End World.

End Batch.

(** C9, as stated, fails: a request of 21 texts to an analyzer with the
    default limit of 20 texts per request returns 20 results. *)
Lemma long_request_is_cut :
  exists results self',
    GPTSentimentAnalyzer.batch_analyze frozen_clock upbeat_scorer
      headlines (Some "ACME") 5 0.1 fresh_analyzer = (inr results, self')
    /\ length headlines = 21%nat
    /\ length results = 20%nat.
Proof.
  eexists _, _. split; [vm_compute; reflexivity |].
  split; reflexivity.
Qed.

(** C9, amended: when the batch size is positive, the delay and the limit
    of texts per request are not negative and the gateway can read the
    current day's entries of its tables throughout the call, [batch_analyze] returns a
    list with one result for each of the first [max_texts_per_request]
    texts (for every text when the request is not longer than that); and
    whenever the gateway refuses before a batch, every text without a
    result is filled with the neutral refused observation. *)
Theorem batch_analyze_returns_partial_results
    (clock : nat -> Q * Z)
    (scorer : nat -> string -> option string -> GPTSentimentAnalyzer.api_outcome)
    (D : Z) (texts_list : list string) (ticker : option string)
    (batch_size : Z) (delay : Q) (self : GPTSentimentAnalyzer.state) :
  (forall n, (clock n).2 = D) ->
  Rules.steady_analyzer D self ->
  (0 < batch_size)%Z ->
  0 <= delay ->
  (0 <= GPTSentimentAnalyzer.max_texts_per_request self)%Z ->
  (exists results self',
     GPTSentimentAnalyzer.batch_analyze clock scorer texts_list ticker
       batch_size delay self = (inr results, self')
     /\ length results
        = Nat.min (length texts_list)
            (Z.to_nat (GPTSentimentAnalyzer.max_texts_per_request self)))
  /\ (forall n batch todo results st now today l msg,
        clock (GPTSentimentAnalyzer.ticks st) = (now, today) ->
        RateLimiter.check_rate_limit now today
          (GPTSentimentAnalyzer.rate_limiter st) = (inr (false, msg), l) ->
        (GPTSentimentAnalyzer.batch_loop clock scorer n ticker delay
           (batch :: todo) results st).1
        = inr (results
               ++ repeat (GPTSentimentAnalyzer.neutral
                            GPTSentimentAnalyzer.RateLimitReached)
                         (n - length results))).
Proof.
  intros Hday Hsteady Hsize Hdelay Hmax. split.
  - unfold GPTSentimentAnalyzer.batch_analyze.
    assert ((batch_size =? 0)%Z = false) as -> by lia.
    assert ((batch_size <? 0)%Z = false) as -> by lia.
    set (cut := GPTSentimentAnalyzer.slice_to texts_list _).
    assert (length cut
            = Nat.min (length texts_list)
                (Z.to_nat (GPTSentimentAnalyzer.max_texts_per_request self)))
      as Hcut.
    { subst cut. unfold GPTSentimentAnalyzer.slice_to.
      assert ((0 <=? Z.min (Z.of_nat (length texts_list))
                       (GPTSentimentAnalyzer.max_texts_per_request self))%Z
              = true) as -> by (apply Z.leb_le; lia).
      rewrite length_take. lia. }
    destruct (Batch.batch_loop_returns clock scorer D Hday (length cut) ticker
                delay
                (GPTSentimentAnalyzer.batches (length cut)
                   (Z.to_nat batch_size) cut) [] self Hdelay Hsteady)
      as (all & self' & E & Hlen).
    + rewrite Batch.concat_batches; simpl; lia.
    + exists all, self'. split; [exact E | lia].
  - intros n batch todo results st now today l msg Hclock Hcheck.
    exact (Batch.refusal_fills_remaining clock scorer n ticker delay batch
             todo results st now today l msg Hclock Hcheck).
Qed.

Lemma batch_analyze_returns_partial_results_witness :
  exists results self',
    GPTSentimentAnalyzer.batch_analyze frozen_clock upbeat_scorer
      headlines (Some "ACME") 5 0.1 fresh_analyzer = (inr results, self')
    /\ length results
       = Nat.min (length headlines)
           (Z.to_nat (GPTSentimentAnalyzer.max_texts_per_request fresh_analyzer)).
Proof.
  destruct (batch_analyze_returns_partial_results frozen_clock upbeat_scorer
              0 headlines (Some "ACME") 5 0.1 fresh_analyzer) as [H _].
  - reflexivity.
  - repeat split; vm_compute; eauto.
  - reflexivity.
  - vm_compute. discriminate.
  - vm_compute. discriminate.
  - exact H.
Defined.

(** * Further properties of the code *)

(** ** The strategy *)

Module Strategy.
Import TradingStrategy.

Lemma len_cons {A} (x : A) (l : list A) : Py.len (x :: l) == Py.len l + 1.
Proof.
  unfold Py.len. cbn [length]. rewrite Nat2Z.inj_succ, <- Z.add_1_r.
  rewrite inject_Z_plus. reflexivity.
Qed.

Lemma len_nonneg {A} (l : list A) : 0 <= Py.len l.
Proof. unfold Py.len, Qle. simpl. lia. Qed.

(** The sum of a list lies between its length times a lower bound and
    its length times an upper bound of its elements. *)
Lemma sum_between (lo hi : Q) (l : list Q) :
  Forall (fun v => lo <= v /\ v <= hi) l ->
  Py.len l * lo <= Py.sum l /\ Py.sum l <= Py.len l * hi.
Proof.
  induction 1 as [| v l [Hlo Hhi] _ [IHlo IHhi]].
  - change (Py.sum []) with 0. change (Py.len (@nil Q)) with 0. lra.
  - rewrite Aggregator.sum_cons, len_cons.
    set (n := Py.len l) in *. set (t := Py.sum l) in *. split; lra.
Qed.

Lemma mean_between (lo hi : Q) (l : list Q) :
  l <> [] ->
  Forall (fun v => lo <= v /\ v <= hi) l ->
  lo <= Py.sum l / Py.len l /\ Py.sum l / Py.len l <= hi.
Proof.
  intros Hne Hall. destruct (sum_between lo hi l Hall) as [Hlo Hhi].
  assert (0 < Py.len l) as Hlen.
  { destruct l as [| x l]; [done |]. rewrite len_cons.
    pose proof (len_nonneg l). lra. }
  split.
  - apply Qle_shift_div_l; [exact Hlen | lra].
  - apply Qle_shift_div_r; [exact Hlen | lra].
Qed.

Ltac vote_step :=
  repeat case_match; try done;
  apply Forall_app; (split; [done |]);
  apply Forall_cons;
  (split; [unfold Accounting.vote_sized; split; lra | constructor]).

Lemma rsi_block_sized ind s :
  Forall Accounting.vote_sized s -> Forall Accounting.vote_sized (rsi_block ind s).
Proof. intros H. unfold rsi_block. vote_step. Qed.

Lemma macd_block_sized ind s :
  Forall Accounting.vote_sized s -> Forall Accounting.vote_sized (macd_block ind s).
Proof. intros H. unfold macd_block. vote_step. Qed.

Lemma macd_diff_block_sized ind s :
  Forall Accounting.vote_sized s ->
  Forall Accounting.vote_sized (macd_diff_block ind s).
Proof. intros H. unfold macd_diff_block. vote_step. Qed.

Lemma ma_block_sized ind s :
  Forall Accounting.vote_sized s -> Forall Accounting.vote_sized (ma_block ind s).
Proof. intros H. unfold ma_block. vote_step. Qed.

Lemma ma_200_block_sized ind s :
  Forall Accounting.vote_sized s ->
  Forall Accounting.vote_sized (ma_200_block ind s).
Proof. intros H. unfold ma_200_block. vote_step. Qed.

Lemma bb_block_sized ind s :
  Forall Accounting.vote_sized s -> Forall Accounting.vote_sized (bb_block ind s).
Proof. intros H. unfold bb_block. vote_step. Qed.

Lemma volume_block_sized ind s :
  Forall Accounting.vote_sized s ->
  Forall Accounting.vote_sized (volume_block ind s).
Proof. intros H. unfold volume_block. vote_step. Qed.

Lemma collected_scores_sized ind :
  Forall Accounting.vote_sized (collected_scores ind).
Proof.
  unfold collected_scores.
  apply volume_block_sized, bb_block_sized, ma_200_block_sized,
    ma_block_sized, macd_diff_block_sized, macd_block_sized, rsi_block_sized.
  constructor.
Qed.

Lemma available_bit ind k : (0 <= available ind k <= 1)%Z.
Proof. unfold available. case_match; lia. Qed.

Lemma multiplier_range c : 0.5 <= Accounting.multiplier c /\ Accounting.multiplier c <= 2.
Proof.
  unfold Accounting.multiplier, Py.min, Py.max, Py.gtb.
  cmp 0.5 (0.5 + c * 1.5);
    repeat match goal with
           | |- context [Py.ltb ?a ?b] => cmp a b
           end; lra.
Qed.

Lemma multiplier_monotone c1 c2 : c1 <= c2 -> Accounting.multiplier c1 <= Accounting.multiplier c2.
Proof.
  intros H. unfold Accounting.multiplier, Py.min, Py.max, Py.gtb.
  cmp 0.5 (0.5 + c1 * 1.5); cmp 0.5 (0.5 + c2 * 1.5);
    repeat match goal with
           | |- context [Py.ltb ?a ?b] => cmp a b
           end; lra.
Qed.

(** The technical score is a mean of votes of size at most 0.7. *)
Lemma score_sized ind :
  Accounting.vote_sized (_calculate_technical_score ind).
Proof.
  unfold Accounting.vote_sized, _calculate_technical_score.
  case_bool_decide; [lra |].
  pose proof (collected_scores_sized ind) as Hall.
  destruct (collected_scores ind) as [| v votes] eqn:E; [lra |].
  destruct (mean_between (-0.7) 0.7 (v :: votes)) as [Hlo Hhi];
    [done | exact Hall |].
  rewrite max_min_clamp. unfold clamp, Py.gtb.
  repeat match goal with
         | |- context [Py.ltb ?a ?b] => cmp a b
         end; lra.
Qed.

Lemma tech_reasons_short ind : (length (tech_reasons ind) <= 3)%nat.
Proof.
  unfold tech_reasons.
  repeat case_match; rewrite ?length_app; simpl; lia.
Qed.

End Strategy.

(** X1: the technical score of every indicator set lies between -0.7 and
    0.7: it is the mean of votes of that size, so the clamp to [-1, 1] never
    changes it. *)
Theorem technical_score_within_vote_size (indicators : indicator_dict) :
  -0.7 <= TradingStrategy._calculate_technical_score indicators
  /\ TradingStrategy._calculate_technical_score indicators <= 0.7
  /\ TradingStrategy._calculate_technical_score indicators
     == match TradingStrategy.collected_scores indicators with
        | [] => 0
        | votes => Py.sum votes / Py.len votes
        end.
Proof.
  destruct (Strategy.score_sized indicators) as [Hlo Hhi].
  split; [exact Hlo | split; [exact Hhi |]].
  revert Hlo Hhi. unfold TradingStrategy._calculate_technical_score.
  case_bool_decide as Hempty.
  - subst. intros _ _. reflexivity.
  - destruct (TradingStrategy.collected_scores indicators) as [| v votes];
      [reflexivity |].
    cbv zeta. rewrite max_min_clamp.
    unfold TradingStrategy.clamp, Py.gtb.
    repeat match goal with
           | |- context [Py.ltb ?a ?b] => cmp a b
           end; intros; lra.
Qed.

(** X2: the technical confidence is 0.3 for the empty dictionary and lies
    between 0.4 and 1.0 for every other one, also when none of its entries
    holds a number. *)
Theorem technical_confidence_range (indicators : indicator_dict) :
  (indicators = ∅ ->
   TradingStrategy._calculate_technical_confidence indicators == 0.3)
  /\ (indicators <> ∅ ->
      0.4 <= TradingStrategy._calculate_technical_confidence indicators
      /\ TradingStrategy._calculate_technical_confidence indicators <= 1).
Proof.
  unfold TradingStrategy._calculate_technical_confidence.
  split; intros H.
  - rewrite bool_decide_eq_true_2 by done. reflexivity.
  - rewrite bool_decide_eq_false_2 by done.
    pose proof (Strategy.available_bit indicators "RSI").
    pose proof (Strategy.available_bit indicators "MACD").
    pose proof (Strategy.available_bit indicators "MA_20").
    pose proof (Strategy.available_bit indicators "MA_50").
    pose proof (Strategy.available_bit indicators "MA_200").
    pose proof (Strategy.available_bit indicators "BB_high").
    set (n := (_ + _)%Z).
    assert (0 <= n <= 6)%Z as [Hlo Hhi] by (subst n; lia).
    rewrite Zle_Qle in Hlo, Hhi.
    change (inject_Z 0) with 0 in Hlo. change (inject_Z 6) with 6 in Hhi.
    set (m := inject_Z n) in *.
    assert (m / 10.0 == m * 0.1) as Hdiv by (field; discriminate).
    unfold Py.min. cmp (0.4 + m / 10.0) 1.0; rewrite ?Hdiv in *; split; lra.
Qed.

Lemma technical_confidence_range_witness :
  0.4 <= TradingStrategy._calculate_technical_confidence halted_day
  /\ TradingStrategy._calculate_technical_confidence halted_day <= 1.
Proof.
  destruct (technical_confidence_range halted_day) as [_ H].
  apply H. vm_compute. discriminate.
Defined.

(** X3: for a non-negative capital and risk share, and no volatility, the
    position size does not decrease when the confidence grows, and it stays
    between half and twice capital * risk_per_trade. *)
Theorem position_size_monotone (capital risk c1 c2 : Q) :
  0 <= capital -> 0 <= risk -> c1 <= c2 ->
  TradingStrategy.calculate_position_size capital c1 None risk
  <= TradingStrategy.calculate_position_size capital c2 None risk
  /\ capital * risk * 0.5
     <= TradingStrategy.calculate_position_size capital c1 None risk
  /\ TradingStrategy.calculate_position_size capital c1 None risk
     <= capital * risk * 2.
Proof.
  intros Hcap Hrisk Hc. unfold TradingStrategy.calculate_position_size.
  fold (Accounting.multiplier c1) (Accounting.multiplier c2).
  pose proof (Strategy.multiplier_monotone c1 c2 Hc).
  pose proof (Strategy.multiplier_range c1) as [? ?].
  assert (0 <= capital * risk) by nra.
  repeat split; nra.
Qed.

Lemma position_size_monotone_witness :
  TradingStrategy.calculate_position_size 100000 0.2 None 0.02
  <= TradingStrategy.calculate_position_size 100000 0.9 None 0.02.
Proof.
  destruct (position_size_monotone 100000 0.02 0.2 0.9) as [H _].
  - vm_compute. discriminate.
  - vm_compute. discriminate.
  - vm_compute. discriminate.
  - exact H.
Defined.

(** X4: a positive volatility [v] divides the position size by [1 + v]; a
    volatility of zero is taken for a missing one and leaves the size as it
    is. *)
Theorem position_size_volatility (capital c risk v : Q) :
  0 <= v ->
  (v == 0 ->
   TradingStrategy.calculate_position_size capital c (Some v) risk
   = TradingStrategy.calculate_position_size capital c None risk)
  /\ (0 < v ->
      TradingStrategy.calculate_position_size capital c (Some v) risk
      == TradingStrategy.calculate_position_size capital c None risk / (1 + v)).
Proof.
  intros Hv. unfold TradingStrategy.calculate_position_size. split; intros H.
  - apply nonzero_false in H. by rewrite H.
  - assert (Py.nonzero v = true) as -> by (apply nonzero_true; lra).
    field. lra.
Qed.

Lemma position_size_volatility_witness :
  TradingStrategy.calculate_position_size 100000 0.5 (Some 0.25) 0.02
  == TradingStrategy.calculate_position_size 100000 0.5 None 0.02 / (1 + 0.25).
Proof.
  destruct (position_size_volatility 100000 0.5 0.02 0.25) as [_ H].
  - vm_compute. discriminate.
  - apply H. reflexivity.
Defined.

(** X5: with non-negative weights that sum to 1 and a sentiment score in
    [-1, 1], the final score of a signal lies in [-1, 1], whatever the
    indicators are. *)
Theorem final_score_bounded
    (self : TradingStrategy.strategy)
    (sentiment : TradingStrategy.sentiment_data)
    (indicators : indicator_dict) :
  0 <= TradingStrategy.sentiment_weight self ->
  0 <= TradingStrategy.technical_weight self ->
  TradingStrategy.sentiment_weight self + TradingStrategy.technical_weight self == 1 ->
  Accounting.bounded_sentiment sentiment ->
  let signal := TradingStrategy.generate_signal self sentiment indicators in
  -1 <= TradingStrategy.sig_final_score signal
  /\ TradingStrategy.sig_final_score signal <= 1.
Proof.
  intros Hsw Htw Hsum Hsent. simpl.
  destruct (Strategy.score_sized indicators) as [Hlo Hhi].
  set (t := TradingStrategy._calculate_technical_score indicators) in *.
  unfold Accounting.bounded_sentiment in Hsent.
  destruct (TradingStrategy.sd_weighted_score sentiment) as [x |]; simpl.
  - destruct Hsent. split; nra.
  - split; nra.
Qed.

Lemma final_score_bounded_witness :
  let signal :=
    TradingStrategy.generate_signal TradingStrategy.default_strategy
      (TradingStrategy.SentimentData (Some 0.8) (Some 0.9)) halted_day in
  -1 <= TradingStrategy.sig_final_score signal
  /\ TradingStrategy.sig_final_score signal <= 1.
Proof.
  apply (final_score_bounded TradingStrategy.default_strategy
           (TradingStrategy.SentimentData (Some 0.8) (Some 0.9)) halted_day).
  - vm_compute. discriminate.
  - vm_compute. discriminate.
  - vm_compute. reflexivity.
  - vm_compute. split; discriminate.
Defined.

(** Without indicators only the sentiment term is left in the final score. *)
Lemma hold_on_empty_indicators
    (self : TradingStrategy.strategy)
    (sentiment : TradingStrategy.sentiment_data) :
  0 <= TradingStrategy.sentiment_weight self ->
  TradingStrategy.sentiment_weight self <= TradingStrategy.buy_threshold self ->
  TradingStrategy.sell_threshold self <= - TradingStrategy.sentiment_weight self ->
  Accounting.bounded_sentiment sentiment ->
  TradingStrategy.sig_type (TradingStrategy.generate_signal self sentiment ∅)
  = TradingStrategy.hold.
Proof.
  intros Hsw Hbuy Hsell Hsent.
  unfold TradingStrategy.generate_signal. cbn [TradingStrategy.sig_type].
  assert (TradingStrategy._calculate_technical_score ∅ = 0.0) as -> by reflexivity.
  unfold Accounting.bounded_sentiment in Hsent.
  set (x := default 0.0 (TradingStrategy.sd_weighted_score sentiment)).
  assert (-1 <= x /\ x <= 1) as [Hlo Hhi].
  { subst x. destruct (TradingStrategy.sd_weighted_score sentiment); simpl;
      [exact Hsent | split; lra]. }
  assert (Py.gtb (TradingStrategy.sentiment_weight self * x
                  + TradingStrategy.technical_weight self * 0.0)
                 (TradingStrategy.buy_threshold self) = false) as ->
    by (apply gtb_le; nra).
  assert (Py.ltb (TradingStrategy.sentiment_weight self * x
                  + TradingStrategy.technical_weight self * 0.0)
                 (TradingStrategy.sell_threshold self) = false) as ->
    by (apply ltb_ge; nra).
  reflexivity.
Qed.

(** X6: without indicators the technical score is 0, so a strategy whose
    sentiment weight does not exceed its buy threshold, nor the negated
    sell threshold, holds on every sentiment score in [-1, 1]; the default
    strategy (weight 0.6, thresholds 0.6 and -0.6) is one. *)
Theorem holds_without_indicators
    (self : TradingStrategy.strategy)
    (sentiment : TradingStrategy.sentiment_data) :
  0 <= TradingStrategy.sentiment_weight self ->
  TradingStrategy.sentiment_weight self <= TradingStrategy.buy_threshold self ->
  TradingStrategy.sell_threshold self <= - TradingStrategy.sentiment_weight self ->
  Accounting.bounded_sentiment sentiment ->
  TradingStrategy.sig_type (TradingStrategy.generate_signal self sentiment ∅)
  = TradingStrategy.hold.
Proof. exact (hold_on_empty_indicators self sentiment). Qed.

Lemma holds_without_indicators_witness :
  TradingStrategy.sig_type
    (TradingStrategy.generate_signal TradingStrategy.default_strategy
       (TradingStrategy.SentimentData (Some 1) (Some 0.9)) ∅)
  = TradingStrategy.hold.
Proof.
  apply (holds_without_indicators TradingStrategy.default_strategy
           (TradingStrategy.SentimentData (Some 1) (Some 0.9))).
  - vm_compute. discriminate.
  - vm_compute. discriminate.
  - vm_compute. discriminate.
  - vm_compute. split; discriminate.
Defined.

(** X7: the reasoning lists at most three technical observations, so the
    slice [tech_reasons[:3]] never drops one; and the oversold observation
    is listed exactly when RSI is below 30 and not zero (an RSI of exactly
    0 votes in the score but is not mentioned). *)
Theorem printed_reasons_complete (indicators : indicator_dict) :
  TradingStrategy.printed_reasons indicators
  = TradingStrategy.tech_reasons indicators
  /\ (In TradingStrategy.rsi_oversold (TradingStrategy.tech_reasons indicators)
      <-> exists rsi, TradingStrategy.get indicators "RSI" = Some rsi
                      /\ rsi < 30 /\ ~ rsi == 0).
Proof.
  split.
  - unfold TradingStrategy.printed_reasons.
    apply take_ge. apply Strategy.tech_reasons_short.
  - unfold TradingStrategy.tech_reasons.
    destruct (TradingStrategy.get indicators "RSI") as [rsi |].
    + destruct (Py.nonzero rsi) eqn:Hnz.
      * apply nonzero_true in Hnz.
        cmp rsi 30.
        -- split; [intros _; by exists rsi |].
           intros _. repeat case_match; rewrite ?in_app_iff; simpl; tauto.
        -- split.
           ++ intros Hin. exfalso.
              repeat case_match; rewrite ?in_app_iff in Hin; simpl in Hin;
                intuition discriminate.
           ++ intros (r & Hr & Hlt & _). simplify_eq. lra.
      * apply nonzero_false in Hnz. split.
        -- intros Hin. exfalso.
           repeat case_match; rewrite ?in_app_iff in Hin; simpl in Hin;
             intuition discriminate.
        -- intros (r & Hr & _ & Hne). simplify_eq. tauto.
    + split.
      * intros Hin. exfalso.
        repeat case_match; rewrite ?in_app_iff in Hin; simpl in Hin;
          intuition discriminate.
      * intros (r & Hr & _). discriminate.
Qed.

(** ** The gateway's tables and window *)

Module Limiter.
Import RateLimiter.

Lemma keep_from_lookup {V} cutoff (d : table V) k :
  entries (keep_from cutoff d) !! k
  = if decide (cutoff <= k)%Z then entries d !! k else None.
Proof.
  unfold keep_from. cbn [entries]. apply option_eq. intros v.
  rewrite map_lookup_filter_Some. cbn [fst].
  case_decide as Hk.
  - split; [by intros [? _] | by intros ?].
  - split; [intros [_ ?]; lia | done].
Qed.

Lemma keep_from_get_default {V} (dflt : V) cutoff d k :
  (cutoff <= k)%Z ->
  get_default dflt (keep_from cutoff d) k = get_default dflt d k.
Proof.
  intros H. unfold get_default. rewrite keep_from_lookup.
  by rewrite decide_True.
Qed.

Lemma getitem_get_default {V} (dflt : V) d k j :
  get_default dflt (getitem dflt d k).2 j = get_default dflt d j.
Proof.
  unfold getitem, get_default.
  destruct (entries d !! k) eqn:E; [done |].
  destruct (is_defaultdict d); [| done]. cbn [snd entries].
  destruct (decide (k = j)) as [-> | Hne].
  - by rewrite lookup_insert_eq, E.
  - by rewrite lookup_insert_ne.
Qed.

Lemma getitem_value {V} (dflt : V) d k v :
  (getitem dflt d k).1 = inr v -> v = get_default dflt d k.
Proof.
  unfold getitem, get_default.
  destruct (entries d !! k) eqn:E; simpl.
  - by intros [= ->].
  - destruct (is_defaultdict d); simpl; [by intros [= ->] | done].
Qed.

Lemma setitem_get_default {V} (dflt : V) d k v j :
  get_default dflt (setitem d k v) j
  = if decide (k = j) then v else get_default dflt d j.
Proof.
  unfold setitem, get_default. cbn [entries].
  case_decide as H; [subst; by rewrite lookup_insert_eq |].
  by rewrite lookup_insert_ne.
Qed.

Lemma reset_requests today self k :
  (today - 7 <= k)%Z ->
  get_default 0%Z (daily_requests (_reset_if_new_day today self)) k
  = get_default 0%Z (daily_requests self) k.
Proof.
  intros H. unfold _reset_if_new_day. case_bool_decide; [| done].
  cbn [daily_requests]. by apply keep_from_get_default.
Qed.

Lemma reset_costs today self k :
  (today - 7 <= k)%Z ->
  get_default 0 (daily_costs (_reset_if_new_day today self)) k
  = get_default 0 (daily_costs self) k.
Proof.
  intros H. unfold _reset_if_new_day. case_bool_decide; [| done].
  cbn [daily_costs]. by apply keep_from_get_default.
Qed.

(** Filtering by a stronger test after a weaker one is filtering by the
    stronger one. *)
Lemma filter_stronger {A} (f g : A -> bool) (l : list A) :
  (forall x, g x = true -> f x = true) ->
  List.filter g (List.filter f l) = List.filter g l.
Proof.
  intros Himp. induction l as [| x l IH]; [done |]. simpl.
  destruct (f x) eqn:Hf; simpl.
  - by rewrite IH.
  - destruct (g x) eqn:Hg; [| exact IH].
    apply Himp in Hg. congruence.
Qed.

Lemma filter_shrinks {A} (f : A -> bool) (l : list A) x :
  In x l -> f x = false ->
  (length (List.filter f l) < length l)%nat.
Proof.
  induction l as [| y l IH]; [done |]. intros [-> | Hin] Hx; simpl.
  - rewrite Hx. pose proof (List.filter_length_le f l). lia.
  - specialize (IH Hin Hx). destruct (f y); simpl; lia.
Qed.

(** [min] of a non-empty list is one of its elements and a lower
    bound. *)
Lemma fold_min_in (l : list Q) : forall a,
  fold_left Py.min l a = a \/ In (fold_left Py.min l a) l.
Proof.
  induction l as [| x l IH]; intros a; simpl; [by left |].
  destruct (IH (Py.min a x)) as [-> | Hin]; [| by right; right].
  unfold Py.min. destruct (Py.ltb x a); [right; by left | by left].
Qed.

Lemma oldest_in (l : list Q) : l <> [] -> In (oldest l) l.
Proof.
  destruct l as [| x l]; [done |]. intros _. unfold oldest.
  destruct (fold_min_in l x) as [-> | Hin]; [by left | by right].
Qed.

Lemma sum_perm (l l' : list Q) : l ≡ₚ l' -> Py.sum l == Py.sum l'.
Proof.
  induction 1 as [| x l l' _ IH | x y l | l1 l2 l3 _ IH1 _ IH2].
  - reflexivity.
  - rewrite !Aggregator.sum_cons, IH. reflexivity.
  - rewrite !Aggregator.sum_cons. lra.
  - by rewrite IH1.
Qed.

Lemma filter_perm {A} (f : A -> bool) (l l' : list A) :
  l ≡ₚ l' -> List.filter f l ≡ₚ List.filter f l'.
Proof.
  induction 1 as [| x l l' _ IH | x y l | l1 l2 l3 _ IH1 _ IH2]; simpl.
  - done.
  - destruct (f x); [by constructor | done].
  - destruct (f x), (f y); try done. by constructor.
  - by etrans.
Qed.

(** The dated sum after one entry is written. *)
Lemma dated_sum_fresh (p : Z * Q -> bool) (m : gmap Z Q) k v :
  m !! k = None ->
  Py.sum (List.map snd (List.filter p (map_to_list (<[k := v]> m))))
  == Py.sum (List.map snd (List.filter p (map_to_list m)))
     + (if p (k, v) then v else 0).
Proof.
  intros Hm.
  rewrite (sum_perm _ (List.map snd (List.filter p ((k, v) :: map_to_list m)))).
  - simpl. destruct (p (k, v)); simpl; [rewrite Aggregator.sum_cons |]; lra.
  - apply Permutation_map, filter_perm. by apply map_to_list_insert.
Qed.

Lemma dated_sum_update (p : Z * Q -> bool) (m : gmap Z Q) k c v :
  m !! k = Some c ->
  Py.sum (List.map snd (List.filter p (map_to_list (<[k := v]> m))))
  + (if p (k, c) then c else 0)
  == Py.sum (List.map snd (List.filter p (map_to_list m)))
     + (if p (k, v) then v else 0).
Proof.
  intros Hm.
  rewrite <- (insert_delete_eq m).
  rewrite dated_sum_fresh by apply lookup_delete_eq.
  pose proof (dated_sum_fresh p (delete k m) k c (lookup_delete_eq m k)) as H.
  rewrite (insert_delete_id m k c Hm) in H. rewrite H. lra.
Qed.

(** Reads the fields of a state built by the update functions. *)
Ltac project :=
  unfold with_daily_requests, with_daily_costs, with_timestamps;
  cbn [snd fst daily_requests daily_costs requests_timestamps
       max_requests_per_minute max_requests_per_day max_daily_cost
       cost_per_1k_tokens last_reset_date].

End Limiter.

(** X8: after [_clean_old_timestamps] a timestamp is kept exactly when it
    is younger than 60 seconds (one that is exactly 60 seconds old is
    dropped), and cleaning at a later time gives the same window whether or
    not an earlier cleaning took place. *)
Theorem clean_old_timestamps_window (now later : Q) (self : RateLimiter.state) :
  now <= later ->
  (forall ts,
     In ts (RateLimiter.requests_timestamps
              (RateLimiter._clean_old_timestamps now self))
     <-> In ts (RateLimiter.requests_timestamps self) /\ now - 60 < ts)
  /\ RateLimiter._clean_old_timestamps later
       (RateLimiter._clean_old_timestamps now self)
     = RateLimiter._clean_old_timestamps later self.
Proof.
  intros Hlater. split.
  - intros ts. unfold RateLimiter._clean_old_timestamps. cbn.
    rewrite List.filter_In, gtb_gt. tauto.
  - unfold RateLimiter._clean_old_timestamps, RateLimiter.with_timestamps.
    cbn. f_equal. apply Limiter.filter_stronger.
    intros x Hx. apply gtb_gt in Hx. apply gtb_gt. lra.
Qed.

Lemma clean_old_timestamps_window_witness :
  RateLimiter._clean_old_timestamps 100
    (RateLimiter._clean_old_timestamps 70
       (RateLimiter.with_timestamps [10; 40; 65]
          (RateLimiter.__init__ 60 1000 10 0.15 0 None)))
  = RateLimiter._clean_old_timestamps 100
      (RateLimiter.with_timestamps [10; 40; 65]
         (RateLimiter.__init__ 60 1000 10 0.15 0 None)).
Proof.
  destruct (clean_old_timestamps_window 70 100
              (RateLimiter.with_timestamps [10; 40; 65]
                 (RateLimiter.__init__ 60 1000 10 0.15 0 None))) as [_ H].
  - vm_compute. discriminate.
  - exact H.
Defined.

(** X9: on the first access of a new day the roll-over keeps exactly the
    entries of the last seven days and of today, with their values, turns
    both tables into plain dictionaries and leaves the sliding window
    alone. *)
Theorem reset_keeps_one_week (today : Z) (self : RateLimiter.state) (k : Z) :
  today <> RateLimiter.last_reset_date self ->
  let self' := RateLimiter._reset_if_new_day today self in
  RateLimiter.entries (RateLimiter.daily_requests self') !! k
  = (if decide (today - 7 <= k)%Z
     then RateLimiter.entries (RateLimiter.daily_requests self) !! k
     else None)
  /\ RateLimiter.entries (RateLimiter.daily_costs self') !! k
     = (if decide (today - 7 <= k)%Z
        then RateLimiter.entries (RateLimiter.daily_costs self) !! k
        else None)
  /\ RateLimiter.is_defaultdict (RateLimiter.daily_requests self') = false
  /\ RateLimiter.is_defaultdict (RateLimiter.daily_costs self') = false
  /\ RateLimiter.last_reset_date self' = today
  /\ RateLimiter.requests_timestamps self' = RateLimiter.requests_timestamps self.
Proof.
  intros Hnew. unfold RateLimiter._reset_if_new_day.
  rewrite bool_decide_eq_true_2 by done.
  cbn [RateLimiter.daily_requests RateLimiter.daily_costs
       RateLimiter.last_reset_date RateLimiter.requests_timestamps].
  rewrite !Limiter.keep_from_lookup. done.
Qed.

Lemma reset_keeps_one_week_witness :
  RateLimiter.entries
    (RateLimiter.daily_requests
       (RateLimiter._reset_if_new_day 20
          (RateLimiter.record_request 500 0 12
             (RateLimiter.__init__ 60 1000 10 0.15 12 None)).2)) !! 12%Z
  = None.
Proof.
  destruct (reset_keeps_one_week 20
              (RateLimiter.record_request 500 0 12
                 (RateLimiter.__init__ 60 1000 10 0.15 12 None)).2 12)
    as [H _].
  - vm_compute. discriminate.
  - rewrite H. reflexivity.
Defined.

(** The tables and ceilings after an admission check. *)
Lemma check_counters
    (now : Q) (today : Z) (self : RateLimiter.state) (k : Z) :
  (today - 7 <= k)%Z ->
  let self' := (RateLimiter.check_rate_limit now today self).2 in
  RateLimiter.get_default 0%Z (RateLimiter.daily_requests self') k
  = RateLimiter.get_default 0%Z (RateLimiter.daily_requests self) k
  /\ RateLimiter.get_default 0 (RateLimiter.daily_costs self') k
     = RateLimiter.get_default 0 (RateLimiter.daily_costs self) k
  /\ RateLimiter.max_requests_per_minute self'
     = RateLimiter.max_requests_per_minute self
  /\ RateLimiter.max_requests_per_day self' = RateLimiter.max_requests_per_day self
  /\ RateLimiter.max_daily_cost self' = RateLimiter.max_daily_cost self.
Proof.
  intros Hk.
  pose proof (Limiter.reset_requests today self k Hk) as Hr.
  pose proof (Limiter.reset_costs today self k Hk) as Hc.
  assert (RateLimiter.max_requests_per_minute (RateLimiter._reset_if_new_day today self)
          = RateLimiter.max_requests_per_minute self
          /\ RateLimiter.max_requests_per_day (RateLimiter._reset_if_new_day today self)
             = RateLimiter.max_requests_per_day self
          /\ RateLimiter.max_daily_cost (RateLimiter._reset_if_new_day today self)
             = RateLimiter.max_daily_cost self) as (Hm & Hd & Hx)
    by (unfold RateLimiter._reset_if_new_day; by case_bool_decide).
  unfold RateLimiter.check_rate_limit.
  set (s1 := RateLimiter._reset_if_new_day today self) in *.
  cbv zeta.
  pose proof (Limiter.getitem_get_default 0%Z (RateLimiter.daily_requests s1) today k)
    as Hg1.
  pose proof (Limiter.getitem_get_default 0 (RateLimiter.daily_costs s1) today k)
    as Hg2.
  unfold RateLimiter._clean_old_timestamps.
  Limiter.project.
  destruct (_ <=? _)%Z; [Limiter.project; done |].
  destruct (RateLimiter.getitem 0%Z (RateLimiter.daily_requests s1) today)
    as [r1 d1]. cbn [snd] in Hg1.
  destruct r1 as [e | n]; [Limiter.project; by rewrite Hg1 |].
  Limiter.project.
  destruct (_ <=? _)%Z; [Limiter.project; by rewrite Hg1 |].
  destruct (RateLimiter.getitem 0 (RateLimiter.daily_costs s1) today)
    as [r2 d2]. cbn [snd] in Hg2.
  destruct r2 as [e | c]; [| Limiter.project; destruct (Py.geb _ _)];
    Limiter.project; by rewrite Hg1, Hg2.
Qed.

(** X10: an admission check consumes nothing: whatever it answers, and
    also when it raises, the request count and the cost of every day from
    seven days back on read as before, and the three ceilings are
    unchanged. *)
Theorem check_rate_limit_consumes_nothing
    (now : Q) (today : Z) (self : RateLimiter.state) (k : Z) :
  (today - 7 <= k)%Z ->
  let self' := (RateLimiter.check_rate_limit now today self).2 in
  RateLimiter.get_default 0%Z (RateLimiter.daily_requests self') k
  = RateLimiter.get_default 0%Z (RateLimiter.daily_requests self) k
  /\ RateLimiter.get_default 0 (RateLimiter.daily_costs self') k
     = RateLimiter.get_default 0 (RateLimiter.daily_costs self) k
  /\ RateLimiter.max_requests_per_minute self'
     = RateLimiter.max_requests_per_minute self
  /\ RateLimiter.max_requests_per_day self' = RateLimiter.max_requests_per_day self
  /\ RateLimiter.max_daily_cost self' = RateLimiter.max_daily_cost self.
Proof. exact (check_counters now today self k). Qed.

Lemma check_rate_limit_consumes_nothing_witness :
  RateLimiter.get_default 0%Z
    (RateLimiter.daily_requests
       (RateLimiter.check_rate_limit 5 0
          (RateLimiter.__init__ 60 1000 10 0.15 0 None)).2) 0%Z
  = RateLimiter.get_default 0%Z
      (RateLimiter.daily_requests (RateLimiter.__init__ 60 1000 10 0.15 0 None)) 0%Z.
Proof.
  destruct (check_rate_limit_consumes_nothing 5 0
              (RateLimiter.__init__ 60 1000 10 0.15 0 None) 0) as [H _].
  - lia.
  - exact H.
Defined.

(** X11: when [wait_if_needed] decides to sleep, the sleep is longer than
    one second, and once it is over the oldest recorded call has left the
    window: fewer calls are inside it than before. *)
Theorem wait_frees_a_slot (now : Q) (self self' : RateLimiter.state) (w : Q) :
  RateLimiter.wait_if_needed now self = (Some w, self') ->
  1 < w
  /\ (RateLimiter.in_window (now + w) self'
      < length (RateLimiter.requests_timestamps self'))%nat.
Proof.
  unfold RateLimiter.wait_if_needed.
  set (s1 := RateLimiter._clean_old_timestamps now self).
  destruct (_ <=? _)%Z; [| done].
  assert (forall ts, In ts (RateLimiter.requests_timestamps s1) -> now - 60 < ts)
    as Hyoung.
  { intros ts Hin. unfold s1, RateLimiter._clean_old_timestamps in Hin.
    cbn in Hin. apply List.filter_In in Hin as [_ Hin]. by apply gtb_gt. }
  pose proof (Limiter.oldest_in (RateLimiter.requests_timestamps s1)) as Hin.
  destruct (RateLimiter.requests_timestamps s1) as [| t rest] eqn:Hts; [done |].
  specialize (Hin ltac:(discriminate)). specialize (Hyoung _ Hin).
  destruct (Py.gtb _ 0); [| done].
  intros [= <- <-].
  change (fold_left Py.min rest t) with (RateLimiter.oldest (t :: rest)).
  set (first := RateLimiter.oldest (t :: rest)) in *.
  split; [lra |].
  unfold RateLimiter.in_window. rewrite Hts.
  apply (Limiter.filter_shrinks _ _ first Hin).
  apply gtb_le. lra.
Qed.

Lemma wait_frees_a_slot_witness :
  1 < 31
  /\ (RateLimiter.in_window (100 + 31)%Q
        (RateLimiter._clean_old_timestamps 100%Q
           (RateLimiter.with_timestamps [70%Q; 90%Q]
              (RateLimiter.__init__ 2 1000 10%Q 0.15%Q 0 None)))
      < length (RateLimiter.requests_timestamps
                  (RateLimiter._clean_old_timestamps 100%Q
                     (RateLimiter.with_timestamps [70%Q; 90%Q]
                        (RateLimiter.__init__ 2 1000 10%Q 0.15%Q 0 None)))))%nat.
Proof.
  apply (wait_frees_a_slot 100
           (RateLimiter.with_timestamps [70%Q; 90%Q]
              (RateLimiter.__init__ 2 1000 10%Q 0.15%Q 0 None))).
  vm_compute. reflexivity.
Defined.

(** X12: the daily budget survives a restart.  A gateway restarted from
    the state that [_save_state] wrote reads the same request count and cost
    for every day and starts with an empty window, so when the saved state
    has entries for the current day its first admission check is decided by
    the saved count and cost of the day alone. *)
Theorem restart_keeps_daily_budget
    (self : RateLimiter.state) (per_minute per_day : Z) (budget rate : Q)
    (now : Q) (today : Z) (n : Z) (c : Q) :
  (0 < per_minute)%Z ->
  RateLimiter.entries (RateLimiter.daily_requests self) !! today = Some n ->
  RateLimiter.entries (RateLimiter.daily_costs self) !! today = Some c ->
  let restarted :=
    RateLimiter.__init__ per_minute per_day budget rate today
      (Some (RateLimiter._save_state self)) in
  (forall k,
     RateLimiter.get_default 0%Z (RateLimiter.daily_requests restarted) k
     = RateLimiter.get_default 0%Z (RateLimiter.daily_requests self) k
     /\ RateLimiter.get_default 0 (RateLimiter.daily_costs restarted) k
        = RateLimiter.get_default 0 (RateLimiter.daily_costs self) k)
  /\ RateLimiter.requests_timestamps restarted = []
  /\ (RateLimiter.check_rate_limit now today restarted).1
     = if (per_day <=? n)%Z
       then inr (false, Some (RateLimiter.DailyLimitExceeded per_day))
       else if Py.geb c budget
            then inr (false, Some (RateLimiter.DailyCostLimitExceeded budget))
            else inr (true, None).
Proof.
  intros Hm Hn Hc restarted. split; [done |]. split; [done |].
  pose proof (Gateway.ceilings_in_order now today restarted n c) as H.
  cbv zeta in H. rewrite Gateway.reset_same_day in H by reflexivity.
  apply H.
  - unfold RateLimiter.in_window. cbn. lia.
  - unfold RateLimiter.readable. cbn. by rewrite Hn.
  - unfold RateLimiter.readable. cbn. by rewrite Hc.
Qed.

Lemma restart_keeps_daily_budget_witness :
  (RateLimiter.check_rate_limit 50 0
     (RateLimiter.__init__ 60 1 10 0.15 0
        (Some (RateLimiter._save_state
                 (RateLimiter.record_request 500 0 0
                    (RateLimiter.__init__ 60 1 10 0.15 0 None)).2)))).1
  = inr (false, Some (RateLimiter.DailyLimitExceeded 1)).
Proof.
  destruct (restart_keeps_daily_budget
              (RateLimiter.record_request 500 0 0
                 (RateLimiter.__init__ 60 1 10 0.15 0 None)).2
              60 1 10 0.15 50 0 1 (0 + RateLimiter.estimated_cost 500))
    as (_ & _ & H).
  - lia.
  - reflexivity.
  - reflexivity.
  - rewrite H. reflexivity.
Defined.

(** X13: a gateway that allows at least one request a minute and is
    constructed from a state file without an entry for the current day
    raises [KeyError] on its first admission check, whereas one constructed
    without a state file, with positive daily ceilings, admits. *)
Theorem first_check_after_restart
    (per_minute per_day : Z) (budget rate : Q) (now : Q) (today : Z)
    (file : RateLimiter.saved_state) :
  (0 < per_minute)%Z -> (0 < per_day)%Z -> 0 < budget ->
  RateLimiter.saved_requests file !! today = None ->
  (RateLimiter.check_rate_limit now today
     (RateLimiter.__init__ per_minute per_day budget rate today (Some file))).1
  = inl (Py.KeyError (Py.DateKey today))
  /\ (RateLimiter.check_rate_limit now today
        (RateLimiter.__init__ per_minute per_day budget rate today None)).1
     = inr (true, None).
Proof.
  intros Hm Hd Hb Hfile. split.
  - unfold RateLimiter.check_rate_limit, RateLimiter.__init__.
    rewrite Gateway.reset_same_day by reflexivity.
    unfold RateLimiter._clean_old_timestamps. Limiter.project.
    cbn [List.filter length]. change (Z.of_nat 0) with 0%Z.
    assert ((per_minute <=? 0)%Z = false) as -> by (apply Z.leb_gt; lia).
    unfold RateLimiter.getitem. cbn [RateLimiter.entries RateLimiter.is_defaultdict].
    rewrite Hfile. reflexivity.
  - pose proof (Gateway.ceilings_in_order now today
                  (RateLimiter.__init__ per_minute per_day budget rate today None)
                  0%Z 0) as H.
    cbv zeta in H. rewrite Gateway.reset_same_day in H by reflexivity.
    rewrite H; [| unfold RateLimiter.in_window; cbn; lia | reflexivity | reflexivity].
    cbn [RateLimiter.__init__ RateLimiter.max_requests_per_day
         RateLimiter.max_daily_cost].
    assert ((per_day <=? 0)%Z = false) as -> by (apply Z.leb_gt; lia).
    assert (Py.geb 0 budget = false) as ->.
    { unfold Py.geb. destruct (Qle_bool budget 0) eqn:E; [| done].
      apply Qle_bool_iff in E. lra. }
    reflexivity.
Qed.

Lemma first_check_after_restart_witness :
  (RateLimiter.check_rate_limit 0 8
     (RateLimiter.__init__ 60 1000 10 0.15 8
        (Some (RateLimiter.SavedState {[ 7%Z := 12%Z ]} {[ 7%Z := 0.002 ]})))).1
  = inl (Py.KeyError (Py.DateKey 8)).
Proof.
  destruct (first_check_after_restart 60 1000 10 0.15 0 8
              (RateLimiter.SavedState {[ 7%Z := 12%Z ]} {[ 7%Z := 0.002 ]}))
    as [H _].
  - lia.
  - lia.
  - reflexivity.
  - reflexivity.
  - exact H.
Defined.

(** X14: [record_request] never lowers a day's request count: the count of
    every day from seven days back on stays or grows by one, and the counts
    and costs of the days other than today are left as they are, also when
    the call raises. *)
Theorem record_request_counts_grow
    (t : Z) (now : Q) (today : Z) (self : RateLimiter.state) (k : Z) :
  (today - 7 <= k)%Z ->
  let self' := (RateLimiter.record_request t now today self).2 in
  let before := RateLimiter.get_default 0%Z (RateLimiter.daily_requests self) k in
  let after := RateLimiter.get_default 0%Z (RateLimiter.daily_requests self') k in
  (before <= after <= before + 1)%Z
  /\ (k <> today ->
      after = before
      /\ RateLimiter.get_default 0 (RateLimiter.daily_costs self') k
         = RateLimiter.get_default 0 (RateLimiter.daily_costs self) k).
Proof.
  intros Hk. cbv zeta.
  rewrite <- (Limiter.reset_requests today self k Hk).
  rewrite <- (Limiter.reset_costs today self k Hk).
  unfold RateLimiter.record_request.
  set (s1 := RateLimiter._reset_if_new_day today self).
  Limiter.project.
  pose proof (Limiter.getitem_get_default 0%Z (RateLimiter.daily_requests s1) today k)
    as Hg1.
  pose proof (Limiter.getitem_value 0%Z (RateLimiter.daily_requests s1) today)
    as Hv1.
  destruct (RateLimiter.getitem 0%Z (RateLimiter.daily_requests s1) today)
    as [r1 d1]. cbn [snd fst] in Hg1, Hv1.
  destruct r1 as [e | n]; Limiter.project.
  { rewrite Hg1. split; [lia | done]. }
  specialize (Hv1 n eq_refl).
  pose proof (Limiter.getitem_get_default 0 (RateLimiter.daily_costs s1) today k)
    as Hg2.
  destruct (RateLimiter.getitem 0 (RateLimiter.daily_costs s1) today)
    as [r2 d2]. cbn [snd] in Hg2.
  destruct r2 as [e | c]; Limiter.project;
    rewrite ?Limiter.setitem_get_default, ?Hg1, ?Hg2;
    (case_decide as Hday; [subst k |]);
    (split; [try lia | try done; intros ?; try done; by rewrite ?decide_False]).
Qed.

Lemma record_request_counts_grow_witness :
  RateLimiter.get_default 0%Z
    (RateLimiter.daily_requests
       (RateLimiter.record_request 500 0 3
          (RateLimiter.record_request 500 0 2
             (RateLimiter.__init__ 60 1000 10 0.15 2 None)).2).2) 2%Z
  = RateLimiter.get_default 0%Z
      (RateLimiter.daily_requests
         (RateLimiter.record_request 500 0 2
            (RateLimiter.__init__ 60 1000 10 0.15 2 None)).2) 2%Z.
Proof.
  destruct (record_request_counts_grow 500 0 3
              (RateLimiter.record_request 500 0 2
                 (RateLimiter.__init__ 60 1000 10 0.15 2 None)).2 2)
    as [_ H].
  - lia.
  - destruct H as [H _]; [lia | exact H].
Defined.

(** X15: on a tracker whose table can be read for today, a calendar day,
    [add_cost] raises today's cost by the amount and leaves the other days
    alone; the total over the last [days] days, for every [days] that stays
    on the calendar, is returned before and after and rises by the same
    amount; a [days] that reaches back before the first calendar day makes
    [get_total_cost] raise [OverflowError]. *)
Theorem add_cost_accumulates
    (amount : Q) (today : Z) (self : CostTracker.state) (c : Q) :
  (CostTracker.min_ordinal <= today <= CostTracker.max_ordinal)%Z ->
  RateLimiter.readable 0 (CostTracker.daily_costs self) today = Some c ->
  exists self',
    CostTracker.add_cost amount today self = (inr tt, self')
    /\ CostTracker.get_daily_cost today self' = c + amount
    /\ (forall d, d <> today ->
          CostTracker.get_daily_cost d self' = CostTracker.get_daily_cost d self)
    /\ (forall days, (0 <= days < today)%Z ->
          exists total total',
            CostTracker.get_total_cost days today self = inr total
            /\ CostTracker.get_total_cost days today self' = inr total'
            /\ total' == total + amount)
    /\ (forall days, (today <= days)%Z ->
          CostTracker.get_total_cost days today self' = inl Py.OverflowError).
Proof.
  intros Htoday Hread. unfold CostTracker.add_cost.
  unfold CostTracker.min_ordinal, CostTracker.max_ordinal in Htoday.
  destruct (Gateway.getitem_readable _ _ _ _ Hread) as (d1 & E & Hd1 & _).
  rewrite E. eexists. split; [reflexivity |].
  unfold CostTracker.get_daily_cost.
  cbn [CostTracker.daily_costs].
  split; [by rewrite Limiter.setitem_get_default, decide_True |].
  assert (forall d, RateLimiter.get_default 0.0 d1 d
                    = RateLimiter.get_default 0.0 (CostTracker.daily_costs self) d
                    \/ (d = today
                        /\ RateLimiter.entries (CostTracker.daily_costs self) !! today
                           = None)) as Hsame.
  { intros d. revert E. unfold RateLimiter.getitem, RateLimiter.get_default.
    destruct (RateLimiter.entries (CostTracker.daily_costs self) !! today) eqn:E0.
    - intros [= _ <-]. by left.
    - destruct (RateLimiter.is_defaultdict (CostTracker.daily_costs self));
        [| done].
      intros [= _ <-]. cbn [RateLimiter.entries].
      destruct (decide (today = d)) as [-> | Hne]; [by right |].
      left. by rewrite lookup_insert_ne. }
  split; [| split].
  - intros d Hd. rewrite Limiter.setitem_get_default, decide_False by done.
    destruct (Hsame d) as [H | [H _]]; [exact H | done].
  - intros days Hdays. unfold CostTracker.get_total_cost.
    assert (CostTracker.date_minus_days today days = inr (today - days)%Z) as ->.
    { unfold CostTracker.date_minus_days, CostTracker.max_timedelta_days,
        CostTracker.min_ordinal, CostTracker.max_ordinal.
      assert ((Z.abs days <=? 999999999)%Z = true) as -> by (apply Z.leb_le; lia).
      assert ((1 <=? today - days)%Z = true) as -> by (apply Z.leb_le; lia).
      assert ((today - days <=? 3652059)%Z = true) as -> by (apply Z.leb_le; lia).
      reflexivity. }
    cbn [Py.bind Py.ret CostTracker.daily_costs].
    eexists _, _. split; [reflexivity |]. split; [reflexivity |].
    unfold RateLimiter.setitem. cbn [RateLimiter.entries].
    set (p := fun kv : Z * Q => (today - days <=? kv.1)%Z).
    assert (forall x, p (today, x) = true) as Hp
      by (intros x; unfold p; cbn [fst]; apply Z.leb_le; lia).
    revert E Hd1. unfold RateLimiter.getitem.
    destruct (RateLimiter.entries (CostTracker.daily_costs self) !! today) eqn:E0.
    + intros [= -> <-] _.
      pose proof (Limiter.dated_sum_update p _ today c (c + amount) E0) as H.
      rewrite !Hp in H. lra.
    + destruct (RateLimiter.is_defaultdict (CostTracker.daily_costs self));
        [| done].
      intros [= <- <-] _. cbn [RateLimiter.entries].
      rewrite insert_insert_eq.
      rewrite (Limiter.dated_sum_fresh p _ today (0 + amount) E0), Hp. lra.
  - intros days Hdays. unfold CostTracker.get_total_cost.
    assert (CostTracker.date_minus_days today days = inl Py.OverflowError) as ->;
      [| reflexivity].
    unfold CostTracker.date_minus_days, CostTracker.min_ordinal.
    assert ((1 <=? today - days)%Z = false) as -> by (apply Z.leb_gt; lia).
    by rewrite andb_false_r.
Qed.

Lemma add_cost_accumulates_witness :
  exists self',
    CostTracker.add_cost 0.002 739000 (CostTracker.__init__ None) = (inr tt, self')
    /\ CostTracker.get_daily_cost 739000 self' = 0 + 0.002
    /\ (forall d, d <> 739000%Z ->
          CostTracker.get_daily_cost d self'
          = CostTracker.get_daily_cost d (CostTracker.__init__ None))
    /\ (forall days, (0 <= days < 739000)%Z ->
          exists total total',
            CostTracker.get_total_cost days 739000 (CostTracker.__init__ None)
            = inr total
            /\ CostTracker.get_total_cost days 739000 self' = inr total'
            /\ total' == total + 0.002)
    /\ (forall days, (739000 <= days)%Z ->
          CostTracker.get_total_cost days 739000 self' = inl Py.OverflowError).
Proof.
  apply (add_cost_accumulates 0.002 739000 (CostTracker.__init__ None) 0).
  - vm_compute. split; discriminate.
  - reflexivity.
Defined.

(** ** The analyzer: cache, gate and aggregation *)

Module Analyzer.
Import GPTSentimentAnalyzer.

Lemma same_prefix_same_key text1 text2 ticker :
  String.substring 0 200 text2 = String.substring 0 200 text1 ->
  _get_cache_key text2 ticker = _get_cache_key text1 ticker.
Proof. intros H. unfold _get_cache_key. by rewrite H. Qed.

(** What [scored] leaves behind. *)
Lemma scored_outcome clock scorer text ticker self :
  let out := scored clock scorer text ticker self in
  calls out.2 = S (calls self)
  /\ match out.1 with
     | Some data => cache out.2 !! _get_cache_key text ticker = Some data
     | None => cache out.2 = cache self
     end.
Proof.
  unfold scored. cbv zeta.
  destruct (scorer _ _ _) as [| i o data]; [done |].
  destruct (clock _) as [now today].
  destruct (RateLimiter.record_request _ _ _ _) as [[e | []] l]; [done |].
  destruct (clock _) as [now' today'].
  destruct (CostTracker.add_cost _ _ _) as [[e | []] c]; [done |].
  destruct data as [data |]; [| done].
  split; [done |]. cbn. by rewrite lookup_insert_eq.
Qed.

Lemma wait_tables now l :
  RateLimiter.daily_requests (RateLimiter.wait_if_needed now l).2
  = RateLimiter.daily_requests l
  /\ RateLimiter.daily_costs (RateLimiter.wait_if_needed now l).2
     = RateLimiter.daily_costs l.
Proof. unfold RateLimiter.wait_if_needed. by repeat case_match. Qed.

(** One step of the tally adds at most one to the three label counts
    together. *)
Lemma tally_step_counts acc r :
  let acc' := tally_step acc r in
  (positive acc <= positive acc')%Z /\ (negative acc <= negative acc')%Z
  /\ (neutral_n acc <= neutral_n acc')%Z
  /\ (positive acc' + negative acc' + neutral_n acc'
      <= positive acc + negative acc + neutral_n acc + 1)%Z.
Proof.
  unfold tally_step. cbn.
  set (label := lower (default "neutral" (sentiment r))).
  destruct (String.eqb label "positive") eqn:E1;
    destruct (String.eqb label "negative") eqn:E2;
    destruct (String.eqb label "neutral") eqn:E3;
    rewrite ?String.eqb_eq in *; try congruence; lia.
Qed.

Lemma tally_counts results : forall acc,
  let acc' := fold_left tally_step results acc in
  (positive acc <= positive acc')%Z /\ (negative acc <= negative acc')%Z
  /\ (neutral_n acc <= neutral_n acc')%Z
  /\ (positive acc' + negative acc' + neutral_n acc'
      <= positive acc + negative acc + neutral_n acc
         + Z.of_nat (length results))%Z.
Proof.
  induction results as [| r results IH]; intros acc; cbn [fold_left length].
  - cbv zeta. lia.
  - pose proof (tally_step_counts acc r) as H1.
    pose proof (IH (tally_step acc r)) as H2. cbv zeta in *. lia.
Qed.

(** The weighted sum is bounded by the total confidence. *)
Lemma weighted_within_total (results : list sentiment_result) :
  Forall (fun r => (-1 <= score_of r /\ score_of r <= 1) /\ 0 <= confidence_of r)
         results ->
  let total := Py.sum (List.map confidence_of results) in
  let weighted := Py.sum (List.map (fun r => score_of r * confidence_of r) results) in
  0 <= total /\ - total <= weighted /\ weighted <= total.
Proof.
  induction 1 as [| r results [[Hlo Hhi] Hc] _ IH]; cbn [List.map]; cbv zeta.
  - change (Py.sum []) with 0. lra.
  - rewrite !Aggregator.sum_cons. cbv zeta in IH. nra.
Qed.

(** The scores of a non-empty aggregate, in terms of sums over the
    observations. *)
Lemma aggregate_parts (results : list sentiment_result) :
  results <> [] ->
  let total := Py.sum (List.map confidence_of results) in
  let weighted := Py.sum (List.map (fun r => score_of r * confidence_of r) results) in
  let average := Py.sum (List.map score_of results) / Py.len results in
  let s := aggregate_sentiment results in
  average_score s == average
  /\ (0 < total -> weighted_score s == weighted / total)
  /\ (total <= 0 -> weighted_score s == average)
  /\ avg_confidence s == total / Py.len results.
Proof.
  intros Hne total weighted average s. subst s.
  destruct results as [| r results]; [done |].
  unfold aggregate_sentiment.
  destruct (Aggregator.tally_fold (r :: results) (Tally 0.0 0.0 [] 0 0 0))
    as (Hws & Htc & Hsc).
  set (acc := fold_left tally_step (r :: results) _) in *.
  cbn [GPTSentimentAnalyzer.weighted_sum GPTSentimentAnalyzer.total_confidence
       GPTSentimentAnalyzer.scores] in Hws, Htc, Hsc.
  fold weighted in Hws. fold total in Htc.
  cbn [average_score weighted_score avg_confidence].
  assert (match GPTSentimentAnalyzer.scores acc with
          | [] => 0.0
          | _ :: _ => Py.sum (GPTSentimentAnalyzer.scores acc)
                      / Py.len (GPTSentimentAnalyzer.scores acc)
          end == average) as Havg.
  { rewrite Hsc. simpl app. cbn [List.map].
    unfold average, Py.len. cbn [List.map]. simpl length.
    rewrite length_map. reflexivity. }
  split; [exact Havg |].
  split; [| split].
  - intros Hpos.
    assert (Py.gtb (total_confidence acc) 0 = true) as ->
      by (apply gtb_gt; lra).
    rewrite Hws, Htc. field. lra.
  - intros Hzero.
    assert (Py.gtb (total_confidence acc) 0 = false) as ->
      by (apply gtb_le; lra).
    exact Havg.
  - rewrite Htc. field.
    rewrite Strategy.len_cons. pose proof (Strategy.len_nonneg results). lra.
Qed.

End Analyzer.

(** X16: a result that is not one of the analyzer's own fallbacks (the
    neutral results for a refusal or an error) has been cached: every later
    text with the same ticker and the same first 200 characters gets that
    very result, and the call changes nothing (no admission check, no scorer
    call). *)
Theorem result_served_from_cache
    (clock : nat -> Q * Z)
    (scorer : nat -> string -> option string -> GPTSentimentAnalyzer.api_outcome)
    (text1 text2 : string) (ticker : option string)
    (self self1 : GPTSentimentAnalyzer.state)
    (r : GPTSentimentAnalyzer.sentiment_result) :
  GPTSentimentAnalyzer.analyze_sentiment clock scorer text1 ticker self
  = (inr r, self1) ->
  r <> GPTSentimentAnalyzer.neutral GPTSentimentAnalyzer.Error ->
  (forall m, r <> GPTSentimentAnalyzer.neutral (GPTSentimentAnalyzer.RateLimit m)) ->
  String.substring 0 200 text2 = String.substring 0 200 text1 ->
  GPTSentimentAnalyzer.analyze_sentiment clock scorer text2 ticker self1
  = (inr r, self1).
Proof.
  intros Hcall Herr Hlimit Hprefix.
  assert (GPTSentimentAnalyzer.cache self1
            !! GPTSentimentAnalyzer._get_cache_key text1 ticker = Some r) as Hcached.
  { revert Hcall. unfold GPTSentimentAnalyzer.analyze_sentiment.
    destruct (GPTSentimentAnalyzer.cache self !! _) as [cached |] eqn:Hhit.
    - intros [= <- <-]. exact Hhit.
    - destruct (clock _) as [now today].
      destruct (RateLimiter.check_rate_limit _ _ _) as [[e | [allowed msg]] l];
        [done |].
      destruct allowed; cbn [negb].
      + destruct (clock _) as [now' today'].
        destruct (RateLimiter.wait_if_needed _ _) as [w l'].
        match goal with
        | |- context [GPTSentimentAnalyzer.scored clock scorer text1 ticker ?st] =>
            pose proof (Analyzer.scored_outcome clock scorer text1 ticker st)
              as [_ Hout];
            destruct (GPTSentimentAnalyzer.scored clock scorer text1 ticker st)
              as [[data |] st']
        end.
        * intros [= <- <-]. exact Hout.
        * intros [= <- _]. done.
      + intros [= <- _]. destruct msg as [m |]; [by destruct (Hlimit m) | done]. }
  unfold GPTSentimentAnalyzer.analyze_sentiment.
  by rewrite (Analyzer.same_prefix_same_key text1 text2 ticker Hprefix), Hcached.
Qed.

Lemma result_served_from_cache_witness :
  GPTSentimentAnalyzer.analyze_sentiment frozen_clock upbeat_scorer
    long_text_down (Some "ACME")
    (GPTSentimentAnalyzer.analyze_sentiment frozen_clock upbeat_scorer
       long_text_up (Some "ACME") fresh_analyzer).2
  = (inr (GPTSentimentAnalyzer.Result (Some "positive") (Some 0.5)
            (GPTSentimentAnalyzer.Explained "upbeat") (Some 0.8)),
     (GPTSentimentAnalyzer.analyze_sentiment frozen_clock upbeat_scorer
        long_text_up (Some "ACME") fresh_analyzer).2).
Proof.
  apply (result_served_from_cache frozen_clock upbeat_scorer
           long_text_up long_text_down (Some "ACME") fresh_analyzer).
  - vm_compute. reflexivity.
  - discriminate.
  - discriminate.
  - vm_compute. reflexivity.
Defined.

(** X17: the gate is never bypassed.  A call of [analyze_sentiment] calls
    the external scorer at most once, and only when the text was not cached
    and the admission check of that moment answered that the call is
    allowed. *)
Theorem scorer_called_only_when_admitted
    (clock : nat -> Q * Z)
    (scorer : nat -> string -> option string -> GPTSentimentAnalyzer.api_outcome)
    (text : string) (ticker : option string)
    (self : GPTSentimentAnalyzer.state) :
  let out := GPTSentimentAnalyzer.analyze_sentiment clock scorer text ticker self in
  (GPTSentimentAnalyzer.calls out.2 = GPTSentimentAnalyzer.calls self
   \/ GPTSentimentAnalyzer.calls out.2 = S (GPTSentimentAnalyzer.calls self))
  /\ (GPTSentimentAnalyzer.calls out.2 = S (GPTSentimentAnalyzer.calls self) ->
      GPTSentimentAnalyzer.cache self
        !! GPTSentimentAnalyzer._get_cache_key text ticker = None
      /\ exists msg,
           (RateLimiter.check_rate_limit
              (clock (GPTSentimentAnalyzer.ticks self)).1
              (clock (GPTSentimentAnalyzer.ticks self)).2
              (GPTSentimentAnalyzer.rate_limiter self)).1
           = inr (true, msg)).
Proof.
  unfold GPTSentimentAnalyzer.analyze_sentiment. cbv zeta.
  destruct (GPTSentimentAnalyzer.cache self !! _) as [cached |] eqn:Hhit.
  { cbn [snd]. split; [by left | lia]. }
  destruct (clock (GPTSentimentAnalyzer.ticks self)) as [now today]. cbn [fst snd].
  destruct (RateLimiter.check_rate_limit now today _) as [[e | [allowed msg]] l].
  { cbn. split; [by left | lia]. }
  destruct allowed; cbn [negb]; [| cbn; split; [by left | lia]].
  destruct (clock _) as [now' today'].
  destruct (RateLimiter.wait_if_needed _ _) as [w l'].
  match goal with
  | |- context [GPTSentimentAnalyzer.scored clock scorer text ticker ?st] =>
      pose proof (Analyzer.scored_outcome clock scorer text ticker st) as [Hc _];
      destruct (GPTSentimentAnalyzer.scored clock scorer text ticker st)
        as [[data |] st']
  end; cbn in *; (split; [by right | intros _; split; [done | by exists msg]]).
Qed.

(** X18: a scorer call that raises costs nothing: when the external call of
    this moment raises, [analyze_sentiment] leaves the cache and the cost
    tracker as they are, and the gateway reads the same request count and
    cost for every day from seven days back on. *)
Theorem failed_call_costs_nothing
    (clock : nat -> Q * Z)
    (scorer : nat -> string -> option string -> GPTSentimentAnalyzer.api_outcome)
    (text : string) (ticker : option string)
    (self : GPTSentimentAnalyzer.state) (k : Z) :
  scorer (GPTSentimentAnalyzer.calls self) text ticker
  = GPTSentimentAnalyzer.ApiRaises ->
  ((clock (GPTSentimentAnalyzer.ticks self)).2 - 7 <= k)%Z ->
  let self' :=
    (GPTSentimentAnalyzer.analyze_sentiment clock scorer text ticker self).2 in
  GPTSentimentAnalyzer.cache self' = GPTSentimentAnalyzer.cache self
  /\ GPTSentimentAnalyzer.cost_tracker self' = GPTSentimentAnalyzer.cost_tracker self
  /\ RateLimiter.get_default 0%Z
       (RateLimiter.daily_requests (GPTSentimentAnalyzer.rate_limiter self')) k
     = RateLimiter.get_default 0%Z
         (RateLimiter.daily_requests (GPTSentimentAnalyzer.rate_limiter self)) k
  /\ RateLimiter.get_default 0
       (RateLimiter.daily_costs (GPTSentimentAnalyzer.rate_limiter self')) k
     = RateLimiter.get_default 0
         (RateLimiter.daily_costs (GPTSentimentAnalyzer.rate_limiter self)) k.
Proof.
  intros Hraises Hk. unfold GPTSentimentAnalyzer.analyze_sentiment. cbv zeta.
  destruct (GPTSentimentAnalyzer.cache self !! _) as [cached |]; [done |].
  destruct (clock (GPTSentimentAnalyzer.ticks self)) as [now today].
  cbn [snd] in Hk.
  pose proof (check_counters now today (GPTSentimentAnalyzer.rate_limiter self) k Hk)
    as (Hr & Hc & _).
  destruct (RateLimiter.check_rate_limit now today _) as [[e | [allowed msg]] l];
    cbn [snd] in Hr, Hc; [done |].
  destruct allowed; cbn [negb]; [| done].
  destruct (clock _) as [now' today'].
  cbn [GPTSentimentAnalyzer.rate_limiter GPTSentimentAnalyzer.tick
       GPTSentimentAnalyzer.with_rate_limiter].
  pose proof (Analyzer.wait_tables now' l) as [Hw1 Hw2].
  destruct (RateLimiter.wait_if_needed now' l) as [w l']. cbn [snd] in Hw1, Hw2.
  unfold GPTSentimentAnalyzer.scored.
  cbn [GPTSentimentAnalyzer.calls GPTSentimentAnalyzer.tick
       GPTSentimentAnalyzer.with_rate_limiter].
  rewrite Hraises.
  cbn [snd GPTSentimentAnalyzer.cache GPTSentimentAnalyzer.called
       GPTSentimentAnalyzer.tick GPTSentimentAnalyzer.with_rate_limiter
       GPTSentimentAnalyzer.rate_limiter GPTSentimentAnalyzer.cost_tracker].
  by rewrite Hw1, Hw2.
Qed.

Lemma failed_call_costs_nothing_witness :
  GPTSentimentAnalyzer.cache
    (GPTSentimentAnalyzer.analyze_sentiment frozen_clock
       (fun _ _ _ => GPTSentimentAnalyzer.ApiRaises)
       "Record quarter" None fresh_analyzer).2
  = GPTSentimentAnalyzer.cache fresh_analyzer.
Proof.
  destruct (failed_call_costs_nothing frozen_clock
              (fun _ _ _ => GPTSentimentAnalyzer.ApiRaises)
              "Record quarter" None fresh_analyzer 0) as [H _].
  - reflexivity.
  - vm_compute. discriminate.
  - exact H.
Defined.

(** X19: the three label counts of an aggregate are never negative and
    never add up to more than the number of observations: a label is
    counted once, after lower-casing, and a label outside positive,
    negative and neutral is counted nowhere. *)
Theorem label_counts_within_total
    (results : list GPTSentimentAnalyzer.sentiment_result) :
  let s := GPTSentimentAnalyzer.aggregate_sentiment results in
  GPTSentimentAnalyzer.total_count s = Z.of_nat (length results)
  /\ (0 <= GPTSentimentAnalyzer.positive_count s)%Z
  /\ (0 <= GPTSentimentAnalyzer.negative_count s)%Z
  /\ (0 <= GPTSentimentAnalyzer.neutral_count s)%Z
  /\ (GPTSentimentAnalyzer.positive_count s + GPTSentimentAnalyzer.negative_count s
      + GPTSentimentAnalyzer.neutral_count s
      <= GPTSentimentAnalyzer.total_count s)%Z.
Proof.
  destruct results as [| r results]; [cbn; lia |].
  unfold GPTSentimentAnalyzer.aggregate_sentiment.
  pose proof (Analyzer.tally_counts (r :: results)
                (GPTSentimentAnalyzer.Tally 0.0 0.0 [] 0 0 0)) as H.
  cbv zeta in H.
  cbn [GPTSentimentAnalyzer.positive GPTSentimentAnalyzer.negative
       GPTSentimentAnalyzer.neutral_n] in H.
  cbn [GPTSentimentAnalyzer.total_count GPTSentimentAnalyzer.positive_count
       GPTSentimentAnalyzer.negative_count GPTSentimentAnalyzer.neutral_count].
  lia.
Qed.

(** X20: when every observation has a score in [-1, 1] and a confidence
    that is not negative, the average score and the weighted score of the
    aggregate lie in [-1, 1] and its confidence is not negative. *)
Theorem aggregate_scores_bounded
    (results : list GPTSentimentAnalyzer.sentiment_result) :
  Forall (fun r => (-1 <= GPTSentimentAnalyzer.score_of r
                    /\ GPTSentimentAnalyzer.score_of r <= 1)
                   /\ 0 <= GPTSentimentAnalyzer.confidence_of r) results ->
  let s := GPTSentimentAnalyzer.aggregate_sentiment results in
  (-1 <= GPTSentimentAnalyzer.average_score s
   /\ GPTSentimentAnalyzer.average_score s <= 1)
  /\ (-1 <= GPTSentimentAnalyzer.weighted_score s
      /\ GPTSentimentAnalyzer.weighted_score s <= 1)
  /\ 0 <= GPTSentimentAnalyzer.avg_confidence s.
Proof.
  intros Hall. destruct results as [| r results]; [cbn; lra |].
  set (l := r :: results) in *.
  destruct (Analyzer.weighted_within_total l Hall) as (Htotal & Hwlo & Hwhi).
  assert (l <> []) as Hne by done.
  destruct (Strategy.mean_between (-1) 1 (List.map GPTSentimentAnalyzer.score_of l))
    as [Hmlo Hmhi].
  { subst l. discriminate. }
  { apply Forall_map. eapply Forall_impl; [exact Hall |]. by intros x [? _]. }
  unfold Py.len in Hmlo, Hmhi. rewrite length_map in Hmlo, Hmhi.
  fold (Py.len l) in Hmlo, Hmhi.
  destruct (Analyzer.aggregate_parts l Hne) as (Havg & Hw & Hfb & Hconf).
  cbv zeta. rewrite Havg. split; [split; assumption |].
  split.
  - destruct (Qlt_le_dec 0 (Py.sum (List.map GPTSentimentAnalyzer.confidence_of l)))
      as [Hpos | Hzero].
    + rewrite Hw by lra. split.
      * apply Qle_shift_div_l; [exact Hpos | lra].
      * apply Qle_shift_div_r; [exact Hpos | lra].
    + rewrite Hfb by lra. split; assumption.
  - rewrite Hconf. apply Qle_shift_div_l; [| lra].
    subst l. rewrite Strategy.len_cons. pose proof (Strategy.len_nonneg results). lra.
Qed.

Lemma aggregate_scores_bounded_witness :
  let s := GPTSentimentAnalyzer.aggregate_sentiment
             [GPTSentimentAnalyzer.Result (Some "positive") (Some 0.9)
                (GPTSentimentAnalyzer.Explained "beat") (Some 0.8);
              GPTSentimentAnalyzer.Result (Some "negative") (Some (-0.4))
                (GPTSentimentAnalyzer.Explained "miss") (Some 0.5)] in
  (-1 <= GPTSentimentAnalyzer.average_score s
   /\ GPTSentimentAnalyzer.average_score s <= 1)
  /\ (-1 <= GPTSentimentAnalyzer.weighted_score s
      /\ GPTSentimentAnalyzer.weighted_score s <= 1)
  /\ 0 <= GPTSentimentAnalyzer.avg_confidence s.
Proof.
  apply aggregate_scores_bounded.
  repeat constructor; vm_compute; discriminate.
Defined.

(** ** The simulator: look-back, ledger and metrics *)

Module Simulator.
Import BacktestingEngine.

Lemma sentiment_for_bounded sentiment_df d :
  Forall Accounting.bounded_row sentiment_df ->
  Accounting.bounded_sentiment (sentiment_for sentiment_df d).
Proof.
  intros Hall. unfold sentiment_for.
  destruct (last _) as [row |] eqn:Hlast.
  - apply last_Some in Hlast as [front Hfront].
    assert (In row (List.filter (fun r => (s_date r <=? d)%Z) sentiment_df)) as Hin
      by (rewrite Hfront; apply in_app_iff; right; by left).
    apply List.filter_In in Hin as [Hin _].
    rewrite List.Forall_forall in Hall. specialize (Hall row Hin).
    unfold Accounting.bounded_sentiment, Accounting.bounded_row in *.
    destruct (avg_sentiment_score row);
      [exact Hall | vm_compute; split; discriminate].
  - vm_compute. split; discriminate.
Qed.

(** What one trade step does to the portfolio and the log. *)
Lemma execute_cases tc strategy signal d price p ts p' ts' :
  execute tc strategy signal d price p ts = inr (p', ts') ->
  (p' = p /\ ts' = ts)
  \/ exists t,
       ts' = ts ++ [t] /\ t_date t = d /\ t_price t = price
       /\ (0 < t_shares t)%Z
       /\ shares p' = (shares p + Accounting.signed_shares t)%Z
       /\ (t_kind t = sell_trade -> shares p' = 0%Z)
       /\ (t_kind t = buy_trade -> t_amount t <= cash p)
       /\ Accounting.worth p' price
          == Accounting.worth p price - Accounting.fee tc t.
Proof.
  unfold execute.
  destruct (TradingStrategy.sig_type signal).
  - destruct (Py.gtb (cash p) 0); [| intros [= <- <-]; by left].
    destruct (Qeq_bool price 0); [done |].
    set (n := Py.int _).
    destruct (0 <? n)%Z eqn:Hn; [| intros [= <- <-]; by left].
    apply Z.ltb_lt in Hn.
    destruct (Py.leb _ (cash p)) eqn:Hcost; [| intros [= <- <-]; by left].
    apply Qle_bool_iff in Hcost.
    intros [= <- <-]. right. eexists. split; [reflexivity |].
    unfold Accounting.worth, Accounting.fee, Accounting.signed_shares. cbn.
    repeat split; try done. rewrite inject_Z_plus. ring.
  - destruct (0 <? shares p)%Z eqn:Hs; [| intros [= <- <-]; by left].
    apply Z.ltb_lt in Hs.
    intros [= <- <-]. right. eexists. split; [reflexivity |].
    unfold Accounting.worth, Accounting.fee, Accounting.signed_shares. cbn.
    repeat split; try done; [lia |]. ring.
  - intros [= <- <-]. by left.
Qed.

Lemma net_shares_snoc log t :
  Accounting.net_shares (log ++ [t])
  = (Accounting.net_shares log + Accounting.signed_shares t)%Z.
Proof.
  unfold Accounting.net_shares. induction log as [| x log IH]; simpl; [lia |].
  rewrite IH. lia.
Qed.

Section Engine.

Variable initial_capital transaction_cost : Q.
Variable indicator_library : list bar -> Q -> indicator_dict.

Local Abbreviation simulate_day :=
  (simulate_day transaction_cost indicator_library).
Local Abbreviation simulate := (simulate transaction_cost indicator_library).

(** One day keeps the books. *)
Lemma simulate_day_booked strategy market_df sentiment_df row l l' :
  simulate_day strategy market_df sentiment_df row l = inr l' ->
  Accounting.booked l ->
  Accounting.booked l'
  /\ length (daily_values l') = S (length (daily_values l)).
Proof.
  unfold BacktestingEngine.simulate_day.
  destruct (execute _ _ _ _ _ _ _) as [e | [p' ts']] eqn:E; [done |].
  intros [= <-]. cbn [holdings trades daily_values fst snd].
  intros (Hnet & Hpos & Hall & Hopen & Hflat).
  rewrite length_app. split; [| simpl; lia].
  apply execute_cases in E as [[-> ->] | (t & -> & _ & _ & Ht & Hsh & Hsell & _)].
  - by unfold Accounting.booked.
  - assert (Accounting.signed_shares t = t_shares t
            \/ (t_kind t = sell_trade
                /\ Accounting.signed_shares t = (- t_shares t)%Z)) as Hkind
      by (unfold Accounting.signed_shares; destruct (t_kind t); auto).
    unfold Accounting.booked. cbn [holdings trades fst snd].
    rewrite net_shares_snoc.
    repeat split.
    + lia.
    + destruct Hkind as [Hk | [Hk _]]; [lia | rewrite (Hsell Hk); lia].
    + apply Forall_app. split; [done | by constructor].
    + destruct (trades l) as [| t0 rest] eqn:Hlog; [| exact Hopen].
      cbn. specialize (Hflat eq_refl).
      unfold Accounting.signed_shares in Hsh.
      destruct (t_kind t) eqn:Hk; [done |].
      specialize (Hsell eq_refl). lia.
    + intros Hnil. by apply app_nil in Hnil as [_ ?].
Qed.

Lemma simulate_booked strategy market_df sentiment_df rows : forall l l',
  simulate strategy market_df sentiment_df rows l = inr l' ->
  Accounting.booked l ->
  Accounting.booked l'
  /\ length (daily_values l')
     = (length (daily_values l) + length rows)%nat.
Proof.
  induction rows as [| row rows IH]; intros l l'; cbn [BacktestingEngine.simulate].
  - intros [= <-] H. split; [done | simpl; lia].
  - destruct (simulate_day strategy market_df sentiment_df row l)
      as [e | l1] eqn:E1; [done |].
    cbn [Py.bind]. intros E2 Hl.
    destruct (simulate_day_booked _ _ _ _ _ _ E1 Hl) as [Hl1 Hlen1].
    destruct (IH _ _ E2 Hl1) as [Hl' Hlen']. split; [done |].
    rewrite Hlen', Hlen1. simpl. lia.
Qed.

(** Every recorded value is the cash plus the shares at the close. *)
Lemma simulate_priced strategy market_df sentiment_df rows : forall l l',
  simulate strategy market_df sentiment_df rows l = inr l' ->
  Forall (fun v => value v = v_cash v + inject_Z (v_shares v) * v_price v)
         (daily_values l) ->
  Forall (fun v => value v = v_cash v + inject_Z (v_shares v) * v_price v)
         (daily_values l').
Proof.
  induction rows as [| row rows IH]; intros l l'; cbn [BacktestingEngine.simulate].
  - by intros [= <-].
  - destruct (simulate_day strategy market_df sentiment_df row l)
      as [e | l1] eqn:E1; [done |].
    cbn [Py.bind]. intros E2 Hl. apply (IH _ _ E2).
    revert E1. unfold BacktestingEngine.simulate_day.
    destruct (execute _ _ _ _ _ _ _) as [e | pt]; [done |].
    intros [= <-]. cbn [daily_values]. apply Forall_app. split; [done |].
    by repeat constructor.
Qed.

(** With a fee below 1 and a positive close, a trade step leaves a funded
    portfolio funded: a buy is paid from the cash at hand and adds shares,
    a sell brings in cash. *)
Lemma execute_funded strategy signal d price p ts p' ts' :
  transaction_cost < 1 -> 0 < price ->
  execute transaction_cost strategy signal d price p ts = inr (p', ts') ->
  Accounting.funded p -> Accounting.funded p'.
Proof.
  intros Htc Hprice. unfold execute, Accounting.funded.
  destruct (TradingStrategy.sig_type signal).
  - destruct (Py.gtb (cash p) 0); [| by intros [= <- <-]].
    destruct (Qeq_bool price 0); [done |].
    set (n := Py.int _).
    destruct (0 <? n)%Z eqn:Hn; [| by intros [= <- <-]].
    apply Z.ltb_lt in Hn.
    destruct (Py.leb _ (cash p)) eqn:Hcost; [| by intros [= <- <-]].
    apply Qle_bool_iff in Hcost.
    intros [= <- <-] (Hcash & Hshares & _). cbn [cash shares].
    split; [lra |]. split; [lia |]. right. lia.
  - destruct (0 <? shares p)%Z eqn:Hs; [| by intros [= <- <-]].
    apply Z.ltb_lt in Hs.
    intros [= <- <-] (Hcash & Hshares & _). cbn [cash shares].
    assert (0 < inject_Z (shares p)) as Hq.
    { change 0 with (inject_Z 0). by rewrite <- Zlt_Qlt. }
    assert (0 < inject_Z (shares p) * price * (1 - transaction_cost)) as Hrev.
    { apply Qmult_lt_0_compat; [apply Qmult_lt_0_compat; assumption | lra]. }
    split; [lra |]. split; [lia |]. left. lra.
  - by intros [= <- <-].
Qed.

(** A funded portfolio is worth something at a positive price. *)
Lemma funded_worth p price :
  0 < price -> Accounting.funded p -> 0 < cash p + inject_Z (shares p) * price.
Proof.
  intros Hprice (Hcash & Hshares & Hsome).
  assert (0 <= inject_Z (shares p)) as Hq.
  { change 0 with (inject_Z 0). by rewrite <- Zle_Qle. }
  destruct Hsome as [Hc | Hs].
  - assert (0 <= inject_Z (shares p) * price)
      by (apply Qmult_le_0_compat; lra).
    lra.
  - assert (0 < inject_Z (shares p)) as Hq'.
    { change 0 with (inject_Z 0). by rewrite <- Zlt_Qlt. }
    assert (0 < inject_Z (shares p) * price)
      by (apply Qmult_lt_0_compat; assumption).
    lra.
Qed.

(** Over positive closes the day loop keeps the portfolio funded, and
    every recorded value is positive. *)
Lemma simulate_funded strategy market_df sentiment_df rows : forall l l',
  transaction_cost < 1 ->
  Forall (fun r => 0 < Close r) rows ->
  simulate strategy market_df sentiment_df rows l = inr l' ->
  Accounting.funded (holdings l) ->
  Forall (fun v => 0 < value v) (daily_values l) ->
  Accounting.funded (holdings l')
  /\ Forall (fun v => 0 < value v) (daily_values l').
Proof.
  induction rows as [| row rows IH]; intros l l' Htc Hrows;
    cbn [BacktestingEngine.simulate].
  - by intros [= <-].
  - apply Forall_cons in Hrows as [Hrow Hrows].
    destruct (simulate_day strategy market_df sentiment_df row l)
      as [e | l1] eqn:E1; [done |].
    cbn [Py.bind]. intros E2 Hl Hvalues.
    revert E1. unfold BacktestingEngine.simulate_day.
    destruct (execute _ _ _ _ _ _ _) as [e | [p' ts']] eqn:E; [done |].
    intros [= <-].
    pose proof (execute_funded _ _ _ _ _ _ _ _ Htc Hrow E Hl) as Hp'.
    apply (IH _ _ Htc Hrows E2); cbn [holdings daily_values fst snd];
      [exact Hp' |].
    apply Forall_app. split; [exact Hvalues |].
    apply Forall_cons. split; [| constructor].
    cbn [value]. by apply funded_worth.
Qed.

(** A strategy that needs indicators holds on a day without them. *)
Lemma quiet_day strategy market_df sentiment_df row l :
  (length market_df < 20)%nat ->
  Accounting.needs_indicators strategy ->
  Forall Accounting.bounded_row sentiment_df ->
  simulate_day strategy market_df sentiment_df row l
  = inr (Ledger (holdings l) (trades l)
           (daily_values l
            ++ [DailyValue (date row)
                  (cash (holdings l) + inject_Z (shares (holdings l)) * Close row)
                  (cash (holdings l)) (shares (holdings l)) (Close row)])).
Proof.
  intros Hshort (Hsw & Hbuy & Hsell) Hrows.
  unfold BacktestingEngine.simulate_day.
  assert (indicators_on indicator_library market_df (date row) (Close row) = ∅)
    as ->.
  { unfold indicators_on.
    pose proof (List.filter_length_le
                  (fun r => (date r <=? date row)%Z) market_df) as Hle.
    destruct (20 <=? _)%nat eqn:E; [| done].
    apply Nat.leb_le in E. lia. }
  unfold execute.
  rewrite hold_on_empty_indicators;
    [done | done | done | done | by apply sentiment_for_bounded].
Qed.

End Engine.

(** The cumulative products of positive factors are positive. *)
Lemma cumprod_positive (l : list Q) : forall acc,
  0 < acc -> Forall (fun x => 0 < x) l -> Forall (fun c => 0 < c) (cumprod acc l).
Proof.
  induction l as [| x l IH]; intros acc Hacc Hall; cbn [cumprod];
    [constructor |].
  apply Forall_cons in Hall as [Hx Hall].
  assert (0 < acc * x) by nra.
  apply Forall_cons. split; [done | by apply IH].
Qed.

(** Every value of a draw-down series lies in (-1, 0] when it is taken
    against a positive running maximum that is not below it. *)
Lemma drawdown_from (l : list Q) : forall m,
  0 < m -> Forall (fun c => 0 < c) l ->
  Forall (fun x => -1 < x /\ x <= 0)
         (List.map (fun cr : Q * Q => (cr.1 - cr.2) / cr.2)
                   (combine l (cummax_from m l))).
Proof.
  induction l as [| c l IH]; intros m Hm Hall; cbn [cummax_from combine List.map];
    [constructor |].
  apply Forall_cons in Hall as [Hc Hall].
  assert (0 < Py.max m c /\ c <= Py.max m c) as [Hpos Hge].
  { unfold Py.max, Py.gtb. cmp m c; split; lra. }
  apply Forall_cons. split; [| by apply IH].
  cbn [fst snd]. split.
  - apply Qlt_shift_div_l; [exact Hpos | lra].
  - apply Qle_shift_div_r; [exact Hpos | lra].
Qed.

Lemma drawdown_series (l : list Q) :
  Forall (fun c => 0 < c) l ->
  Forall (fun x => -1 < x /\ x <= 0)
         (List.map (fun cr : Q * Q => (cr.1 - cr.2) / cr.2)
                   (combine l (cummax l))).
Proof.
  destruct l as [| c l]; intros Hall; cbn [cummax combine List.map];
    [constructor |].
  apply Forall_cons in Hall as [Hc Hall].
  apply Forall_cons. split.
  - cbn [fst snd]. split.
    + apply Qlt_shift_div_l; [exact Hc | lra].
    + apply Qle_shift_div_r; [exact Hc | lra].
  - by apply drawdown_from.
Qed.

Lemma minimum_within (l : list Q) :
  Forall (fun x => -1 < x /\ x <= 0) l -> -1 < minimum l /\ minimum l <= 0.
Proof.
  intros Hall. destruct l as [| x l]; [cbn; lra |].
  unfold minimum.
  destruct (Limiter.fold_min_in l x) as [-> | Hin].
  - by apply Forall_cons in Hall as [? _].
  - rewrite List.Forall_forall in Hall. apply Hall. by right.
Qed.

(** The counters of the win-rate loop: profitable exits never outnumber
    the sells. *)
Lemma win_fold trades : forall prices won sold,
  (0 <= won <= sold)%Z ->
  let '(_, won', sold') := fold_left win_step trades (prices, won, sold) in
  (0 <= won' <= sold')%Z.
Proof.
  induction trades as [| t trades IH]; intros prices won sold H;
    cbn [fold_left]; [done |].
  unfold win_step at 2.
  destruct (t_kind t); [by apply IH |].
  destruct (last prices) as [[d price] |];
    [destruct (Py.gtb _ _) |]; apply IH; lia.
Qed.

Lemma pct_change_length (values : list Q) :
  length (pct_change values) = pred (length values).
Proof.
  induction values as [| v values IH]; [done |].
  destruct values as [| v' values]; [done |].
  cbn [pct_change length] in *. by rewrite IH.
Qed.

End Simulator.

(** X21: the sentiment used on a day never looks ahead: rows dated after
    the day are ignored wherever they stand in the frame, and when no row
    is dated on or before the day the reading is the neutral default with
    score 0.0 and confidence 0.3. *)
Theorem sentiment_never_looks_ahead
    (sentiment_df : list BacktestingEngine.sentiment_row) (d : Z) :
  BacktestingEngine.sentiment_for sentiment_df d
  = BacktestingEngine.sentiment_for
      (List.filter (fun r => (BacktestingEngine.s_date r <=? d)%Z) sentiment_df) d
  /\ (Forall (fun r => (d < BacktestingEngine.s_date r)%Z) sentiment_df ->
      BacktestingEngine.sentiment_for sentiment_df d
      = TradingStrategy.SentimentData (Some 0.0) (Some 0.3)).
Proof.
  unfold BacktestingEngine.sentiment_for. split.
  - by rewrite (Limiter.filter_stronger _ _ sentiment_df (fun _ H => H)).
  - intros Hall.
    assert (List.filter (fun r => (BacktestingEngine.s_date r <=? d)%Z) sentiment_df
            = []) as ->; [| done].
    induction Hall as [| r rows Hr _ IH]; [done |].
    cbn [List.filter]. by rewrite (proj2 (Z.leb_gt _ _) Hr).
Qed.

Lemma sentiment_never_looks_ahead_witness :
  BacktestingEngine.sentiment_for
    [BacktestingEngine.SentimentRow 9 (Some 0.7) (Some 0.8) (Some 12%Z)] 3
  = TradingStrategy.SentimentData (Some 0.0) (Some 0.3).
Proof.
  destruct (sentiment_never_looks_ahead
              [BacktestingEngine.SentimentRow 9 (Some 0.7) (Some 0.8) (Some 12%Z)] 3)
    as [_ H].
  apply H. repeat constructor.
Defined.

(** X22: a history of fewer than 20 days never trades under a strategy
    whose sentiment weight reaches neither threshold (the default strategy
    is one) when the sentiment scores lie in [-1, 1]: no indicators are
    computed, every signal is a hold, the trade log stays empty and every
    recorded day shows the initial capital in cash. *)
Theorem short_history_never_trades
    (initial_capital transaction_cost : Q)
    (indicator_library : list BacktestingEngine.bar -> Q -> indicator_dict)
    (strategy : TradingStrategy.strategy)
    (market_df : list BacktestingEngine.bar)
    (sentiment_df : list BacktestingEngine.sentiment_row) :
  (length market_df < 20)%nat ->
  Accounting.needs_indicators strategy ->
  Forall Accounting.bounded_row sentiment_df ->
  exists l,
    BacktestingEngine.simulate transaction_cost indicator_library strategy
      market_df sentiment_df market_df
      (BacktestingEngine.initial_ledger initial_capital) = inr l
    /\ BacktestingEngine.trades l = []
    /\ BacktestingEngine.holdings l = BacktestingEngine.Portfolio initial_capital 0
    /\ length (BacktestingEngine.daily_values l) = length market_df
    /\ Forall (fun v => BacktestingEngine.v_cash v = initial_capital
                        /\ BacktestingEngine.v_shares v = 0%Z
                        /\ BacktestingEngine.value v == initial_capital)
              (BacktestingEngine.daily_values l).
Proof.
  intros Hshort Hstrategy Hrows.
  assert (forall rows l0,
            BacktestingEngine.trades l0 = [] ->
            BacktestingEngine.holdings l0
            = BacktestingEngine.Portfolio initial_capital 0 ->
            Forall (fun v => BacktestingEngine.v_cash v = initial_capital
                             /\ BacktestingEngine.v_shares v = 0%Z
                             /\ BacktestingEngine.value v == initial_capital)
                   (BacktestingEngine.daily_values l0) ->
            exists l,
              BacktestingEngine.simulate transaction_cost indicator_library
                strategy market_df sentiment_df rows l0 = inr l
              /\ BacktestingEngine.trades l = []
              /\ BacktestingEngine.holdings l
                 = BacktestingEngine.Portfolio initial_capital 0
              /\ length (BacktestingEngine.daily_values l)
                 = (length (BacktestingEngine.daily_values l0) + length rows)%nat
              /\ Forall (fun v => BacktestingEngine.v_cash v = initial_capital
                                  /\ BacktestingEngine.v_shares v = 0%Z
                                  /\ BacktestingEngine.value v == initial_capital)
                        (BacktestingEngine.daily_values l)) as Hloop.
  { induction rows as [| row rows IH]; intros l0 Hlog Hp Hdays.
    - exists l0. cbn. repeat split; try done; lia.
    - cbn [BacktestingEngine.simulate].
      rewrite (Simulator.quiet_day transaction_cost indicator_library strategy
                 market_df sentiment_df row l0 Hshort Hstrategy Hrows).
      cbn [Py.bind]. rewrite Hlog, Hp.
      cbn [BacktestingEngine.cash BacktestingEngine.shares].
      match goal with
      | |- context [BacktestingEngine.simulate _ _ _ _ _ rows ?l1] =>
          destruct (IH l1) as (l & E & Hl1 & Hl2 & Hl3 & Hl4)
      end.
      + reflexivity.
      + reflexivity.
      + cbn [BacktestingEngine.daily_values]. apply Forall_app. split; [done |].
        constructor; [| constructor]. cbn. repeat split. ring.
      + exists l. split; [exact E |]. repeat split; try done.
        rewrite Hl3. cbn [BacktestingEngine.daily_values].
        rewrite length_app. simpl. lia. }
  destruct (Hloop market_df (BacktestingEngine.initial_ledger initial_capital))
    as (l & E & H1 & H2 & H3 & H4); try done.
  exists l. by repeat split.
Qed.

Lemma short_history_never_trades_witness :
  exists l,
    BacktestingEngine.simulate 0.001 no_indicators TradingStrategy.default_strategy
      buy_day strong_sentiment buy_day
      (BacktestingEngine.initial_ledger 100000) = inr l
    /\ BacktestingEngine.trades l = []
    /\ BacktestingEngine.holdings l = BacktestingEngine.Portfolio 100000 0
    /\ length (BacktestingEngine.daily_values l) = length buy_day
    /\ Forall (fun v => BacktestingEngine.v_cash v = 100000
                        /\ BacktestingEngine.v_shares v = 0%Z
                        /\ BacktestingEngine.value v == 100000)
              (BacktestingEngine.daily_values l).
Proof.
  apply (short_history_never_trades 100000 0.001 no_indicators
           TradingStrategy.default_strategy buy_day strong_sentiment).
  - simpl. lia.
  - vm_compute. repeat split; discriminate.
  - repeat constructor; vm_compute; discriminate.
Defined.

(** X23: a trade step either changes nothing or books exactly one trade, at
    the day's date and closing price and with a positive share count; the
    worth of the portfolio at that price then drops by exactly the fee,
    shares * price * transaction_cost, and a buy never costs more than the
    cash at hand. *)
Theorem trade_pays_only_the_fee
    (transaction_cost : Q) (strategy : TradingStrategy.strategy)
    (signal : TradingStrategy.signal) (d : Z) (price : Q)
    (p p' : BacktestingEngine.portfolio)
    (log log' : list BacktestingEngine.trade) :
  BacktestingEngine.execute transaction_cost strategy signal d price p log
  = inr (p', log') ->
  (p' = p /\ log' = log)
  \/ exists t,
       log' = log ++ [t]
       /\ BacktestingEngine.t_date t = d
       /\ BacktestingEngine.t_price t = price
       /\ (0 < BacktestingEngine.t_shares t)%Z
       /\ (BacktestingEngine.t_kind t = BacktestingEngine.buy_trade ->
           BacktestingEngine.t_amount t <= BacktestingEngine.cash p)
       /\ Accounting.worth p' price
          == Accounting.worth p price - Accounting.fee transaction_cost t.
Proof.
  intros E.
  apply Simulator.execute_cases in E
    as [H | (t & Hlog & Hd & Hp & Hpos & _ & _ & Hbuy & Hworth)].
  - by left.
  - right. exists t. by repeat split.
Qed.

Lemma trade_pays_only_the_fee_witness :
  exists t,
    [BacktestingEngine.Trade 0 BacktestingEngine.buy_trade 10 334
       (10 * 334 * (1 + 0.001))] = [] ++ [t]
    /\ BacktestingEngine.t_date t = 0%Z
    /\ BacktestingEngine.t_price t = 334
    /\ (0 < BacktestingEngine.t_shares t)%Z
    /\ (BacktestingEngine.t_kind t = BacktestingEngine.buy_trade ->
        BacktestingEngine.t_amount t <= 100000)
    /\ Accounting.worth
         (BacktestingEngine.Portfolio (100000 - 10 * 334 * (1 + 0.001)) (0 + 10)) 334
       == Accounting.worth (BacktestingEngine.Portfolio 100000 0) 334
          - Accounting.fee 0.001 t.
Proof.
  destruct (trade_pays_only_the_fee 0.001 sentiment_led
              (TradingStrategy.generate_signal sentiment_led
                 (BacktestingEngine.sentiment_for strong_sentiment 0) ∅)
              0 334 (BacktestingEngine.Portfolio 100000 0)
              (BacktestingEngine.Portfolio (100000 - 10 * 334 * (1 + 0.001)) (0 + 10))
              []
              [BacktestingEngine.Trade 0 BacktestingEngine.buy_trade 10 334
                 (10 * 334 * (1 + 0.001))])
    as [[_ H] | H].
  - vm_compute. reflexivity.
  - discriminate.
  - exact H.
Defined.

(** X24: whenever the day loop runs to the end, the share position equals
    the buys minus the sells of the trade log and is not negative, every
    trade in the log has a positive share count, the first trade is a buy,
    and one value is recorded per day. *)
Theorem trade_log_accounts_for_position
    (initial_capital transaction_cost : Q)
    (indicator_library : list BacktestingEngine.bar -> Q -> indicator_dict)
    (strategy : TradingStrategy.strategy)
    (market_df : list BacktestingEngine.bar)
    (sentiment_df : list BacktestingEngine.sentiment_row)
    (l : BacktestingEngine.ledger) :
  BacktestingEngine.simulate transaction_cost indicator_library strategy
    market_df sentiment_df market_df
    (BacktestingEngine.initial_ledger initial_capital) = inr l ->
  BacktestingEngine.shares (BacktestingEngine.holdings l)
  = Accounting.net_shares (BacktestingEngine.trades l)
  /\ (0 <= BacktestingEngine.shares (BacktestingEngine.holdings l))%Z
  /\ Forall (fun t => (0 < BacktestingEngine.t_shares t)%Z)
            (BacktestingEngine.trades l)
  /\ Accounting.opens_with_buy (BacktestingEngine.trades l)
  /\ length (BacktestingEngine.daily_values l) = length market_df.
Proof.
  intros E.
  destruct (Simulator.simulate_booked transaction_cost indicator_library strategy
              market_df sentiment_df market_df _ _ E)
    as [(H1 & H2 & H3 & H4 & _) Hlen].
  - unfold Accounting.booked. cbn. repeat split; try done; constructor.
  - repeat split; try done.
Qed.

Lemma trade_log_accounts_for_position_witness :
  BacktestingEngine.shares
    (BacktestingEngine.Portfolio (100000 - 10 * 334 * (1 + 0.001)) (0 + 10))
  = Accounting.net_shares
      ([] ++ [BacktestingEngine.Trade 0 BacktestingEngine.buy_trade 10 334
                (10 * 334 * (1 + 0.001))]).
Proof.
  destruct (trade_log_accounts_for_position 100000 0.001 no_indicators
              sentiment_led buy_day strong_sentiment
              (BacktestingEngine.Ledger
                 (BacktestingEngine.Portfolio (100000 - 10 * 334 * (1 + 0.001))
                    (0 + 10))
                 ([] ++ [BacktestingEngine.Trade 0 BacktestingEngine.buy_trade 10 334
                           (10 * 334 * (1 + 0.001))])
                 ([] ++ [BacktestingEngine.DailyValue 0
                           (100000 - 10 * 334 * (1 + 0.001) + inject_Z (0 + 10) * 334)
                           (100000 - 10 * 334 * (1 + 0.001)) (0 + 10) 334])))
    as [H _].
  - vm_compute. reflexivity.
  - exact H.
Defined.

(** X25: the win rate is a percentage: it lies between 0 and 100 for every
    trade log, and it is 0 when the log has fewer than two trades. *)
Theorem win_rate_is_a_percentage (log : list BacktestingEngine.trade) :
  0 <= BacktestingEngine.win_rate_of log
  /\ BacktestingEngine.win_rate_of log <= 100
  /\ ((length log < 2)%nat -> BacktestingEngine.win_rate_of log == 0).
Proof.
  unfold BacktestingEngine.win_rate_of.
  destruct (2 <=? length log)%nat eqn:Hlen.
  - apply Nat.leb_le in Hlen.
    pose proof (Simulator.win_fold log [] 0%Z 0%Z ltac:(lia)) as H.
    destruct (fold_left BacktestingEngine.win_step log ([], 0%Z, 0%Z))
      as [[prices won] sold].
    destruct (0 <? sold)%Z eqn:Hsold.
    + apply Z.ltb_lt in Hsold.
      assert (0 <= inject_Z won /\ inject_Z won <= inject_Z sold
              /\ 0 < inject_Z sold) as (Hw0 & Hws & Hs0).
      { unfold Qle, Qlt. cbn. lia. }
      assert (0 <= inject_Z won / inject_Z sold
              /\ inject_Z won / inject_Z sold <= 1) as [Hlo Hhi].
      { split; [apply Qle_shift_div_l | apply Qle_shift_div_r]; lra. }
      split; [| split]; [lra | lra | intros; lia].
    + split; [| split]; [lra | lra | intros; lia].
  - split; [| split]; [lra | lra | intros _; reflexivity].
Qed.

(** X26: on a frame that has at least one daily return, when every daily
    return is above -100 percent, the maximum draw-down is computed without
    error and lies between -100 (excluded) and 0. *)
Theorem max_drawdown_range
    (days : list BacktestingEngine.daily_value) (returns : list Q) :
  returns <> [] ->
  Forall (fun r => -1 < r) returns ->
  exists m,
    BacktestingEngine.max_drawdown_of
      (BacktestingEngine.ValuesFrame days (Some returns)) = inr m
    /\ -100 < m /\ m <= 0.
Proof.
  intros _ Hall. unfold BacktestingEngine.max_drawdown_of.
  cbn [BacktestingEngine.rows BacktestingEngine.daily_return_column
       BacktestingEngine.daily_return].
  destruct (0 <? length days)%nat; [| eexists; split; [reflexivity | lra]].
  cbn [Py.bind Py.ret]. eexists. split; [reflexivity |].
  match goal with
  | |- context [BacktestingEngine.minimum ?l] =>
      destruct (Simulator.minimum_within l) as [Hlo Hhi]
  end.
  - apply Simulator.drawdown_series. apply Simulator.cumprod_positive; [lra |].
    apply Forall_map. eapply Forall_impl; [exact Hall |].
    intros r Hr. cbv beta in Hr. lra.
  - split; lra.
Qed.

Lemma max_drawdown_range_witness :
  exists m,
    BacktestingEngine.max_drawdown_of
      (BacktestingEngine.ValuesFrame
         (BacktestingEngine.result_values two_day_metrics)
         (Some [0.1; -0.2; 0.05])) = inr m
    /\ -100 < m /\ m <= 0.
Proof.
  apply (max_drawdown_range
           (BacktestingEngine.result_values two_day_metrics) [0.1; -0.2; 0.05]).
  - discriminate.
  - repeat constructor.
Defined.

(** X27: when [run_backtest] returns results for a positive initial
    capital, a transaction cost below 1 and positive closes, the history has
    at least two days, the result lists one value per day, every listed
    value is positive and is the cash plus the shares at that day's close,
    so that every percentage change is defined and one daily return is
    listed per day after the first; the final value is the last listed one,
    and the reported trades are those of the loop. *)
Theorem backtest_result_shape
    (initial_capital transaction_cost : Q)
    (indicator_library : list BacktestingEngine.bar -> Q -> indicator_dict)
    (sqrt : Q -> Q) (strategy : TradingStrategy.strategy)
    (market_df : list BacktestingEngine.bar)
    (sentiment_df : list BacktestingEngine.sentiment_row)
    (sp500_closes : list Q) (m : BacktestingEngine.metrics) :
  0 < initial_capital ->
  transaction_cost < 1 ->
  Forall (fun r => 0 < BacktestingEngine.Close r) market_df ->
  BacktestingEngine.run_backtest initial_capital transaction_cost
    indicator_library sqrt strategy market_df sentiment_df sp500_closes
  = inr (BacktestingEngine.Results m) ->
  (2 <= length market_df)%nat
  /\ length (BacktestingEngine.result_values m) = length market_df
  /\ Forall (fun v => 0 < BacktestingEngine.value v)
            (BacktestingEngine.result_values m)
  /\ length (BacktestingEngine.daily_returns m) = (length market_df - 1)%nat
  /\ Forall (fun v => BacktestingEngine.value v
                      = BacktestingEngine.v_cash v
                        + inject_Z (BacktestingEngine.v_shares v)
                          * BacktestingEngine.v_price v)
            (BacktestingEngine.result_values m)
  /\ (exists v, last (BacktestingEngine.result_values m) = Some v
                /\ BacktestingEngine.final_value m = BacktestingEngine.value v)
  /\ (exists l,
        BacktestingEngine.simulate transaction_cost indicator_library strategy
          market_df sentiment_df market_df
          (BacktestingEngine.initial_ledger initial_capital) = inr l
        /\ BacktestingEngine.result_trades m = BacktestingEngine.trades l).
Proof.
  intros Hcapital Htc Hcloses.
  unfold BacktestingEngine.run_backtest.
  destruct market_df as [| row rows] eqn:Hdf; [done |]. rewrite <- Hdf in *.
  destruct (BacktestingEngine.simulate _ _ _ _ _ _ _) as [e | l] eqn:E; [done |].
  cbn [Py.bind].
  destruct (Simulator.simulate_funded transaction_cost indicator_library strategy
              market_df sentiment_df market_df _ _ Htc Hcloses E) as [_ Hpositive].
  { unfold Accounting.funded. cbn. split; [lra |]. split; [lia |]. by left. }
  { constructor. }
  destruct (Simulator.simulate_booked transaction_cost indicator_library strategy
              market_df sentiment_df market_df _ _ E) as [_ Hlen].
  { unfold Accounting.booked. cbn. repeat split; try done; constructor. }
  pose proof (Simulator.simulate_priced transaction_cost indicator_library strategy
                market_df sentiment_df market_df _ _ E (List.Forall_nil _)) as Hpriced.
  cbn in Hlen.
  unfold BacktestingEngine.summarize.
  destruct (1 <? length (BacktestingEngine.daily_values l))%nat eqn:Hmany.
  - apply Nat.ltb_lt in Hmany.
    cbn [BacktestingEngine.rows BacktestingEngine.daily_return].
    destruct (last (BacktestingEngine.daily_values l)) as [v |] eqn:Hlast; [| done].
    destruct (BacktestingEngine.max_drawdown_of _) as [e | dd]; [done |].
    cbn [Py.bind Py.ret]. intros [= <-].
    cbn [BacktestingEngine.result_values BacktestingEngine.daily_returns
         BacktestingEngine.final_value BacktestingEngine.result_trades].
    rewrite Simulator.pct_change_length, length_map.
    repeat split; try done; try lia.
    + by exists v.
    + by exists l.
  - apply Nat.ltb_ge in Hmany.
    cbn [BacktestingEngine.rows BacktestingEngine.daily_return].
    destruct (last (BacktestingEngine.daily_values l)) as [v |] eqn:Hlast; [| done].
    unfold BacktestingEngine.max_drawdown_of.
    cbn [BacktestingEngine.rows BacktestingEngine.daily_return_column
         BacktestingEngine.daily_return].
    assert ((0 <? length (BacktestingEngine.daily_values l))%nat = true) as ->.
    { apply Nat.ltb_lt. rewrite Hlen, Hdf. simpl. lia. }
    done.
Qed.

Lemma backtest_result_shape_witness :
  (2 <= length two_days)%nat
  /\ length (BacktestingEngine.result_values two_day_metrics) = length two_days.
Proof.
  destruct (backtest_result_shape 100000 0.001 no_indicators no_sqrt
              TradingStrategy.default_strategy two_days [] [] two_day_metrics)
    as (H1 & H2 & _).
  - reflexivity.
  - reflexivity.
  - repeat constructor.
  - vm_compute. reflexivity.
  - by split.
Defined.
